(** * Option profit/loss projections: the pricing core of [app.py]

    A shallow embedding of [norm_cdf], [black_scholes_price],
    [build_price_points] and the [index] view of [src/app.py], and the
    properties of the specification proved (or refuted) on it.

    The Python code is written once, over an abstract number type [F] with
    the operations the source applies to its [float]s.  Two number models
    instantiate it:
    - [R], exact real arithmetic, in which the formulas of the
      specification are stated;
    - [float], the binary64 numbers CPython computes with: [+ - * /],
      comparisons, [round], [format] and [math.sqrt] are computed; the
      values of [exp], [log] and [erf] are those of the platform's C
      library, a parameter ([clib]) of the [math] functions built on them.

    Exact arithmetic has no rounding, overflow or underflow: what holds
    over [R] is a statement about the formulas, and is carried over to the
    program only where it is proved for [float] as well.

    Exceptions are results of the computations ([outcome]); the [while]
    loop of [build_price_points] runs on fuel, and a statement that it
    returns gives a fuel from which the result no longer changes. *)

From Stdlib Require Import Reals Machin Lra Lia ZArith QArith Qreals.
From Stdlib Require Import List Sorted String Ascii Bool.
From Stdlib Require Import Floats.
From Stdlib Require DecimalString DecimalN.
Import ListNotations.

(** ** Outcomes of a Python computation *)

(** The exceptions the modelled code can raise. *)
Inductive exn : Set :=
| ZeroDivisionError
| ValueError
| OverflowError.

(** A computation returns a value, raises, or is still looping when the
    fuel given to a [while] loop is used up. *)
Inductive outcome (A : Type) : Type :=
| Return (a : A)
| Raise (e : exn)
| OutOfFuel.

Arguments Return {A} a.
Arguments Raise {A} e.
Arguments OutOfFuel {A}.

Definition bind {A B : Type} (m : outcome A) (k : A -> outcome B) : outcome B :=
  match m with
  | Return a => k a
  | Raise e => Raise e
  | OutOfFuel => OutOfFuel
  end.

Declare Scope py_scope.
Delimit Scope py_scope with py.

Notation "x <- m ;; k" := (bind m (fun x => k))
  (at level 61, m at next level, right associativity) : py_scope.
Notation "' pat <- m ;; k" := (bind m (fun x => match x with pat => k end))
  (at level 61, pat pattern, m at next level, right associativity) : py_scope.

(** [for x in xs: acc = body(acc, x)], stopping at the first exception. *)
Fixpoint for_each {A B : Type} (xs : list A) (acc : B)
    (body : B -> A -> outcome B) : outcome B :=
  match xs with
  | [] => Return acc
  | x :: xs' => bind (body acc x) (fun acc' => for_each xs' acc' body)
  end.

(** [try: m except (ValueError, TypeError): handler]; no modelled operation
    raises [TypeError]. *)
Definition try_except_ValueError {A : Type} (m : outcome A) (handler : outcome A)
  : outcome A :=
  match m with
  | Raise ValueError => handler
  | other => other
  end.

(** ** The number interface *)

(** Arithmetic and comparisons of Python's [float]; [lit] reads a decimal
    literal of the source, [of_int] is the conversion Python applies to an
    [int] operand of a mixed operation. *)
Class Arith (F : Type) : Type := {
  lit : Q -> F;
  of_int : Z -> outcome F;
  add : F -> F -> F;
  sub : F -> F -> F;
  mul : F -> F -> F;
  neg : F -> F;
  div : F -> F -> outcome F;
  leb : F -> F -> bool;
  ltb : F -> F -> bool
}.

(** The builtins [round(x, 2)] and [format(x, ".2f")]. *)
Class Builtins (F : Type) : Type := {
  round2 : F -> F;
  format_2f : F -> string
}.

(** The functions of the [math] module the pricer calls. *)
Class Libm (F : Type) : Type := {
  math_sqrt : F -> outcome F;
  math_exp : F -> outcome F;
  math_log : F -> outcome F;
  math_erf : F -> F
}.

Arguments lit {F _} q%_Q.

Infix "+" := add : py_scope.
Infix "-" := sub : py_scope.
Infix "*" := mul : py_scope.
Infix "/" := div : py_scope.
Notation "- x" := (neg x) : py_scope.
Infix "<=?" := leb : py_scope.
Infix "<?" := ltb : py_scope.

(** ** Calendar dates *)

(** A [datetime.date] is modelled by its proleptic Gregorian ordinal
    ([date.toordinal()]): day 1 is 0001-01-01 and [MAXORDINAL] is
    9999-12-31.  Subtracting two dates gives the difference of the ordinals
    and adding a [timedelta] adds its days. *)
Definition date : Set := Z.

Definition MAXORDINAL : Z := 3652059.

Definition valid_date (d : date) : Prop := (1 <= d <= MAXORDINAL)%Z.

(** [(d1 - d2).days] *)
Definition date_diff_days (d1 d2 : date) : Z := (d1 - d2)%Z.

(** [d + timedelta(days=k)]: [OverflowError] outside the supported range. *)
Definition date_add_days (d : date) (k : Z) : outcome date :=
  if ((1 <=? d + k) && (d + k <=? MAXORDINAL))%Z then Return (d + k)%Z
  else Raise OverflowError.

(** The ISO text of a date needs its year, month and day: [_is_leap], the
    month tables, [_ymd2ord] and [_ord2ymd] follow the [datetime] module of
    the standard library. *)
Definition is_leap (year : Z) : bool :=
  ((year mod 4 =? 0) && (negb (year mod 100 =? 0) || (year mod 400 =? 0)))%Z.

Definition DAYS_IN_MONTH (month : Z) : Z :=
  match month with
  | 1 => 31 | 2 => 28 | 3 => 31 | 4 => 30 | 5 => 31 | 6 => 30
  | 7 => 31 | 8 => 31 | 9 => 30 | 10 => 31 | 11 => 30 | 12 => 31
  | _ => -1
  end%Z.

Definition DAYS_BEFORE_MONTH (month : Z) : Z :=
  match month with
  | 1 => 0 | 2 => 31 | 3 => 59 | 4 => 90 | 5 => 120 | 6 => 151
  | 7 => 181 | 8 => 212 | 9 => 243 | 10 => 273 | 11 => 304 | 12 => 334
  | _ => -1
  end%Z.

Definition days_before_year (year : Z) : Z :=
  (let y := year - 1 in y * 365 + y / 4 - y / 100 + y / 400)%Z.

Definition days_before_month (year month : Z) : Z :=
  (DAYS_BEFORE_MONTH month + (if (2 <? month) && is_leap year then 1 else 0))%Z.

(** [_ymd2ord]: the ordinal of year, month, day. *)
Definition ymd2ord (year month day : Z) : Z :=
  (days_before_year year + days_before_month year month + day)%Z.

(** The end of [_ord2ymd]: month and day of the [n]-th day (from 0) of a
    year, from the estimate [(n + 50) >> 5] of the month. *)
Definition month_and_day (n : Z) (leapyear : bool) : Z * Z :=
  (let month := Z.shiftr (n + 50) 5 in
   let preceding :=
     DAYS_BEFORE_MONTH month + (if (2 <? month) && leapyear then 1 else 0) in
   if n <? preceding then
     let month := month - 1 in
     let preceding :=
       preceding
       - (DAYS_IN_MONTH month + (if (month =? 2) && leapyear then 1 else 0)) in
     (month, n - preceding + 1)
   else (month, n - preceding + 1))%Z.

(** [_ord2ymd]: year, month and day of an ordinal, by the 400, 100, 4 and 1
    year cycles of the Gregorian calendar. *)
Definition ord2ymd (n : Z) : Z * Z * Z :=
  (let n := n - 1 in
   let n400 := n / 146097 in
   let n := n mod 146097 in
   let year := n400 * 400 + 1 in
   let n100 := n / 36524 in
   let n := n mod 36524 in
   let n4 := n / 1461 in
   let n := n mod 1461 in
   let n1 := n / 365 in
   let n := n mod 365 in
   let year := year + (n100 * 100 + n4 * 4 + n1) in
   if (n1 =? 4) || (n100 =? 4) then (year - 1, 12, 31)
   else
     let leapyear := (n1 =? 3) && (negb (n4 =? 24) || (n100 =? 3)) in
     let '(month, day) := month_and_day n leapyear in
     (year, month, day))%Z.

(** One decimal digit as a character. *)
Definition digit (k : Z) : ascii := ascii_of_nat (48 + Z.to_nat (k mod 10)).

(** [d.isoformat()], that is ["%04d-%02d-%02d" % (year, month, day)]; the
    years of a [date] are 1..9999, so each field has its minimal width. *)
Definition isoformat (d : date) : string :=
  let '(year, month, day) := ord2ymd d in
  String (digit (year / 1000)) (String (digit (year / 100))
    (String (digit (year / 10)) (String (digit year)
    (String "-"
    (String (digit (month / 10)) (String (digit month)
    (String "-"
    (String (digit (day / 10)) (String (digit day) EmptyString)))))))))%Z.

(** ** Dictionaries *)

(** A Python [dict] with string keys, in insertion order: assigning to a key
    that is present replaces its value in place, a new key goes last. *)
Definition dict (V : Type) : Type := list (string * V).

Fixpoint dict_set {V : Type} (k : string) (v : V) (d : dict V) : dict V :=
  match d with
  | [] => [(k, v)]
  | (k', v') :: d' =>
      if String.eqb k k' then (k, v) :: d' else (k', v') :: dict_set k v d'
  end.

Fixpoint dict_get {V : Type} (k : string) (d : dict V) : option V :=
  match d with
  | [] => None
  | (k', v') :: d' => if String.eqb k k' then Some v' else dict_get k d'
  end.

(** [range(n)] *)
Definition range (n : Z) : list Z := map Z.of_nat (seq 0 (Z.to_nat n)).

(** ** The code of [app.py] *)

Section Code.

Context {F : Type} {A : Arith F} {B : Builtins F} {L : Libm F}.

Local Open Scope string_scope.
Local Open Scope py_scope.

(** The builtin [max(a, b)] on two floats: [b] when [b > a], else [a]. *)
Definition py_max (a b : F) : F := if a <? b then b else a.

(** [norm_cdf], app.py lines 9-11. *)
Definition norm_cdf (x : F) : outcome F :=
  s <- math_sqrt (lit 2.0) ;;
  q <- x / s ;;
  Return (lit 0.5 * (lit 1.0 + math_erf q)).

(** The two local quantities of [black_scholes_price], lines 31-32. *)
Definition bs_d1 (S K T r sigma : F) : outcome F :=
  q <- S / K ;;
  l <- math_log q ;;
  sT <- math_sqrt T ;;
  (l + (r + lit 0.5 * sigma * sigma) * T) / (sigma * sT).

Definition bs_d2 (d1 T sigma : F) : outcome F :=
  sT <- math_sqrt T ;;
  Return (d1 - sigma * sT).

(** [black_scholes_price], app.py lines 14-37. *)
Definition black_scholes_price (S K T r sigma : F) (option_type : string)
  : outcome F :=
  if (T <=? lit 0) || (sigma <=? lit 0) then
    if String.eqb option_type "call" then
      Return (py_max (lit 0.0) (S - K))
    else
      Return (py_max (lit 0.0) (K - S))
  else
    d1 <- bs_d1 S K T r sigma ;;
    d2 <- bs_d2 d1 T sigma ;;
    if String.eqb option_type "call" then
      n1 <- norm_cdf d1 ;;
      e <- math_exp (- r * T) ;;
      n2 <- norm_cdf d2 ;;
      Return (S * n1 - K * e * n2)
    else
      e <- math_exp (- r * T) ;;
      n2 <- norm_cdf (- d2) ;;
      n1 <- norm_cdf (- d1) ;;
      Return (K * e * n2 - S * n1).

(** The [while] loop of [build_price_points], lines 43-45; every iteration
    uses one unit of [fuel]. *)
Fixpoint price_loop (fuel : nat) (stock_max step current : F) (prices : list F)
  : outcome (list F) :=
  if current <=? stock_max + lit 1e-9 then
    match fuel with
    | O => OutOfFuel
    | Datatypes.S fuel' =>
        price_loop fuel' stock_max step (current + step)
          (prices ++ [round2 current])%list
    end
  else Return prices.

(** [build_price_points], app.py lines 40-46. *)
Definition build_price_points (fuel : nat) (stock_min stock_max step : F)
  : outcome (list F) :=
  price_loop fuel stock_max step stock_min [].

(** The form fields of a POST, converted as lines 55-63 and 70 convert
    them. *)
Record form : Type := {
  stock_price : F;
  strike_price : F;
  premium : F;
  contracts : Z;
  option_type : string;
  expiry_date : date;
  implied_volatility : F;
  stock_min : F;
  stock_max : F
}.

Inductive request : Type :=
| GET
| POST (f : form).

(** One row of the expiry table, lines 93-97. *)
Record row : Type := {
  price : F;
  pl_total : F;
  pl_per_contract : F
}.

(** What [results.html] is rendered with, besides the echoed form fields;
    [grid_json] is [json.dumps] of [grid]. *)
Record results : Type := {
  rows : list row;
  price_points : list F;
  date_labels : list string;
  grid : dict (dict F)
}.

Inductive response : Type :=
| index_html (error : option string)
| results_html (res : results).

(** The expiry-only table, lines 80-97. *)
Definition expiry_row (f : form) (cost_per_contract p : F) : outcome row :=
  let intrinsic :=
    if String.eqb (option_type f) "call"
    then py_max (lit 0.0) (p - strike_price f)
    else py_max (lit 0.0) (strike_price f - p) in
  let value_per_contract := intrinsic * lit 100 in
  let pl_per_contract := value_per_contract - cost_per_contract in
  c <- of_int (contracts f) ;;
  let total_pl := pl_per_contract * c in
  Return {| price := p;
            pl_total := total_pl;
            pl_per_contract := pl_per_contract |}.

(** The total profit or loss of one cell of the grid, lines 119-130. *)
Definition cell_total_pl (f : form) (cost_per_contract T r sigma p : F)
  : outcome F :=
  option_price <-
    black_scholes_price p (strike_price f) T r sigma (option_type f) ;;
  let value_per_contract := option_price * lit 100 in
  let pl_per_contract := value_per_contract - cost_per_contract in
  c <- of_int (contracts f) ;;
  let total_pl := pl_per_contract * c in
  Return total_pl.

(** The body of the loop over the prices, lines 117-133. *)
Definition grid_cell (f : form) (cost_per_contract T r sigma : F)
    (daily_map : dict F) (p : F) : outcome (dict F) :=
  total_pl <- cell_total_pl f cost_per_contract T r sigma p ;;
  let price_key := format_2f p in
  Return (dict_set price_key total_pl daily_map).

(** The body of the loop over the days, lines 107-135. *)
Definition grid_day (f : form) (today : date) (price_points : list F)
    (cost_per_contract r sigma : F)
    (acc : list string * dict (dict F)) (day_offset : Z)
  : outcome (list string * dict (dict F)) :=
  let '(date_list, grid) := acc in
  d <- date_add_days today day_offset ;;
  let date_str := isoformat d in
  let date_list := (date_list ++ [date_str])%list in
  let days_to_expiry := Z.max 0 (date_diff_days (expiry_date f) d) in
  n <- of_int days_to_expiry ;;
  T <- n / lit 365.0 ;;
  daily_map <-
    for_each price_points [] (grid_cell f cost_per_contract T r sigma) ;;
  Return (date_list, dict_set date_str daily_map grid).

(** The computation of a POST, lines 65-155, on the converted fields. *)
Definition index_post (fuel : nat) (today : date) (f : form) : outcome response :=
  if stock_max f <? stock_min f then
    Return (index_html
      (Some "Max stock price must be greater than or equal to min stock price."))
  else
    let total_days := Z.max 0 (date_diff_days (expiry_date f) today) in
    let step := lit 1.0 in
    price_points <- build_price_points fuel (stock_min f) (stock_max f) step ;;
    let cost_per_contract := premium f * lit 100 in
    rows <-
      for_each price_points []
        (fun rows p =>
           r <- expiry_row f cost_per_contract p ;; Return (rows ++ [r])%list) ;;
    let r := lit 0.02 in
    sigma <- implied_volatility f / lit 100.0 ;;
    ' (date_list, grid) <-
      for_each (range (total_days + 1)) ([], [])
        (grid_day f today price_points cost_per_contract r sigma) ;;
    Return (results_html
      {| rows := rows; price_points := price_points;
         date_labels := date_list; grid := grid |}).

(** [index], app.py lines 49-161: [today] is [date.today()]. *)
Definition index (fuel : nat) (today : date) (req : request) : outcome response :=
  match req with
  | POST f =>
      try_except_ValueError (index_post fuel today f)
        (Return (index_html
          (Some "Invalid input. Please make sure all numeric fields contain valid numbers.")))
  | GET => Return (index_html None)
  end.

End Code.

Arguments form F : clear implicits.
Arguments request F : clear implicits.
Arguments row F : clear implicits.
Arguments results F : clear implicits.
Arguments response F : clear implicits.

(** ** Formatting a number of cents *)

(** The decimal text of a natural number. *)
Definition decimal (q : N) : string :=
  DecimalString.NilZero.string_of_uint (N.to_uint q).

(** The text of [n] hundredths with two decimals, as [format(x, ".2f")]
    writes it: an optional sign, the integer part, a point, two digits. *)
Definition format_cents (negative : bool) (n : Z) : string :=
  ((if negative then "-" else "")
   ++ decimal (Z.to_N (n / 100))
   ++ String "." (String (digit (n / 10)) (String (digit n) EmptyString)))%string.

(** ** The exact model: real numbers *)

Local Open Scope R_scope.

(** [math.erf] over the reals is the error function, given by its Maclaurin
    series: erf x = 2/sqrt(pi) * sum_n (-1)^n x^(2n+1) / (n! (2n+1)).  The
    sum is that of a power series in [x^2], which converges everywhere by
    the ratio test; its definition needs this convergence. *)
Definition erf_coeff (n : nat) : R :=
  (-1) ^ n / (INR (fact n) * INR (2 * n + 1)).

Lemma erf_coeff_neq_0 (n : nat) : erf_coeff n <> 0.
Proof.
  unfold erf_coeff.
  assert (0 < INR (fact n)) by (apply lt_0_INR, lt_O_fact).
  assert (0 < INR (2 * n + 1)) by (apply lt_0_INR; lia).
  apply Rmult_integral_contrapositive_currified.
  - apply pow_nonzero; lra.
  - apply Rinv_neq_0_compat. nra.
Qed.

Lemma erf_coeff_ratio (n : nat) :
  Rabs (erf_coeff (S n) / erf_coeff n)
  = INR (2 * n + 1) / (INR (S n) * INR (2 * S n + 1)).
Proof.
  unfold erf_coeff.
  assert (Hf : 0 < INR (fact n)) by (apply lt_0_INR, lt_O_fact).
  assert (H1 : 0 < INR (2 * n + 1)) by (apply lt_0_INR; lia).
  assert (H2 : 0 < INR (2 * S n + 1)) by (apply lt_0_INR; lia).
  assert (H3 : 0 < INR (S n)) by (apply lt_0_INR; lia).
  assert (Hp : (-1) ^ n <> 0) by (apply pow_nonzero; lra).
  rewrite fact_simpl, mult_INR.
  replace ((-1) ^ S n / (INR (S n) * INR (fact n) * INR (2 * S n + 1)) /
           ((-1) ^ n / (INR (fact n) * INR (2 * n + 1))))
    with (- (INR (2 * n + 1) / (INR (S n) * INR (2 * S n + 1)))).
  - rewrite Rabs_Ropp. apply Rabs_pos_eq.
    apply Rlt_le, Rdiv_lt_0_compat; nra.
  - simpl pow. field. repeat split; lra.
Qed.

Lemma erf_coeff_ratio_cv :
  Un_cv (fun n => Rabs (erf_coeff (S n) / erf_coeff n)) 0.
Proof.
  intros eps Heps.
  destruct (archimed_cor1 eps Heps) as [N [HN HN0]].
  exists N. intros n Hn.
  rewrite erf_coeff_ratio.
  unfold Rdist. rewrite Rminus_0_r.
  assert (H1 : 0 < INR (2 * n + 1)) by (apply lt_0_INR; lia).
  assert (H2 : 0 < INR (2 * S n + 1)) by (apply lt_0_INR; lia).
  assert (H3 : 0 < INR (S n)) by (apply lt_0_INR; lia).
  assert (H4 : 0 < INR N) by (apply lt_0_INR; lia).
  assert (H5 : INR N <= INR n) by (apply le_INR; lia).
  assert (H6 : INR (2 * n + 1) < INR (2 * S n + 1)) by (apply lt_INR; lia).
  rewrite Rabs_pos_eq by (apply Rlt_le, Rdiv_lt_0_compat; nra).
  apply Rle_lt_trans with (/ INR (S n)).
  - unfold Rdiv. rewrite Rinv_mult.
    rewrite <- (Rmult_1_r (/ INR (S n))) at 2.
    rewrite (Rmult_comm (INR (2 * n + 1))), Rmult_assoc.
    apply Rmult_le_compat_l; [apply Rlt_le, Rinv_0_lt_compat; lra|].
    rewrite Rmult_comm. apply Rlt_le.
    apply (Rmult_lt_reg_r (INR (2 * S n + 1))); [lra|].
    rewrite Rmult_assoc, Rinv_l by lra. lra.
  - apply Rle_lt_trans with (/ INR N); [|exact HN].
    apply Rinv_le_contravar; [lra|]. rewrite S_INR. lra.
Qed.

(** The sum of [sum_n erf_coeff n * y^n], which converges for every [y]. *)
Definition erf_series (y : R) : R :=
  proj1_sig (Alembert_C3 erf_coeff y erf_coeff_neq_0 erf_coeff_ratio_cv).

Definition Rerf (x : R) : R := 2 / R_sqrt.sqrt PI * (x * erf_series (x * x)).

Definition R_leb (x y : R) : bool := if Rle_dec x y then true else false.
Definition R_ltb (x y : R) : bool := if Rlt_dec x y then true else false.

(** Rounding to the nearest integer, ties to the even one. *)
Definition round_half_even (x : R) : Z :=
  let f := Zfloor x in
  let r := x - IZR f in
  if Rlt_dec r (1 / 2) then f
  else if Rlt_dec (1 / 2) r then (f + 1)%Z
  else if Z.even f then f else (f + 1)%Z.

(** Exact arithmetic: no operation rounds, overflows or underflows, and
    every integer converts.  The only exception left is the division by
    zero. *)
#[export] Instance Arith_R : Arith R := {
  lit q := Q2R q;
  of_int z := Return (IZR z);
  add := Rplus;
  sub := Rminus;
  mul := Rmult;
  neg := Ropp;
  div x y := if Req_dec_T y 0 then Raise ZeroDivisionError else Return (x / y);
  leb := R_leb;
  ltb := R_ltb
}.

#[export] Instance Builtins_R : Builtins R := {
  round2 x := IZR (round_half_even (x * 100)) / 100;
  format_2f x :=
    format_cents (R_ltb x 0) (Z.abs (round_half_even (x * 100)))
}.

(** The mathematical functions: [exp] is total, so the range error of
    [math.exp] does not exist here; the domain errors of [math.sqrt] and
    [math.log] do. *)
#[export] Instance Libm_R : Libm R := {
  math_sqrt x := if Rle_dec 0 x then Return (R_sqrt.sqrt x) else Raise ValueError;
  math_exp x := Return (Rtrigo_def.exp x);
  math_log x := if Rlt_dec 0 x then Return (ln x) else Raise ValueError;
  math_erf := Rerf
}.

Local Close Scope R_scope.

(** ** The machine model: binary64 *)

(** The integer [z] correctly rounded to binary64 (to nearest, ties to
    even; an infinity when out of range). *)
Definition float_of_Z (z : Z) : float :=
  SF2Prim (binary_normalize prec emax z 0 false).

(** The number of hundredths nearest to the exact value [m * 2^e], ties to
    the even one. *)
Definition cents_of (m : positive) (e : Z) : Z :=
  match e with
  | Z0 => Zpos m * 100
  | Zpos p => Zpos m * 2 ^ Zpos p * 100
  | Zneg p =>
      let num := Zpos m * 100 in
      let den := 2 ^ Zpos p in
      let q := num / den in
      let r := num mod den in
      match (2 * r ?= den) with
      | Lt => q
      | Gt => q + 1
      | Eq => if Z.even q then q else q + 1
      end
  end%Z.

(** [round(x, 2)] on a float: the decimal with two places nearest to the
    exact value of [x], converted back to the nearest float. *)
Definition float_round2 (x : float) : float :=
  match Prim2SF x with
  | S754_finite s m e =>
      match cents_of m e with
      | Zpos n =>
          SF2Prim (SFdiv prec emax (S754_finite s n 0) (S754_finite false 100 0))
      | _ => SF2Prim (S754_zero s)
      end
  | _ => x
  end.

Definition float_format_2f (x : float) : string :=
  match Prim2SF x with
  | S754_finite s m e => format_cents s (cents_of m e)
  | S754_zero s => format_cents s 0
  | S754_infinity s => if s then "-inf" else "inf"
  | S754_nan => "nan"
  end%string.

#[export] Instance Arith_float : Arith float := {
  lit q := PrimFloat.div (float_of_Z (Qnum q)) (float_of_Z (Zpos (Qden q)));
  of_int z :=
    let x := float_of_Z z in
    if PrimFloat.is_infinity x then Raise OverflowError else Return x;
  add := PrimFloat.add;
  sub := PrimFloat.sub;
  mul := PrimFloat.mul;
  neg := PrimFloat.opp;
  div x y :=
    if PrimFloat.eqb y PrimFloat.zero then Raise ZeroDivisionError
    else Return (PrimFloat.div x y);
  leb := PrimFloat.leb;
  ltb := PrimFloat.ltb
}.

#[export] Instance Builtins_float : Builtins float := {
  round2 := float_round2;
  format_2f := float_format_2f
}.

(** The functions of the C library behind the [math] module; [sqrt] is
    the correctly rounded one of IEEE 754, the values of the others are
    those of the platform. *)
Record clib : Type := {
  c_exp : float -> float;
  c_log : float -> float;
  c_erf : float -> float
}.

(** [math_1] of CPython's [mathmodule.c], which wraps [sqrt], [exp] and
    [log]: a NaN computed from a number is a domain error, an infinity
    computed from a finite number is a range error when the function can
    overflow and a domain error otherwise. *)
Definition math_1 (func : float -> float) (can_overflow : bool) (x : float)
  : outcome float :=
  let r := func x in
  if PrimFloat.is_nan r && negb (PrimFloat.is_nan x) then Raise ValueError
  else if PrimFloat.is_infinity r && PrimFloat.is_finite x then
    if can_overflow then Raise OverflowError else Raise ValueError
  else Return r.

(** [m_log] of [mathmodule.c]. *)
Definition m_log (c : clib) (x : float) : float :=
  if PrimFloat.is_finite x then
    if PrimFloat.ltb 0 x then c_log c x
    else if PrimFloat.eqb x 0 then neg_infinity
    else nan
  else if PrimFloat.is_nan x then x
  else if PrimFloat.ltb 0 x then x
  else nan.

(** The [math] functions on floats, over a C library. *)
Definition Libm_float (c : clib) : Libm float := {|
  math_sqrt := math_1 PrimFloat.sqrt false;
  math_exp := math_1 (c_exp c) true;
  math_log := math_1 (m_log c) false;
  math_erf := c_erf c
|}.

(** ** The formulas of the specification *)

Local Open Scope R_scope.

(** The standard normal distribution function, by the error function. *)
Definition spec_Phi (x : R) : R := 0.5 * (1 + Rerf (x / R_sqrt.sqrt 2)).

Definition spec_d1 (S K T r sigma : R) : R :=
  (ln (S / K) + (r + 0.5 * sigma ^ 2) * T) / (sigma * R_sqrt.sqrt T).

Definition spec_d2 (S K T r sigma : R) : R :=
  spec_d1 S K T r sigma - sigma * R_sqrt.sqrt T.

Definition spec_call_value (S K T r sigma : R) : R :=
  S * spec_Phi (spec_d1 S K T r sigma)
  - K * Rtrigo_def.exp (- r * T) * spec_Phi (spec_d2 S K T r sigma).

Definition spec_put_value (S K T r sigma : R) : R :=
  K * Rtrigo_def.exp (- r * T) * spec_Phi (- spec_d2 S K T r sigma)
  - S * spec_Phi (- spec_d1 S K T r sigma).

(** ** Auxiliary definitions *)

(** *** Loops that fill a dictionary *)

Section KeyedLoops.

Context {X V : Type} (key : X -> string) (val : X -> outcome V).

(** The body of a loop that stores [val x] under [key x]. *)
Definition store (d : dict V) (x : X) : outcome (dict V) :=
  bind (val x) (fun v => Return (dict_set (key x) v d)).

(** The same, also listing the keys: the shape of the loop over the days. *)
Definition store_listing (acc : list string * dict V) (x : X)
  : outcome (list string * dict V) :=
  let '(keys, d) := acc in
  bind (val x) (fun v => Return (keys ++ [key x], dict_set (key x) v d)).

End KeyedLoops.

Section Views.

Context {F : Type} {A : Arith F} {B : Builtins F} {L : Libm F}.

(** The form with another option type. *)
Definition set_option_type (f : form F) (s : string) : form F :=
  {| stock_price := stock_price f;
     strike_price := strike_price f;
     premium := premium f;
     contracts := contracts f;
     option_type := s;
     expiry_date := expiry_date f;
     implied_volatility := implied_volatility f;
     stock_min := stock_min f;
     stock_max := stock_max f |}.

(** The dictionary of one day, lines 108-133, as a function of the day. *)
Definition daily_map_of (f : form F) (today : date) (price_points : list F)
    (cost_per_contract r sigma : F) (day_offset : Z) : outcome (dict F) :=
  bind (date_add_days today day_offset) (fun d =>
  bind (of_int (Z.max 0 (date_diff_days (expiry_date f) d))) (fun n =>
  bind (div n (lit 365.0)) (fun T =>
  for_each price_points [] (grid_cell f cost_per_contract T r sigma)))).

(** The value of [current] after [n] iterations of the loop of
    [build_price_points]. *)
Fixpoint current_after (step : F) (n : nat) (current : F) : F :=
  match n with
  | O => current
  | S n' => current_after step n' (add current step)
  end.

End Views.

(** *** The calendar *)

(** Month and day of a day of the year invert [days_before_month]: checked
    on the 365 days of a year, leap or not. *)
Definition month_and_day_ok (leapyear : bool) (n : Z) : bool :=
  (let '(month, day) := month_and_day n leapyear in
   (1 <=? month) && (month <=? 12) && (1 <=? day) && (day <=? 31)
   && (DAYS_BEFORE_MONTH month + (if (2 <? month) && leapyear then 1 else 0)
       + day =? n + 1))%Z.

(** *** The price axis *)

(** Strictly increasing lists. *)
Definition increasing (l : list R) : Prop := StronglySorted Rlt l.

(** A list of numbers of hundredths. *)
Definition hundredths (l : list R) : Prop :=
  Forall (fun p => exists n : Z, p = IZR n / 100) l.

(** The prices between two integers, one unit apart. *)
Definition int_prices (a : Z) (n : nat) : list R :=
  map (fun k => IZR (a + Z.of_nat k)) (seq 0 n).

(** *** The view *)

(** The value of the option if exercised at once. *)
Definition spec_intrinsic_value (option_type : string) (p strike : R) : R :=
  if String.eqb option_type "call" then Rmax 0 (p - strike)
  else Rmax 0 (strike - p).

(** The years from [d] to the expiry date, on a 365-day year. *)
Definition spec_years_to_expiry (expiry d : date) : R :=
  IZR (Z.max 0 (expiry - d)%Z) / 365.

(** The total profit or loss for an option worth [value]. *)
Definition spec_total_pl (f : form R) (value : R) : R :=
  (value * 100 - premium f * 100) * IZR (contracts f).

(** The inputs on which the view renders results whatever the dates and
    the volatility: a positive strike and a price range that starts at one
    hundredth or more. *)
Definition priceable (f : form R) : Prop :=
  0 < strike_price f /\ 0.01 <= stock_min f <= stock_max f.

(** *** A sample request *)

(** One at-the-money call, 19 December 2025, expiry two days later, prices
    from 99 to 101. *)
Definition sample_today : date := 739604%Z.

Definition sample_form : form R :=
  {| stock_price := 100;
     strike_price := 100;
     premium := 5;
     contracts := 1;
     option_type := "call";
     expiry_date := 739606%Z;
     implied_volatility := 20;
     stock_min := 99;
     stock_max := 101 |}.

(** *** Alternating series *)

(** The terms, without their signs, of the series of [erf_series] and of
    the exponential of a negative number. *)
Definition erf_term (y : R) (n : nat) : R :=
  y ^ n / (INR (fact n) * INR (2 * n + 1)).

Definition exp_term (y : R) (n : nat) : R := y ^ n / INR (fact n).

(** *** The values the price loop visits *)

Section Visited.

Context {F : Type} {A : Arith F} {B : Builtins F}.

(** The rounded values of [current] over the first [n] iterations of the
    loop of [build_price_points]. *)
Definition visited (step : F) (n : nat) (current : F) : list F :=
  map (fun k => round2 (current_after step k current)) (seq 0 n).

End Visited.

(** The number of values [stock_min + k * step] that pass the test of the
    loop, and their rounded list. *)
Definition axis_count (stock_min stock_max step : R) : nat :=
  Z.to_nat (Zfloor ((stock_max + 1 / 1000000000 - stock_min) / step) + 1).

Definition axis_points (stock_min step : R) (n : nat) : list R :=
  map (fun k => round2 (stock_min + INR k * step)) (seq 0 n).

(** *** The expiry table *)

(** The row of the expiry table for the price [p]. *)
Definition spec_row (f : form R) (p : R) : row R :=
  {| price := p;
     pl_total :=
       spec_total_pl f (spec_intrinsic_value (option_type f) p (strike_price f));
     pl_per_contract :=
       spec_intrinsic_value (option_type f) p (strike_price f) * 100
       - premium f * 100 |}.

(** The keys of a dictionary, in the order of their insertion. *)
Definition dict_keys {V : Type} (d : dict V) : list string := map fst d.

(** *** Requests on the edges *)

(** The sample with a strike of zero. *)
Definition zero_strike_form : form R :=
  {| stock_price := 100;
     strike_price := 0;
     premium := 5;
     contracts := 1;
     option_type := "call";
     expiry_date := 739606%Z;
     implied_volatility := 20;
     stock_min := 99;
     stock_max := 101 |}.

(** The sample with prices from 0 to 2. *)
Definition zero_price_form : form R :=
  {| stock_price := 100;
     strike_price := 100;
     premium := 5;
     contracts := 1;
     option_type := "call";
     expiry_date := 739606%Z;
     implied_volatility := 20;
     stock_min := 0;
     stock_max := 2 |}.

(** No volatility, a strike of zero and prices from -1 to 1. *)
Definition flat_form : form R :=
  {| stock_price := 100;
     strike_price := 0;
     premium := 5;
     contracts := 1;
     option_type := "put";
     expiry_date := 739606%Z;
     implied_volatility := 0;
     stock_min := -1;
     stock_max := 1 |}.

(** A request with more contracts than a float can hold. *)
Definition huge_contracts_form : form float :=
  {| stock_price := 100%float;
     strike_price := 100%float;
     premium := 5%float;
     contracts := (10 ^ 400)%Z;
     option_type := "call";
     expiry_date := 739606%Z;
     implied_volatility := 20%float;
     stock_min := 99%float;
     stock_max := 101%float |}.

(** What [index] renders on an empty price axis when the expiry is not
    after today. *)
Definition empty_results (today : date) : results float :=
  {| rows := [];
     price_points := [];
     date_labels := [isoformat today];
     grid := [(isoformat today, [])] |}.

(** A request whose lowest price is not a number. *)
Definition nan_form : form float :=
  {| stock_price := 100%float;
     strike_price := 100%float;
     premium := 5%float;
     contracts := 1%Z;
     option_type := "call";
     expiry_date := 739604%Z;
     implied_volatility := 20%float;
     stock_min := nan;
     stock_max := 101%float |}.

(** *** The order of the floats *)

(** The position of a binary64 number among the floats: the comparisons
    of two numbers are those of their ranks.  A finite number with
    mantissa [m] and exponent [e] has [m < 2^53] and [-1074 <= e <= 971],
    so the ranks of the finite numbers lie strictly between those of the
    infinities. *)
Definition spec_float_rank (f : spec_float) : Z :=
  match f with
  | S754_zero _ => 0
  | S754_nan => 0
  | S754_infinity s => if s then - 2 ^ 64 else 2 ^ 64
  | S754_finite s m e =>
      let k := (e + 1075) * 2 ^ 53 + Zpos m in
      if s then - k else k
  end%Z.

Definition float_rank (x : float) : Z := spec_float_rank (Prim2SF x).

(** *** The view in every number model *)

Section ViewAny.

Context {F : Type} {A : Arith F} {B : Builtins F}.

(** The row of the expiry table for the price [p], lines 84-97, with the
    number of contracts converted to [c]. *)
Definition row_of (f : form F) (c p : F) : row F :=
  let intrinsic :=
    if String.eqb (option_type f) "call"
    then py_max (lit 0.0) (sub p (strike_price f))
    else py_max (lit 0.0) (sub (strike_price f) p) in
  let pl_per_contract :=
    sub (mul intrinsic (lit 100)) (mul (premium f) (lit 100)) in
  {| price := p;
     pl_total := mul pl_per_contract c;
     pl_per_contract := pl_per_contract |}.

(** The view gets to the first cell of its grid, for the first price [p]
    of the axis and today, with the volatility [sigma] and the time [T]:
    the range check passes, the price axis is built and starts with [p],
    the number of contracts converts (the expiry table is computed), and
    so do the volatility and the time to expiry of lines 102 and
    113-114. *)
Definition reaches_first_cell (fuel : nat) (today : date) (f : form F)
    (p sigma T : F) : Prop :=
  ltb (stock_max f) (stock_min f) = false
  /\ (exists rest : list F,
        build_price_points fuel (stock_min f) (stock_max f) (lit 1.0)
        = Return (p :: rest))
  /\ (exists c : F, of_int (contracts f) = Return c)
  /\ div (implied_volatility f) (lit 100.0) = Return sigma
  /\ valid_date today
  /\ exists n : F,
       of_int (Z.max 0 (date_diff_days (expiry_date f) today)) = Return n
       /\ div n (lit 365.0) = Return T.

End ViewAny.

(** The sample in binary64, with a strike of zero. *)
Definition zero_strike_float_form : form float :=
  {| stock_price := 100%float;
     strike_price := 0%float;
     premium := 5%float;
     contracts := 1%Z;
     option_type := "call";
     expiry_date := 739606%Z;
     implied_volatility := 20%float;
     stock_min := 99%float;
     stock_max := 101%float |}.

(** The sample in binary64, with prices from 0 to 2. *)
Definition zero_price_float_form : form float :=
  {| stock_price := 100%float;
     strike_price := 100%float;
     premium := 5%float;
     contracts := 1%Z;
     option_type := "call";
     expiry_date := 739606%Z;
     implied_volatility := 20%float;
     stock_min := 0%float;
     stock_max := 2%float |}.

(** The sample in binary64 on its expiry day, with an option type the
    form does not offer. *)
Definition straddle_float_form : form float :=
  {| stock_price := 100%float;
     strike_price := 100%float;
     premium := 5%float;
     contracts := 1%Z;
     option_type := "straddle";
     expiry_date := 739604%Z;
     implied_volatility := 20%float;
     stock_min := 99%float;
     stock_max := 101%float |}.

(** ** Dictionaries and loops that fill them *)

Lemma dict_get_set_same {V : Type} (k : string) (v : V) (d : dict V) :
  dict_get k (dict_set k v d) = Some v.
Proof.
  induction d as [|[k' v'] d IH]; cbn [dict_set dict_get].
  - rewrite String.eqb_refl. reflexivity.
  - destruct (String.eqb k k') eqn:E; cbn [dict_get].
    + rewrite String.eqb_refl. reflexivity.
    + rewrite E. exact IH.
Qed.

Lemma dict_get_set_other {V : Type} (k k' : string) (v : V) (d : dict V) :
  k <> k' -> dict_get k (dict_set k' v d) = dict_get k d.
Proof.
  intros Hne. apply String.eqb_neq in Hne.
  induction d as [|[k'' v''] d IH]; cbn [dict_set dict_get].
  - rewrite Hne. reflexivity.
  - destruct (String.eqb k' k'') eqn:E; cbn [dict_get].
    + apply String.eqb_eq in E. subst k''. rewrite Hne. reflexivity.
    + rewrite IH. reflexivity.
Qed.

Section KeyedLoop.

Context {X V : Type} (key : X -> string) (val : X -> outcome V).

Lemma store_untouched (xs : list X) (d0 d : dict V) (k : string) :
  for_each xs d0 (store key val) = Return d ->
  (forall x, In x xs -> key x <> k) ->
  dict_get k d = dict_get k d0.
Proof.
  revert d0. induction xs as [|x xs IH]; intros d0 H Hk; cbn [for_each] in H.
  - injection H as <-. reflexivity.
  - unfold store at 1 in H. destruct (val x) as [v| |]; cbn [bind] in H;
      try discriminate.
    rewrite (IH _ H) by (intros y Hy; apply Hk; right; exact Hy).
    apply dict_get_set_other. intros E. apply (Hk x); [left; reflexivity|].
    symmetry. exact E.
Qed.

(** When the keys tell the elements apart, the loop leaves under each key
    the value of its element. *)
Lemma store_lookup (xs : list X) (d0 d : dict V) :
  (forall x y, In x xs -> In y xs -> key x = key y -> x = y) ->
  for_each xs d0 (store key val) = Return d ->
  forall x, In x xs ->
    exists v, val x = Return v /\ dict_get (key x) d = Some v.
Proof.
  revert d0. induction xs as [|a xs IH]; intros d0 Hinj H x Hx.
  - destruct Hx.
  - cbn [for_each] in H. unfold store at 1 in H.
    destruct (val a) as [va| |] eqn:Ea; cbn [bind] in H; try discriminate.
    assert (Hinj' : forall x y, In x xs -> In y xs -> key x = key y -> x = y)
      by (intros; apply Hinj; try right; assumption).
    destruct (existsb (fun y => String.eqb (key y) (key x)) xs) eqn:Ex.
    + apply existsb_exists in Ex. destruct Ex as (y & Hy & Ey).
      apply String.eqb_eq in Ey.
      assert (y = x) by (apply Hinj; [right; exact Hy | exact Hx | exact Ey]).
      subst y. apply (IH _ Hinj' H x Hy).
    + destruct Hx as [<-|Hx].
      * exists va. split; [exact Ea|].
        rewrite (store_untouched xs _ _ (key a) H).
        -- apply dict_get_set_same.
        -- intros y Hy E.
           assert (Hf : existsb (fun y => String.eqb (key y) (key a)) xs = true)
             by (apply existsb_exists; exists y; split;
                 [exact Hy | apply String.eqb_eq; exact E]).
           congruence.
      * exfalso.
        assert (Hf : existsb (fun y => String.eqb (key y) (key x)) xs = true)
          by (apply existsb_exists; exists x; split;
              [exact Hx | apply String.eqb_refl]).
        congruence.
Qed.

(** A loop that returns has computed the value of every element. *)
Lemma store_values (xs : list X) (d0 d : dict V) :
  for_each xs d0 (store key val) = Return d ->
  forall x, In x xs -> exists v, val x = Return v.
Proof.
  revert d0. induction xs as [|a xs IH]; intros d0 H x Hx.
  - destruct Hx.
  - cbn [for_each] in H. unfold store at 1 in H.
    destruct (val a) as [va| |] eqn:Ea; cbn [bind] in H; try discriminate.
    destruct Hx as [<-|Hx]; [eauto|]. apply (IH _ H x Hx).
Qed.

(** The loop returns when every value does. *)
Lemma store_returns (xs : list X) (d0 : dict V) :
  (forall x, In x xs -> exists v, val x = Return v) ->
  exists d, for_each xs d0 (store key val) = Return d.
Proof.
  revert d0. induction xs as [|a xs IH]; intros d0 H; cbn [for_each].
  - eauto.
  - destruct (H a) as [v Hv]; [left; reflexivity|].
    unfold store at 1. rewrite Hv. cbn [bind].
    apply IH. intros x Hx. apply H. right. exact Hx.
Qed.

(** The listing loop is the storing loop, with the keys in order. *)
Lemma store_listing_split (xs : list X) (keys0 keys : list string)
    (d0 d : dict V) :
  for_each xs (keys0, d0) (store_listing key val) = Return (keys, d)
  <-> keys = keys0 ++ map key xs /\ for_each xs d0 (store key val) = Return d.
Proof.
  revert keys0 d0. induction xs as [|a xs IH]; intros keys0 d0;
    cbn [for_each map].
  - rewrite app_nil_r. split.
    + intros H. injection H as <- <-. split; reflexivity.
    + intros [-> H]. injection H as <-. reflexivity.
  - unfold store_listing at 1, store at 1.
    destruct (val a) as [v| |]; cbn [bind].
    + rewrite IH, <- app_assoc. reflexivity.
    + split; [discriminate | intros [_ H]; discriminate].
    + split; [discriminate | intros [_ H]; discriminate].
Qed.

End KeyedLoop.

(** A loop that collects one result for each element. *)
Lemma for_each_collect {X Y : Type} (g : X -> outcome Y) (xs : list X)
    (acc l : list Y) :
  for_each xs acc (fun ys x => bind (g x) (fun y => Return (ys ++ [y]))) = Return l
  <-> exists ys, l = acc ++ ys /\ Forall2 (fun x y => g x = Return y) xs ys.
Proof.
  revert acc. induction xs as [|a xs IH]; intros acc; cbn [for_each].
  - split.
    + intros H. injection H as <-. exists []. rewrite app_nil_r.
      split; [reflexivity|constructor].
    + intros (ys & -> & H). inversion H. rewrite app_nil_r. reflexivity.
  - destruct (g a) as [y| |] eqn:Ea; cbn [bind].
    + rewrite IH. split.
      * intros (ys & -> & H). exists (y :: ys). rewrite <- app_assoc.
        split; [reflexivity|]. constructor; assumption.
      * intros (ys & -> & H). inversion H as [|? y' ? ys' Hy Hys]; subst.
        assert (y' = y) by congruence. subst y'.
        exists ys'. rewrite <- app_assoc. split; [reflexivity|assumption].
    + split; [discriminate|].
      intros (ys & _ & H). inversion H; subst. congruence.
    + split; [discriminate|].
      intros (ys & _ & H). inversion H; subst. congruence.
Qed.

(** ** Properties that hold in every number model *)

Section Generic.

Context {F : Type} {A : Arith F} {B : Builtins F} {L : Libm F}.

Lemma for_each_ext {X Y : Type} (xs : list X) (acc : Y)
    (body body' : Y -> X -> outcome Y) :
  (forall a x, In x xs -> body a x = body' a x) ->
  for_each xs acc body = for_each xs acc body'.
Proof.
  revert acc. induction xs as [|x xs IH]; intros acc H; cbn [for_each].
  - reflexivity.
  - rewrite H by (left; reflexivity).
    destruct (body' acc x); cbn [bind]; try reflexivity.
    apply IH. intros a0 x0 Hin. apply H. right. exact Hin.
Qed.

(** Every test on the option type is [option_type == "call"]: two types that
    both fail it are priced alike. *)
Lemma black_scholes_price_not_call (S K T r sigma : F) (s : string) :
  s <> "call"%string ->
  black_scholes_price S K T r sigma s = black_scholes_price S K T r sigma "put".
Proof.
  intros Hs. unfold black_scholes_price.
  apply String.eqb_neq in Hs. rewrite Hs.
  reflexivity.
Qed.

Lemma index_not_call (fuel : nat) (today : date) (f : form F) :
  option_type f <> "call"%string ->
  index fuel today (POST f) = index fuel today (POST (set_option_type f "put")).
Proof.
  intros Hs. pose proof Hs as Hs'. apply String.eqb_neq in Hs'.
  unfold index. f_equal. unfold index_post.
  cbn [set_option_type stock_min stock_max premium expiry_date implied_volatility].
  destruct (ltb (stock_max f) (stock_min f)); [reflexivity|].
  destruct (build_price_points fuel (stock_min f) (stock_max f) (lit 1.0))
    as [pts| |]; cbn [bind]; try reflexivity.
  assert (Hrows : forall c,
    for_each pts []
      (fun rows p => bind (expiry_row f c p) (fun r => Return (rows ++ [r])))
    = for_each pts []
      (fun rows p => bind (expiry_row (set_option_type f "put") c p)
                       (fun r => Return (rows ++ [r])))).
  { intros c. apply for_each_ext. intros a x _.
    unfold expiry_row. cbn [set_option_type option_type strike_price contracts].
    rewrite Hs'. reflexivity. }
  rewrite Hrows.
  match goal with |- bind ?m _ = _ => destruct m as [rows0| |] end;
    cbn [bind]; try reflexivity.
  destruct (div (implied_volatility f) (lit 100.0)) as [sigma| |];
    cbn [bind]; try reflexivity.
  match goal with
  | |- bind (for_each ?xs ?a ?b) _ = bind (for_each _ _ ?b') _ =>
      assert (Hgrid : for_each xs a b = for_each xs a b')
  end.
  { apply for_each_ext. intros [dl g] k _. unfold grid_day.
    cbn [set_option_type expiry_date].
    destruct (date_add_days today k) as [d| |]; cbn [bind]; try reflexivity.
    destruct (of_int (Z.max 0 (date_diff_days (expiry_date f) d))) as [n| |];
      cbn [bind]; try reflexivity.
    destruct (div n (lit 365.0)) as [T| |]; cbn [bind]; try reflexivity.
    match goal with
    | |- bind (for_each ?xs ?a ?b) _ = bind (for_each _ _ ?b') _ =>
        assert (Hday : for_each xs a b = for_each xs a b')
    end.
    { apply for_each_ext. intros m p _. unfold grid_cell, cell_total_pl.
      cbn [set_option_type option_type strike_price contracts].
      rewrite (black_scholes_price_not_call _ _ _ _ _ _ Hs). reflexivity. }
    rewrite Hday. reflexivity. }
  rewrite Hgrid. reflexivity.
Qed.

(** The loop over the prices stores each total under the formatted price. *)
Lemma grid_cell_store (f : form F) (cost_per_contract T r sigma : F) :
  grid_cell f cost_per_contract T r sigma
  = store format_2f (cell_total_pl f cost_per_contract T r sigma).
Proof. reflexivity. Qed.

(** The loop over the days stores each day's dictionary under its ISO
    date, and lists these dates. *)
Lemma grid_day_store (f : form F) (today : date) (price_points : list F)
    (cost_per_contract r sigma : F)
    (acc : list string * dict (dict F)) (day_offset : Z) :
  grid_day f today price_points cost_per_contract r sigma acc day_offset
  = store_listing (fun k => isoformat (today + k)%Z)
      (daily_map_of f today price_points cost_per_contract r sigma)
      acc day_offset.
Proof.
  destruct acc as [date_list grid0].
  unfold grid_day, store_listing, daily_map_of, date_add_days.
  destruct ((1 <=? today + day_offset)%Z && (today + day_offset <=? MAXORDINAL)%Z);
    cbn [bind]; [|reflexivity].
  destruct (of_int _) as [n| |]; cbn [bind]; try reflexivity.
  destruct (div n (lit 365.0)) as [T| |]; cbn [bind]; try reflexivity.
Qed.

(** More fuel does not change the result of the price loop. *)
Lemma price_loop_fuel_mono (fuel fuel' : nat) (stock_max step current : F)
    (prices l : list F) :
  (fuel <= fuel')%nat ->
  price_loop fuel stock_max step current prices = Return l ->
  price_loop fuel' stock_max step current prices = Return l.
Proof.
  revert fuel' current prices.
  induction fuel as [|fuel IH]; intros fuel' current prices Hle H.
  - cbn [price_loop] in H.
    destruct fuel'; cbn [price_loop];
      destruct (leb current (add stock_max (lit 1e-9))); try discriminate;
      exact H.
  - destruct fuel' as [|fuel']; [lia|].
    cbn [price_loop] in H |- *.
    destruct (leb current (add stock_max (lit 1e-9))); [|exact H].
    apply IH; [lia | exact H].
Qed.

(** The loop exits when some value of [current] fails its test. *)
Lemma price_loop_exits (n : nat) (stock_max step current : F) (prices : list F) :
  leb (current_after step n current) (add stock_max (lit 1e-9)) = false ->
  exists l, price_loop n stock_max step current prices = Return l.
Proof.
  revert current prices. induction n as [|n IH]; intros current prices H;
    cbn [current_after] in H; cbn [price_loop].
  - rewrite H. eauto.
  - destruct (leb current (add stock_max (lit 1e-9))); [|eauto].
    apply IH. exact H.
Qed.

(** A loop that has exited has met a value of [current] that fails the
    test. *)
Lemma price_loop_exited (fuel : nat) (stock_max step current : F)
    (prices l : list F) :
  price_loop fuel stock_max step current prices = Return l ->
  exists n : nat,
    (n <= fuel)%nat
    /\ leb (current_after step n current) (add stock_max (lit 1e-9)) = false.
Proof.
  revert current prices. induction fuel as [|fuel IH]; intros current prices H;
    cbn [price_loop] in H.
  - destruct (leb current (add stock_max (lit 1e-9))) eqn:E; [discriminate|].
    exists 0%nat. split; [lia | exact E].
  - destruct (leb current (add stock_max (lit 1e-9))) eqn:E.
    + destruct (IH _ _ H) as (n & Hn & Hf).
      exists (S n). split; [lia | exact Hf].
    + exists 0%nat. split; [lia | exact E].
Qed.

(** What [index] has computed when it renders the results. *)
Lemma index_results_any (fuel : nat) (today : date) (f : form F)
    (res : results F) :
  index fuel today (POST f) = Return (results_html res)
  <-> ltb (stock_max f) (stock_min f) = false
      /\ build_price_points fuel (stock_min f) (stock_max f) (lit 1.0)
         = Return (price_points res)
      /\ for_each (price_points res) []
           (fun rows p =>
              bind (expiry_row f (mul (premium f) (lit 100)) p)
                (fun r => Return (rows ++ [r])))
         = Return (rows res)
      /\ exists sigma : F,
           div (implied_volatility f) (lit 100.0) = Return sigma
           /\ for_each (range (Z.max 0 (expiry_date f - today) + 1)) ([], [])
                (grid_day f today (price_points res)
                   (mul (premium f) (lit 100)) (lit 0.02) sigma)
              = Return (date_labels res, grid res).
Proof.
  unfold index, index_post, date_diff_days.
  destruct (ltb (stock_max f) (stock_min f)).
  { cbn [try_except_ValueError].
    split; [discriminate | intros [H _]; discriminate]. }
  split.
  - intros H.
    destruct (build_price_points fuel (stock_min f) (stock_max f) (lit 1.0))
      as [pts| |] eqn:Epts; cbn [bind try_except_ValueError] in H;
      [| destruct e; discriminate | discriminate].
    destruct (for_each pts [] _) as [rows0| |] eqn:Erows;
      cbn [bind try_except_ValueError] in H;
      [| destruct e; discriminate | discriminate].
    destruct (div (implied_volatility f) (lit 100.0)) as [sigma| |] eqn:Es;
      cbn [bind try_except_ValueError] in H;
      [| destruct e; discriminate | discriminate].
    destruct (for_each (range _) _ _) as [[dl g]| |] eqn:Egrid;
      cbn [bind try_except_ValueError] in H;
      [| destruct e; discriminate | discriminate].
    injection H as <-. cbn [price_points rows date_labels grid].
    repeat split; try assumption. exists sigma. split; [reflexivity | exact Egrid].
  - intros (_ & H1 & H2 & sigma & Hs & H3).
    rewrite H1. cbn [bind]. rewrite H2. cbn [bind]. rewrite Hs. cbn [bind].
    rewrite H3. cbn [bind try_except_ValueError].
    destruct res; reflexivity.
Qed.

(** The date axis [index] renders, whatever the arithmetic. *)
Lemma index_date_labels (fuel : nat) (today : date) (f : form F)
    (res : results F) :
  index fuel today (POST f) = Return (results_html res) ->
  date_labels res
  = map (fun k => isoformat (today + k)%Z)
      (range (Z.max 0 (expiry_date f - today) + 1)).
Proof.
  intros H. apply index_results_any in H.
  destruct H as (_ & _ & _ & sigma & _ & H).
  rewrite (for_each_ext _ _ _ _
             (fun acc k _ => grid_day_store f today (price_points res)
                               _ _ _ acc k)) in H.
  apply store_listing_split in H. destruct H as [Hdl _]. exact Hdl.
Qed.

(** In the boundary case the pricer returns the intrinsic value, computed
    with the subtraction and the [max] of the number model. *)
Lemma black_scholes_price_boundary_any (S K T r sigma : F) (s : string) :
  leb T (lit 0) = true \/ leb sigma (lit 0) = true ->
  black_scholes_price S K T r sigma s
  = Return (if String.eqb s "call" then py_max (lit 0.0) (sub S K)
            else py_max (lit 0.0) (sub K S)).
Proof.
  intros H. unfold black_scholes_price.
  assert (Hb : (leb T (lit 0) || leb sigma (lit 0)) = true)
    by (apply orb_true_iff; exact H).
  rewrite Hb. destruct (String.eqb s "call"); reflexivity.
Qed.

End Generic.

(** ** The definitions on concrete inputs *)

Local Close Scope R_scope.
Local Open Scope Z_scope.
#[local] Set Warnings "-inexact-float".

Example isoformat_examples :
  map isoformat [1; 730120; 738945; 739604; 3652059]
  = ["0001-01-01"; "2000-01-01"; "2024-02-29"; "2025-12-19"; "9999-12-31"]%string.
Proof. vm_compute. reflexivity. Qed.

Example ymd2ord_examples :
  ymd2ord 1 1 1 = 1 /\ ymd2ord 2024 2 29 = 738945
  /\ ymd2ord 2025 12 19 = 739604 /\ ymd2ord 9999 12 31 = MAXORDINAL.
Proof. vm_compute. repeat split. Qed.

Example date_add_days_examples :
  date_add_days 739604 2 = Return 739606
  /\ date_add_days MAXORDINAL 1 = Raise OverflowError.
Proof. vm_compute. split; reflexivity. Qed.

Example range_example : range 3 = [0; 1; 2].
Proof. reflexivity. Qed.

Example dict_set_example :
  dict_set "a" 3 (dict_set "b" 2 (dict_set "a" 1 []))
  = [("a", 3); ("b", 2)]%string.
Proof. reflexivity. Qed.

Example format_cents_examples :
  map (fun '(s, n) => format_cents s n)
    [(false, 0); (false, 5); (false, 1050); (true, 250); (true, 0)]
  = ["0.00"; "0.05"; "10.50"; "-2.50"; "-0.00"]%string.
Proof. vm_compute. reflexivity. Qed.

(** In binary64: literals, [round(x, 2)], [format(x, ".2f")] and the
    conversion of an [int]. *)
Example float_lit_examples :
  lit (F := float) 1e-9 = 1e-9%float /\ lit (F := float) 0.02 = 0.02%float
  /\ lit (F := float) 365.0 = 365%float /\ lit (F := float) 0.5 = 0.5%float.
Proof. vm_compute. repeat split. Qed.

Example float_round2_examples :
  map round2 [2.675; 0.125; 0.375; 1234.5; 99.995; 1e22]%float
  = [2.67; 0.12; 0.38; 1234.5; 100; 1e22]%float.
Proof. vm_compute. reflexivity. Qed.

Example float_format_2f_examples :
  map format_2f [2.675; 0.125; 0.005; 1234.5; neg 2.5; neg 0.001]%float
  = ["2.67"; "0.12"; "0.01"; "1234.50"; "-2.50"; "-0.00"]%string.
Proof. vm_compute. reflexivity. Qed.

Example float_of_int_examples :
  of_int (F := float) 7 = Return 7%float
  /\ of_int (F := float) (2 ^ 53 + 1) = Return 9007199254740992%float
  /\ of_int (F := float) (10 ^ 400) = Raise OverflowError.
Proof. vm_compute. repeat split. Qed.

Example float_div_examples :
  div 1%float 0%float = Raise ZeroDivisionError
  /\ div 1%float 4%float = Return 0.25%float.
Proof. vm_compute. split; reflexivity. Qed.

Example float_build_price_points_example :
  build_price_points 20 0.1%float 5.35%float 0.35%float
  = Return [0.1; 0.45; 0.8; 1.15; 1.5; 1.85; 2.2; 2.55; 2.9; 3.25; 3.6; 3.95;
            4.3; 4.65; 5; 5.35]%float.
Proof. vm_compute. reflexivity. Qed.

#[local] Set Warnings "+inexact-float".
Local Close Scope Z_scope.
Local Open Scope R_scope.

(** ** Reasoning in the exact model *)

(** Unfolds the operations of the real-number instances. *)
Ltac unfold_R :=
  cbv [lit of_int add sub mul neg div leb ltb round2 format_2f
       math_sqrt math_exp math_log math_erf Arith_R Builtins_R Libm_R
       R_leb R_ltb bind] in *.

(** The value of a literal as a quotient of integer constants. *)
Lemma Q2R_lit (q : Q) (n : Z) (d : positive) :
  Qred q = Qmake n d -> Q2R q = (IZR n / IZR (Zpos d))%R.
Proof.
  intros H. rewrite <- (Qeq_eqR _ _ (Qred_correct q)), H. reflexivity.
Qed.

Lemma Q2R_lit_int (q : Q) (n : Z) : Qred q = Qmake n 1 -> Q2R q = IZR n.
Proof. intros H. rewrite (Q2R_lit q n 1 H). field. Qed.

(** Replaces each literal [Q2R q] by its value. *)
Ltac norm_lit :=
  repeat match goal with
  | |- context [Q2R ?q] =>
      let q' := eval vm_compute in (Qred q) in
      lazymatch q' with
      | Qmake ?n 1%positive =>
          rewrite (@Q2R_lit_int q n (eq_refl q'))
      | Qmake ?n ?d => rewrite (@Q2R_lit q n d (eq_refl q'))
      end
  | H : context [Q2R ?q] |- _ =>
      let q' := eval vm_compute in (Qred q) in
      lazymatch q' with
      | Qmake ?n 1%positive =>
          rewrite (@Q2R_lit_int q n (eq_refl q')) in H
      | Qmake ?n ?d => rewrite (@Q2R_lit q n d (eq_refl q')) in H
      end
  end.

(** Settles the comparisons the code makes, by linear arithmetic. *)
Ltac decide_R :=
  repeat match goal with
  | |- context [Rle_dec ?a ?b] => destruct (Rle_dec a b); try (exfalso; lra)
  | |- context [Rlt_dec ?a ?b] => destruct (Rlt_dec a b); try (exfalso; lra)
  | |- context [Req_dec_T ?a ?b] => destruct (Req_dec_T a b); try (exfalso; lra)
  end.

Lemma R_leb_spec (x y : R) : R_leb x y = true <-> x <= y.
Proof. unfold R_leb. destruct (Rle_dec x y); split; intros; [ | | discriminate | ]; tauto. Qed.

Lemma R_ltb_spec (x y : R) : R_ltb x y = true <-> x < y.
Proof. unfold R_ltb. destruct (Rlt_dec x y); split; intros; [ | | discriminate | ]; tauto. Qed.

Lemma py_max_R (a b : R) : py_max a b = Rmax a b.
Proof.
  unfold py_max, Rmax. unfold_R.
  destruct (Rlt_dec a b), (Rle_dec a b); lra.
Qed.

Lemma sqrt_2_pos : 0 < R_sqrt.sqrt 2.
Proof. apply sqrt_lt_R0; lra. Qed.

Lemma norm_cdf_R (x : R) : norm_cdf x = Return (spec_Phi x).
Proof.
  pose proof sqrt_2_pos as H2.
  unfold norm_cdf, spec_Phi. unfold_R. norm_lit.
  decide_R. f_equal; lra.
Qed.

Lemma bs_d1_R (S K T r sigma : R) :
  0 < S -> 0 < K -> 0 < T -> 0 < sigma ->
  bs_d1 S K T r sigma = Return (spec_d1 S K T r sigma).
Proof.
  intros HS HK HT Hs.
  assert (HSK : 0 < S / K) by (apply Rdiv_lt_0_compat; assumption).
  assert (HsT : 0 < R_sqrt.sqrt T) by (apply sqrt_lt_R0; assumption).
  assert (Hden : 0 < sigma * R_sqrt.sqrt T) by (apply Rmult_lt_0_compat; assumption).
  unfold bs_d1, spec_d1. unfold_R. norm_lit. decide_R.
  f_equal. f_equal; lra.
Qed.

Lemma bs_d2_R (d1 T sigma : R) :
  0 < T -> bs_d2 d1 T sigma = Return (d1 - sigma * R_sqrt.sqrt T).
Proof.
  intros HT. unfold bs_d2. unfold_R. decide_R. reflexivity.
Qed.

(** Outside the boundary case the pricer takes the Black-Scholes branch. *)
Lemma black_scholes_price_general (S K T r sigma : R) (option_type : string) :
  0 < S -> 0 < K -> 0 < T -> 0 < sigma ->
  black_scholes_price S K T r sigma option_type
  = Return (if String.eqb option_type "call" then spec_call_value S K T r sigma
            else spec_put_value S K T r sigma).
Proof.
  intros HS HK HT Hs.
  unfold black_scholes_price.
  rewrite bs_d1_R by assumption.
  assert (Hb : ((T <=? lit 0) || (sigma <=? lit 0))%py = false).
  { unfold_R. norm_lit. decide_R. reflexivity. }
  rewrite Hb. cbn [bind].
  rewrite bs_d2_R by assumption. cbn [bind].
  rewrite !norm_cdf_R. cbn [bind].
  destruct (String.eqb option_type "call"); unfold_R; reflexivity.
Qed.

(** In the boundary case the pricer returns the intrinsic value. *)
Lemma black_scholes_price_boundary (S K T r sigma : R) (option_type : string) :
  T <= 0 \/ sigma <= 0 ->
  black_scholes_price S K T r sigma option_type
  = Return (if String.eqb option_type "call" then Rmax 0 (S - K)
            else Rmax 0 (K - S)).
Proof.
  intros Hb. unfold black_scholes_price.
  assert (Hc : ((T <=? lit 0) || (sigma <=? lit 0))%py = true).
  { apply orb_true_iff. destruct Hb; [left | right];
      apply R_leb_spec; cbn [lit Arith_R]; norm_lit; lra. }
  rewrite Hc, !py_max_R.
  replace (lit 0.0) with 0 by (cbn [lit Arith_R]; norm_lit; lra).
  destruct (String.eqb option_type "call"); reflexivity.
Qed.

Lemma Rerf_odd (x : R) : Rerf (- x) = - Rerf x.
Proof. unfold Rerf. replace (- x * - x) with (x * x) by ring. ring. Qed.

Lemma spec_Phi_opp (x : R) : spec_Phi (- x) = 1 - spec_Phi x.
Proof.
  unfold spec_Phi.
  replace (- x / R_sqrt.sqrt 2) with (- (x / R_sqrt.sqrt 2))
    by (unfold Rdiv; ring).
  rewrite Rerf_odd. lra.
Qed.

(** ** The calendar *)

Local Open Scope Z_scope.

(** Month and day of a day of the year invert [days_before_month]. *)
Lemma month_and_day_spec (n : Z) (leapyear : bool) :
  0 <= n < 365 ->
  let '(month, day) := month_and_day n leapyear in
  1 <= month <= 12 /\ 1 <= day <= 31
  /\ DAYS_BEFORE_MONTH month + (if (2 <? month) && leapyear then 1 else 0) + day
     = n + 1.
Proof.
  intros Hn.
  assert (Hall : forall b,
    forallb (month_and_day_ok b) (map Z.of_nat (seq 0 365)) = true)
    by (intros [|]; vm_compute; reflexivity).
  assert (Hok : month_and_day_ok leapyear n = true).
  { pose proof (Hall leapyear) as H. rewrite forallb_forall in H.
    apply H. apply in_map_iff. exists (Z.to_nat n).
    split; [lia|]. apply in_seq. lia. }
  unfold month_and_day_ok in Hok.
  destruct (month_and_day n leapyear) as [month day].
  rewrite !andb_true_iff in Hok. lia.
Qed.

(** The year found by [ord2ymd] is a leap year exactly when the cycle
    counts say so. *)
Lemma is_leap_cycles (a b c d : Z) :
  0 <= b <= 3 -> 0 <= c <= 24 -> 0 <= d <= 3 ->
  is_leap (a * 400 + 1 + (b * 100 + c * 4 + d))
  = (d =? 3) && (negb (c =? 24) || (b =? 3)).
Proof.
  intros Hb Hc Hd. unfold is_leap.
  set (y := a * 400 + 1 + (b * 100 + c * 4 + d)).
  assert (H4 : y mod 4 = (d + 1) mod 4).
  { unfold y. replace (a * 400 + 1 + (b * 100 + c * 4 + d))
      with (d + 1 + (a * 100 + b * 25 + c) * 4) by ring.
    apply Z.mod_add. lia. }
  assert (H100 : y mod 100 = (c * 4 + d + 1) mod 100).
  { unfold y. replace (a * 400 + 1 + (b * 100 + c * 4 + d))
      with (c * 4 + d + 1 + (a * 4 + b) * 100) by ring.
    apply Z.mod_add. lia. }
  assert (H400 : y mod 400 = (b * 100 + c * 4 + d + 1) mod 400).
  { unfold y. replace (a * 400 + 1 + (b * 100 + c * 4 + d))
      with (b * 100 + c * 4 + d + 1 + a * 400) by ring.
    apply Z.mod_add. lia. }
  rewrite H4, H100, H400.
  destruct (Z.eqb_spec d 3) as [Hd3|Hd3].
  - subst d.
    replace ((3 + 1) mod 4) with 0 by reflexivity. cbn [Z.eqb andb].
    destruct (Z.eqb_spec c 24) as [Hc24|Hc24].
    + subst c. replace ((24 * 4 + 3 + 1) mod 100) with 0 by reflexivity.
      cbn [Z.eqb negb orb].
      destruct (Z.eqb_spec b 3) as [Hb3|Hb3].
      * subst b. reflexivity.
      * rewrite Z.mod_small by lia. apply Z.eqb_neq. lia.
    + rewrite Z.mod_small by lia.
      replace (c * 4 + 3 + 1 =? 0) with false
        by (symmetry; apply Z.eqb_neq; lia).
      reflexivity.
  - rewrite (Z.mod_small (d + 1)) by lia.
    replace (d + 1 =? 0) with false by (symmetry; apply Z.eqb_neq; lia).
    reflexivity.
Qed.

(** The days before the year found by [ord2ymd]. *)
Lemma days_before_year_cycles (a b c d : Z) :
  0 <= b <= 3 -> 0 <= c <= 24 -> 0 <= d <= 3 ->
  days_before_year (a * 400 + 1 + (b * 100 + c * 4 + d))
  = a * 146097 + b * 36524 + c * 1461 + d * 365.
Proof.
  intros Hb Hc Hd. unfold days_before_year. cbv zeta.
  replace (a * 400 + 1 + (b * 100 + c * 4 + d) - 1)
    with (a * 400 + b * 100 + c * 4 + d) by ring.
  set (y := a * 400 + b * 100 + c * 4 + d).
  assert (H4 : y / 4 = a * 100 + b * 25 + c)
    by (symmetry; apply (Z.div_unique y 4 _ d); unfold y; lia).
  assert (H100 : y / 100 = a * 4 + b)
    by (symmetry; apply (Z.div_unique y 100 _ (c * 4 + d)); unfold y; lia).
  assert (H400 : y / 400 = a)
    by (symmetry; apply (Z.div_unique y 400 _ (b * 100 + c * 4 + d)); unfold y; lia).
  rewrite H4, H100, H400. unfold y. ring.
Qed.

(** [ord2ymd] gives a year, month and day in range, and [ymd2ord] leads
    back to the ordinal. *)
Lemma ord2ymd_spec (n : Z) :
  1 <= n <= MAXORDINAL ->
  let '(year, month, day) := ord2ymd n in
  1 <= year <= 9999 /\ 1 <= month <= 12 /\ 1 <= day <= 31
  /\ ymd2ord year month day = n.
Proof.
  unfold MAXORDINAL. intros Hn. unfold ord2ymd. cbv zeta.
  set (n0 := n - 1).
  pose proof (Z.div_mod n0 146097 ltac:(lia)) as E400.
  pose proof (Z.mod_pos_bound n0 146097 ltac:(lia)) as B400.
  set (a := n0 / 146097) in *. set (r400 := n0 mod 146097) in *.
  pose proof (Z.div_mod r400 36524 ltac:(lia)) as E100.
  pose proof (Z.mod_pos_bound r400 36524 ltac:(lia)) as B100.
  set (b := r400 / 36524) in *. set (r100 := r400 mod 36524) in *.
  pose proof (Z.div_mod r100 1461 ltac:(lia)) as E4.
  pose proof (Z.mod_pos_bound r100 1461 ltac:(lia)) as B4.
  set (c := r100 / 1461) in *. set (r4 := r100 mod 1461) in *.
  pose proof (Z.div_mod r4 365 ltac:(lia)) as E1.
  pose proof (Z.mod_pos_bound r4 365 ltac:(lia)) as B1.
  set (d := r4 / 365) in *. set (r1 := r4 mod 365) in *.
  assert (Ha : 0 <= a <= 24) by (unfold n0 in *; lia).
  assert (Hb : 0 <= b <= 4) by lia.
  assert (Hc : 0 <= c <= 24) by lia.
  assert (Hd : 0 <= d <= 4) by lia.
  destruct (Z.eqb_spec d 4) as [Hd4|Hd4]; cbn [orb].
  - (* the last day of a leap year that ends a 4-year cycle *)
    assert (Hb3 : b <= 3) by lia.
    assert (Hc23 : c <= 23) by lia.
    replace (a * 400 + 1 + (b * 100 + c * 4 + d) - 1)
      with (a * 400 + 1 + (b * 100 + c * 4 + 3)) by lia.
    unfold ymd2ord, days_before_month.
    rewrite days_before_year_cycles, is_leap_cycles by lia.
    replace (c =? 24) with false by (symmetry; apply Z.eqb_neq; lia).
    cbn. unfold n0 in *. lia.
  - destruct (Z.eqb_spec b 4) as [Hb4|Hb4].
    + (* the last day of a 400-year cycle *)
      assert (Hz : c = 0 /\ d = 0) by lia. destruct Hz as [-> ->].
      replace (a * 400 + 1 + (b * 100 + 0 * 4 + 0) - 1)
        with (a * 400 + 1 + (3 * 100 + 24 * 4 + 3)) by lia.
      unfold ymd2ord, days_before_month.
      rewrite days_before_year_cycles, is_leap_cycles by lia.
      cbn. unfold n0 in *. lia.
    + pose proof (month_and_day_spec r1
        ((d =? 3) && (negb (c =? 24) || (b =? 3))) B1) as Hmd.
      destruct (month_and_day r1 ((d =? 3) && (negb (c =? 24) || (b =? 3))))
        as [month day].
      destruct Hmd as (Hm & Hday & Hsum).
      unfold ymd2ord, days_before_month.
      rewrite days_before_year_cycles, is_leap_cycles by lia.
      unfold n0 in *. repeat split; lia.
Qed.

Lemma digit_inj (j k : Z) : digit j = digit k -> j mod 10 = k mod 10.
Proof.
  unfold digit. intros H.
  pose proof (Z.mod_pos_bound j 10 ltac:(lia)) as Hj.
  pose proof (Z.mod_pos_bound k 10 ltac:(lia)) as Hk.
  apply (f_equal nat_of_ascii) in H.
  rewrite !nat_ascii_embedding in H by lia. lia.
Qed.

(** Two numbers below 100 with the same two digits are equal. *)
Lemma two_digits_inj (j k : Z) :
  0 <= j < 100 -> 0 <= k < 100 ->
  digit (j / 10) = digit (k / 10) -> digit j = digit k -> j = k.
Proof.
  intros Hj Hk H1 H0. apply digit_inj in H1, H0.
  Z.div_mod_to_equations. lia.
Qed.

(** The ISO text determines the date. *)
Lemma isoformat_inj (d1 d2 : date) :
  valid_date d1 -> valid_date d2 -> isoformat d1 = isoformat d2 -> d1 = d2.
Proof.
  unfold valid_date, isoformat. intros H1 H2 H.
  pose proof (ord2ymd_spec d1 H1) as S1.
  pose proof (ord2ymd_spec d2 H2) as S2.
  destruct (ord2ymd d1) as [[y1 m1] day1].
  destruct (ord2ymd d2) as [[y2 m2] day2].
  destruct S1 as (Hy1 & Hm1 & Hd1 & <-).
  destruct S2 as (Hy2 & Hm2 & Hd2 & <-).
  injection H as Ha Hb Hc Hd He Hf Hg Hh.
  assert (Em : m1 = m2) by (apply two_digits_inj; [lia | lia | assumption..]).
  assert (Ed : day1 = day2) by (apply two_digits_inj; [lia | lia | assumption..]).
  assert (Ey : y1 = y2).
  { apply digit_inj in Ha, Hb, Hc, Hd.
    Z.div_mod_to_equations. lia. }
  subst. reflexivity.
Qed.

Local Close Scope Z_scope.

(** ** The price axis in the exact model *)

Lemma round_half_even_IZR (n : Z) : round_half_even (IZR n) = n.
Proof.
  unfold round_half_even.
  rewrite (Zfloor_eq n (IZR n)) by lra.
  destruct (Rlt_dec (IZR n - IZR n) (1 / 2)) as [_|H]; [reflexivity|].
  exfalso. apply H. lra.
Qed.

Lemma round_half_even_bounds (x : R) :
  IZR (round_half_even x) - 1 / 2 <= x <= IZR (round_half_even x) + 1 / 2.
Proof.
  unfold round_half_even.
  pose proof (Zfloor_bound x) as Hf.
  destruct (Rlt_dec (x - IZR (Zfloor x)) (1 / 2)) as [H1|H1]; [lra|].
  destruct (Rlt_dec (1 / 2) (x - IZR (Zfloor x))) as [H2|H2].
  - rewrite plus_IZR. lra.
  - destruct (Z.even (Zfloor x)); [|rewrite plus_IZR]; lra.
Qed.

(** [round(x, 2)] is a number of hundredths within 0.005 of [x]. *)
Lemma round2_R_spec (x : R) :
  round2 x = IZR (round_half_even (x * 100)) / 100
  /\ x - 0.005 <= round2 x <= x + 0.005.
Proof.
  split; [reflexivity|].
  cbn [round2 Builtins_R].
  pose proof (round_half_even_bounds (x * 100)). lra.
Qed.

Lemma round2_R_hundredths (n : Z) : round2 (IZR n / 100) = IZR n / 100.
Proof.
  cbn [round2 Builtins_R].
  replace (IZR n / 100 * 100) with (IZR n) by lra.
  rewrite round_half_even_IZR. reflexivity.
Qed.

Lemma round2_R_IZR (n : Z) : round2 (IZR n) = IZR n.
Proof.
  cbn [round2 Builtins_R].
  replace (IZR n * 100) with (IZR (n * 100)) by (rewrite mult_IZR; reflexivity).
  rewrite round_half_even_IZR, mult_IZR. lra.
Qed.

(** The loop test of [build_price_points] on reals. *)
Lemma price_test_R (current stock_max : R) :
  (current <=? stock_max + lit 1e-9)%py = true
  <-> current <= stock_max + 1 / 1000000000.
Proof.
  cbn [leb add lit Arith_R]. rewrite R_leb_spec. norm_lit. tauto.
Qed.

Lemma price_loop_unfold (fuel : nat) (stock_max step current : R) (prices : list R) :
  price_loop fuel stock_max step current prices
  = if R_leb current (stock_max + Q2R 1e-9) then
      match fuel with
      | O => OutOfFuel
      | S fuel' =>
          price_loop fuel' stock_max step (current + step)
            (prices ++ [round2 current])
      end
    else Return prices.
Proof. destruct fuel; reflexivity. Qed.

(** With a positive step the loop exits: [n] units of fuel suffice as soon
    as [n] steps lead beyond the bound. *)
Lemma price_loop_returns (n : nat) (stock_max step current : R) (prices : list R) :
  0 < step ->
  stock_max + 1 / 1000000000 - current < INR n * step ->
  exists l, price_loop n stock_max step current prices = Return l.
Proof.
  intros Hstep. revert current prices.
  induction n as [|n IH]; intros current prices Hn; rewrite price_loop_unfold.
  - destruct (R_leb current (stock_max + Q2R 1e-9)) eqn:E.
    + apply R_leb_spec in E. norm_lit. simpl INR in Hn. lra.
    + eauto.
  - destruct (R_leb current (stock_max + Q2R 1e-9)) eqn:E; [|eauto].
    apply IH. rewrite S_INR in Hn. lra.
Qed.

Lemma build_price_points_returns (stock_min stock_max step : R) :
  0 < step ->
  exists (fuel : nat) (l : list R),
    forall fuel' : nat, (fuel <= fuel')%nat ->
      build_price_points fuel' stock_min stock_max step = Return l.
Proof.
  intros Hstep.
  set (x := (stock_max + 1 / 1000000000 - stock_min) / step).
  set (n := Z.to_nat (up x)).
  assert (Hn : stock_max + 1 / 1000000000 - stock_min < INR n * step).
  { assert (Hx : x < INR n).
    { destruct (archimed x) as [Hup _].
      apply Rlt_le_trans with (IZR (up x)); [lra|].
      unfold n. rewrite INR_IZR_INZ. apply IZR_le. lia. }
    unfold x in Hx.
    apply (Rmult_lt_compat_r step) in Hx; [|exact Hstep].
    unfold Rdiv in Hx. rewrite Rmult_assoc, Rinv_l, Rmult_1_r in Hx by lra.
    exact Hx. }
  destruct (price_loop_returns n stock_max step stock_min [] Hstep Hn) as [l Hl].
  exists n, l. intros fuel' Hle.
  apply (price_loop_fuel_mono n fuel' _ _ _ _ _ Hle Hl).
Qed.

Lemma increasing_snoc (l : list R) (x : R) :
  increasing l -> Forall (fun p => p < x) l -> increasing (l ++ [x]).
Proof.
  unfold increasing. intros Hs Hall.
  induction Hs as [|a l Hs IH Ha]; cbn [app].
  - constructor; constructor.
  - inversion Hall as [|? ? Hax Hl]; subst.
    constructor; [apply IH; exact Hl|].
    apply Forall_app. split; [exact Ha|]. constructor; [exact Hax|constructor].
Qed.

(** The loop invariant when the step exceeds one hundredth: the prices
    collected so far are increasing, they are hundredths, and each lies
    below the next rounded value. *)
Lemma price_loop_invariant (fuel : nat) (stock_max step current : R)
    (prices l : list R) :
  0.01 < step ->
  increasing prices -> hundredths prices ->
  Forall (fun p => p <= current - step + 0.005) prices ->
  price_loop fuel stock_max step current prices = Return l ->
  increasing l /\ hundredths l
  /\ exists rest, l = prices ++ rest
       /\ Forall (fun p => current - 0.005 <= p <= stock_max + 0.006) rest.
Proof.
  intros Hstep. revert current prices.
  induction fuel as [|fuel IH]; intros current prices Hinc Hh Hb H;
    rewrite price_loop_unfold in H;
    destruct (R_leb current (stock_max + Q2R 1e-9)) eqn:E; try discriminate.
  - injection H as <-. repeat split; try assumption.
    exists []. rewrite app_nil_r. split; [reflexivity|constructor].
  - apply R_leb_spec in E. norm_lit.
    destruct (round2_R_spec current) as [Hr Hrb].
    apply IH in H.
    + destruct H as (Hi & Hh' & rest & -> & Hrest).
      repeat split; try assumption.
      exists (round2 current :: rest). rewrite <- app_assoc. split; [reflexivity|].
      constructor; [lra|].
      revert Hrest. apply Forall_impl. intros p Hp. lra.
    + apply increasing_snoc; [exact Hinc|].
      revert Hb. apply Forall_impl. intros p Hp. lra.
    + apply Forall_app. split; [exact Hh|].
      constructor; [|constructor]. eexists. exact Hr.
    + apply Forall_app. split.
      * revert Hb. apply Forall_impl. intros p Hp. lra.
      * constructor; [lra|constructor].
  - injection H as <-. repeat split; try assumption.
    exists []. rewrite app_nil_r. split; [reflexivity|constructor].
Qed.

Lemma int_prices_S (a : Z) (n : nat) :
  int_prices a (S n) = IZR a :: int_prices (a + 1) n.
Proof.
  unfold int_prices. cbn [seq map]. rewrite Z.add_0_r. f_equal.
  rewrite <- seq_shift, map_map. apply map_ext. intros k.
  f_equal. lia.
Qed.

(** On integer bounds and a step of one the loop lists the integers from
    the first to the last. *)
Lemma price_loop_integers (n : nat) :
  forall (a b : Z) (step : R) (fuel : nat) (prices : list R),
    step = 1 ->
    (Z.of_nat n = Z.max 0 (b - a + 1))%Z -> (n <= fuel)%nat ->
    price_loop fuel (IZR b) step (IZR a) prices
    = Return (prices ++ int_prices a n).
Proof.
  induction n as [|n IH]; intros a b step fuel prices Hstep Hn Hfuel;
    rewrite price_loop_unfold.
  - assert (Hab' : (b + 1 <= a)%Z) by lia.
    apply IZR_le in Hab'. rewrite plus_IZR in Hab'.
    destruct (R_leb (IZR a) (IZR b + Q2R 1e-9)) eqn:E.
    + apply R_leb_spec in E. norm_lit. lra.
    + unfold int_prices. cbn [seq map]. rewrite app_nil_r. reflexivity.
  - assert (Hab : (a <= b)%Z) by lia.
    apply IZR_le in Hab.
    destruct (R_leb (IZR a) (IZR b + Q2R 1e-9)) eqn:E.
    + destruct fuel as [|fuel]; [lia|].
      rewrite round2_R_IZR.
      replace (IZR a + step) with (IZR (a + 1))
        by (rewrite plus_IZR, Hstep; reflexivity).
      rewrite (IH (a + 1)%Z b step fuel) by (assumption || lia).
      rewrite int_prices_S, <- app_assoc. reflexivity.
    + exfalso.
      assert (E' : R_leb (IZR a) (IZR b + Q2R 1e-9) = true)
        by (apply R_leb_spec; norm_lit; lra).
      congruence.
Qed.

Lemma lit_one : lit (F := R) 1.0 = 1.
Proof. cbn [lit Arith_R]. norm_lit. reflexivity. Qed.

(** ** The price axis in binary64 *)

(** From 1e17 a step of 1.0 is absorbed by the rounding of the addition, so
    the loop towards 2e17 never leaves its first value. *)
Lemma price_loop_float_stuck (fuel : nat) (prices : list float) :
  price_loop fuel 2e17%float 1%float 1e17%float prices = OutOfFuel.
Proof.
  revert prices. induction fuel as [|fuel IH]; intros prices.
  - vm_compute. reflexivity.
  - cbn [price_loop].
    replace (leb 1e17%float (add 2e17%float (lit 1e-9))) with true
      by (vm_compute; reflexivity).
    replace (add 1e17%float 1%float) with 1e17%float by (vm_compute; reflexivity).
    apply IH.
Qed.

(** ** Formatted prices tell hundredths apart *)

Lemma append_length (s t : string) :
  String.length (s ++ t) = (String.length s + String.length t)%nat.
Proof. induction s as [|c s IH]; cbn; [reflexivity | rewrite IH; reflexivity]. Qed.

Lemma append_assoc (s t u : string) : ((s ++ t) ++ u = s ++ (t ++ u))%string.
Proof. induction s as [|c s IH]; cbn; [reflexivity | rewrite IH; reflexivity]. Qed.

(** Two texts with the same ending of the same length. *)
Lemma append_inj_suffix (s1 s2 t1 t2 : string) :
  String.length t1 = String.length t2 ->
  (s1 ++ t1 = s2 ++ t2)%string -> s1 = s2 /\ t1 = t2.
Proof.
  intros Hlen. revert s2.
  induction s1 as [|c1 s1 IH]; intros [|c2 s2] H; cbn in H.
  - split; [reflexivity | exact H].
  - exfalso. apply (f_equal String.length) in H. cbn in H.
    rewrite append_length in H. lia.
  - exfalso. apply (f_equal String.length) in H. cbn in H.
    rewrite append_length in H. lia.
  - injection H as -> H. destruct (IH _ H) as [-> ->]. split; reflexivity.
Qed.

Lemma decimal_parse (q : N) :
  DecimalString.NilZero.uint_of_string (decimal q) = Some (N.to_uint q).
Proof.
  unfold decimal. apply DecimalString.NilZero.usu.
  intros E. pose proof (DecimalN.Unsigned.of_to q) as H. rewrite E in H.
  cbn in H. subst q. discriminate E.
Qed.

Lemma decimal_inj (q1 q2 : N) : decimal q1 = decimal q2 -> q1 = q2.
Proof.
  intros H. apply DecimalN.Unsigned.to_uint_inj.
  pose proof (decimal_parse q1) as H1. rewrite H, decimal_parse in H1.
  congruence.
Qed.

Lemma decimal_no_sign (q : N) (s : string) : decimal q <> String "-" s.
Proof.
  intros H. pose proof (decimal_parse q) as Hp. rewrite H in Hp.
  cbn in Hp. destruct (DecimalString.NilEmpty.uint_of_string s); discriminate.
Qed.

Lemma format_cents_inj (s1 s2 : bool) (n1 n2 : Z) :
  (0 <= n1)%Z -> (0 <= n2)%Z ->
  format_cents s1 n1 = format_cents s2 n2 -> s1 = s2 /\ n1 = n2.
Proof.
  intros H1 H2 H. unfold format_cents in H.
  rewrite <- !append_assoc in H.
  apply append_inj_suffix in H; [|reflexivity].
  destruct H as [Hhead Htail].
  injection Htail as Ht Hu.
  apply digit_inj in Ht, Hu.
  assert (Hq : s1 = s2 /\ Z.to_N (n1 / 100) = Z.to_N (n2 / 100)).
  { destruct s1, s2; cbn in Hhead.
    - injection Hhead as Hhead. apply decimal_inj in Hhead. tauto.
    - symmetry in Hhead. apply decimal_no_sign in Hhead. destruct Hhead.
    - apply decimal_no_sign in Hhead. destruct Hhead.
    - apply decimal_inj in Hhead. tauto. }
  destruct Hq as [-> Hq]. split; [reflexivity|].
  assert (Hq' : (n1 / 100 = n2 / 100)%Z).
  { apply (f_equal Z.of_N) in Hq.
    rewrite !Z2N.id in Hq by (apply Z.div_pos; lia). exact Hq. }
  clear Hq Hhead. Z.div_mod_to_equations. lia.
Qed.

(** On hundredths the text of [format(p, ".2f")] determines [p]. *)
Lemma format_2f_hundredths (n : Z) :
  format_2f (IZR n / 100) = format_cents (n <? 0)%Z (Z.abs n).
Proof.
  cbn [format_2f Builtins_R].
  replace (IZR n / 100 * 100) with (IZR n) by lra.
  rewrite round_half_even_IZR. f_equal.
  unfold R_ltb. destruct (Rlt_dec (IZR n / 100) 0) as [H|H];
    destruct (Z.ltb_spec n 0) as [Hn|Hn]; try reflexivity; exfalso.
  - apply IZR_le in Hn. lra.
  - apply IZR_lt in Hn. lra.
Qed.

Lemma format_2f_inj (p1 p2 : R) :
  (exists n : Z, p1 = IZR n / 100) -> (exists n : Z, p2 = IZR n / 100) ->
  format_2f p1 = format_2f p2 -> p1 = p2.
Proof.
  intros [n1 ->] [n2 ->] H. rewrite !format_2f_hundredths in H.
  apply format_cents_inj in H; [|lia|lia]. destruct H as [Hs Habs].
  assert (n1 = n2).
  { destruct (Z.ltb_spec n1 0), (Z.ltb_spec n2 0); try discriminate; lia. }
  subst. reflexivity.
Qed.

(** ** The view in the exact model *)

Lemma lit_R (q : Q) : lit q = Q2R q.
Proof. reflexivity. Qed.

Lemma cell_total_pl_R (f : form R) (T r sigma p : R) :
  cell_total_pl f (premium f * lit 100)%py T r sigma p
  = bind (black_scholes_price p (strike_price f) T r sigma (option_type f))
      (fun value => Return (spec_total_pl f value)).
Proof.
  unfold cell_total_pl, spec_total_pl.
  destruct (black_scholes_price _ _ _ _ _ _) as [v| |]; cbn [bind];
    try reflexivity.
  unfold_R. norm_lit. reflexivity.
Qed.

Lemma expiry_row_R (f : form R) (p : R) :
  expiry_row f (premium f * lit 100)%py p
  = Return {| price := p;
              pl_total :=
                spec_total_pl f (spec_intrinsic_value (option_type f) p (strike_price f));
              pl_per_contract :=
                spec_intrinsic_value (option_type f) p (strike_price f) * 100
                - premium f * 100 |}.
Proof.
  unfold expiry_row, spec_total_pl, spec_intrinsic_value. rewrite !py_max_R.
  unfold_R. norm_lit.
  destruct (String.eqb (option_type f) "call"); reflexivity.
Qed.

Lemma daily_map_of_R (f : form R) (today : date) (pts : list R)
    (cost r sigma : R) (k : Z) (m : dict R) :
  daily_map_of f today pts cost r sigma k = Return m
  <-> valid_date (today + k)%Z
      /\ for_each pts []
           (grid_cell f cost (spec_years_to_expiry (expiry_date f) (today + k)%Z) r sigma)
         = Return m.
Proof.
  unfold daily_map_of, date_add_days, valid_date, spec_years_to_expiry, date_diff_days.
  destruct (Z.leb_spec 1 (today + k)%Z) as [H1|H1];
    destruct (Z.leb_spec (today + k)%Z MAXORDINAL) as [H2|H2]; cbn [andb bind];
    try (split; [discriminate | intros [? _]; lia]).
  unfold_R. norm_lit. decide_R.
  split; [intros H; split; [lia | exact H] | intros [_ H]; exact H].
Qed.

(** What [index] has computed when it renders the results. *)
Lemma index_results (fuel : nat) (today : date) (f : form R) (res : results R) :
  index fuel today (POST f) = Return (results_html res)
  <-> stock_min f <= stock_max f
      /\ build_price_points fuel (stock_min f) (stock_max f) (lit 1.0)
         = Return (price_points res)
      /\ for_each (price_points res) []
           (fun rows p =>
              bind (expiry_row f (premium f * lit 100)%py p)
                (fun r => Return (rows ++ [r])))
         = Return (rows res)
      /\ for_each (range (Z.max 0 (expiry_date f - today) + 1)%Z) ([], [])
           (grid_day f today (price_points res) (premium f * lit 100)%py
              (lit 0.02) (implied_volatility f / 100))
         = Return (date_labels res, grid res).
Proof.
  rewrite index_results_any.
  assert (Hs : (implied_volatility f / lit 100.0)%py
               = Return (implied_volatility f / 100)).
  { unfold_R. norm_lit. decide_R. reflexivity. }
  assert (Hlt : ltb (stock_max f) (stock_min f) = false
                <-> stock_min f <= stock_max f).
  { unfold_R. destruct (Rlt_dec (stock_max f) (stock_min f)); split;
      intros; try discriminate; try reflexivity; lra. }
  rewrite Hlt, Hs. split.
  - intros (H0 & H1 & H2 & sigma & E & H3). injection E as <-. tauto.
  - intros (H0 & H1 & H2 & H3). repeat split; try assumption. eauto.
Qed.

Lemma in_range (n k : Z) : In k (range n) <-> (0 <= k < n)%Z.
Proof.
  unfold range. rewrite in_map_iff. split.
  - intros (i & <- & Hi). apply in_seq in Hi. lia.
  - intros H. exists (Z.to_nat k). split; [lia|]. apply in_seq. lia.
Qed.

Lemma range_length (n : Z) : List.length (range n) = Z.to_nat n.
Proof. unfold range. rewrite List.length_map, List.length_seq. reflexivity. Qed.

(** The price axis of the view: increasing hundredths. *)
Lemma build_price_points_unit_step (fuel : nat) (stock_min stock_max : R)
    (pts : list R) :
  build_price_points fuel stock_min stock_max (lit 1.0) = Return pts ->
  increasing pts /\ hundredths pts
  /\ Forall (fun p => stock_min - 0.005 <= p <= stock_max + 0.006) pts.
Proof.
  unfold build_price_points. intros H.
  apply price_loop_invariant in H.
  - destruct H as (Hi & Hh & rest & E & Hrest). cbn [app] in E. subst rest.
    repeat split; assumption.
  - cbn [lit Arith_R]. norm_lit. lra.
  - constructor.
  - constructor.
  - constructor.
Qed.

(** The dictionary of a day holds, under each formatted price, the total
    for the price the pricer gives on that day. *)
Lemma daily_map_lookup (f : form R) (pts : list R) (T r sigma : R) (m : dict R) :
  hundredths pts ->
  for_each pts [] (grid_cell f (premium f * lit 100)%py T r sigma) = Return m ->
  forall p, In p pts ->
    exists value,
      black_scholes_price p (strike_price f) T r sigma (option_type f)
      = Return value
      /\ dict_get (format_2f p) m = Some (spec_total_pl f value).
Proof.
  intros Hh H p Hp. rewrite grid_cell_store in H.
  unfold hundredths in Hh. rewrite Forall_forall in Hh.
  assert (Hinj : forall x y : R,
            In x pts -> In y pts -> format_2f x = format_2f y -> x = y)
    by (intros x y Hx Hy; apply format_2f_inj; apply Hh; assumption).
  destruct (store_lookup _ _ _ _ _ Hinj H p Hp) as (v & Hv & Hget).
  rewrite cell_total_pl_R in Hv.
  destruct (black_scholes_price _ _ _ _ _ _) as [value| |]; cbn [bind] in Hv;
    try discriminate.
  injection Hv as <-. exists value. split; [reflexivity | exact Hget].
Qed.

(** The dates and the grid [index] renders. *)
Lemma index_grid (fuel : nat) (today : date) (f : form R) (res : results R) :
  index fuel today (POST f) = Return (results_html res) ->
  let total_days := Z.max 0 (expiry_date f - today)%Z in
  date_labels res
  = map (fun k => isoformat (today + k)%Z) (range (total_days + 1)%Z)
  /\ forall k : Z, (0 <= k <= total_days)%Z ->
       valid_date (today + k)%Z
       /\ exists m : dict R,
            dict_get (isoformat (today + k)%Z) (grid res) = Some m
            /\ for_each (price_points res) []
                 (grid_cell f (premium f * lit 100)%py
                    (spec_years_to_expiry (expiry_date f) (today + k)%Z)
                    (lit 0.02) (implied_volatility f / 100))
               = Return m.
Proof.
  intros H total_days. apply index_results in H.
  destruct H as (_ & _ & _ & H).
  fold total_days in H.
  rewrite (for_each_ext _ _ _ _
             (fun acc k _ => grid_day_store f today (price_points res)
                               _ _ _ acc k)) in H.
  apply store_listing_split in H. destruct H as [Hdl Hg].
  split; [exact Hdl|].
  assert (Hvalid : forall k, (0 <= k <= total_days)%Z -> valid_date (today + k)%Z).
  { intros k Hk.
    destruct (store_values _ _ _ _ _ Hg k) as [m Hm]; [apply in_range; lia|].
    apply daily_map_of_R in Hm. tauto. }
  intros k Hk. split; [apply Hvalid; exact Hk|].
  assert (Hinj : forall x y : Z,
            In x (range (total_days + 1)%Z) -> In y (range (total_days + 1)%Z) ->
            isoformat (today + x)%Z = isoformat (today + y)%Z -> x = y).
  { intros x y Hx Hy E. apply in_range in Hx, Hy.
    assert (today + x = today + y)%Z; [|lia].
    apply isoformat_inj; [apply Hvalid; lia | apply Hvalid; lia | exact E]. }
  destruct (store_lookup _ _ _ _ _ Hinj Hg k) as (m & Hm & Hget);
    [apply in_range; lia|].
  exists m. split; [exact Hget|].
  apply daily_map_of_R in Hm. tauto.
Qed.

(** On positive price and strike the pricer returns a value. *)
Lemma black_scholes_price_returns (S K T r sigma : R) (option_type : string) :
  0 < S -> 0 < K ->
  exists value, black_scholes_price S K T r sigma option_type = Return value.
Proof.
  intros HS HK.
  destruct (Rle_dec T 0) as [HT|HT].
  { rewrite black_scholes_price_boundary by (left; exact HT). eauto. }
  destruct (Rle_dec sigma 0) as [Hs|Hs].
  { rewrite black_scholes_price_boundary by (right; exact Hs). eauto. }
  rewrite black_scholes_price_general by lra. eauto.
Qed.

Lemma index_returns (today : date) (f : form R) :
  valid_date today -> valid_date (expiry_date f) -> priceable f ->
  exists (fuel : nat) (res : results R),
    forall fuel' : nat, (fuel <= fuel')%nat ->
      index fuel' today (POST f) = Return (results_html res).
Proof.
  intros Ht He (HK & Hmin & Hmax).
  destruct (build_price_points_returns (stock_min f) (stock_max f) (lit 1.0))
    as (fuel & pts & Hpts).
  { cbn [lit Arith_R]. norm_lit. lra. }
  destruct (build_price_points_unit_step fuel _ _ _ (Hpts fuel (Nat.le_refl _)))
    as (_ & _ & Hb).
  rewrite Forall_forall in Hb.
  set (total_days := Z.max 0 (expiry_date f - today)%Z).
  set (cost := (premium f * lit 100)%py).
  destruct (store_returns (fun k => isoformat (today + k)%Z)
              (daily_map_of f today pts cost (lit 0.02) (implied_volatility f / 100))
              (range (total_days + 1)%Z) []) as [g Hg].
  { intros k Hk. apply in_range in Hk.
    destruct (store_returns format_2f
                (cell_total_pl f cost
                   (spec_years_to_expiry (expiry_date f) (today + k)%Z)
                   (lit 0.02) (implied_volatility f / 100)) pts [])
      as [m Hm].
    - intros p Hp. unfold cost. rewrite cell_total_pl_R.
      destruct (black_scholes_price_returns p (strike_price f)
                  (spec_years_to_expiry (expiry_date f) (today + k)%Z)
                  (lit 0.02) (implied_volatility f / 100) (option_type f))
        as [v Hv]; [specialize (Hb p Hp); lra | exact HK |].
      rewrite Hv. cbn [bind]. eauto.
    - exists m. apply daily_map_of_R. split; [|exact Hm].
      unfold valid_date in *. unfold total_days in Hk. lia. }
  exists fuel.
  exists {| rows :=
              map (fun p =>
                {| price := p;
                   pl_total :=
                     spec_total_pl f
                       (spec_intrinsic_value (option_type f) p (strike_price f));
                   pl_per_contract :=
                     spec_intrinsic_value (option_type f) p (strike_price f) * 100
                     - premium f * 100 |}) pts;
            price_points := pts;
            date_labels :=
              map (fun k => isoformat (today + k)%Z) (range (total_days + 1)%Z);
            grid := g |}.
  intros fuel' Hfuel. apply index_results.
  cbn [rows price_points date_labels grid].
  split; [lra|]. split; [apply Hpts; exact Hfuel|]. split.
  - apply for_each_collect. eexists. split; [reflexivity|].
    clear. induction pts as [|p pts IH]; cbn [map]; constructor;
      [apply expiry_row_R | exact IH].
  - fold total_days.
    rewrite (for_each_ext _ _ _ _
               (fun acc k _ => grid_day_store f today pts _ _ _ acc k)).
    apply store_listing_split. split; [reflexivity | exact Hg].
Qed.

(** ** A sample request *)

Lemma sample_valid :
  valid_date sample_today /\ valid_date (expiry_date sample_form)
  /\ priceable sample_form.
Proof.
  unfold valid_date, priceable, sample_today, sample_form, MAXORDINAL.
  cbn [expiry_date strike_price stock_min stock_max].
  repeat split; try lia; lra.
Qed.

(** The view renders the sample, on the prices 99, 100 and 101. *)
Lemma sample_index_returns :
  exists (fuel : nat) (res : results R),
    (forall fuel' : nat, (fuel <= fuel')%nat ->
       index fuel' sample_today (POST sample_form) = Return (results_html res))
    /\ price_points res = [99; 100; 101].
Proof.
  destruct sample_valid as (Ht & He & Hp).
  destruct (index_returns sample_today sample_form Ht He Hp)
    as (fuel & res & Hret).
  exists fuel, res. split; [exact Hret|].
  pose proof (Hret (Nat.max fuel 3) (Nat.le_max_l _ _)) as H.
  apply index_results in H. destruct H as (_ & Hpts & _).
  cbn [stock_min stock_max sample_form] in Hpts.
  unfold build_price_points in Hpts.
  rewrite (price_loop_integers 3 99 101 (lit 1.0) (Nat.max fuel 3) [])
    in Hpts by (apply lit_one || reflexivity || apply Nat.le_max_r).
  injection Hpts as <-. reflexivity.
Qed.

Lemma sample_keys :
  isoformat sample_today = "2025-12-19"%string
  /\ isoformat (sample_today + 1)%Z = "2025-12-20"%string
  /\ isoformat (expiry_date sample_form) = "2025-12-21"%string
  /\ format_2f 99 = "99.00"%string
  /\ format_2f 100 = "100.00"%string.
Proof.
  repeat split; try (vm_compute; reflexivity).
  - replace 99 with (IZR 9900 / 100) by lra.
    rewrite format_2f_hundredths. vm_compute. reflexivity.
  - replace 100 with (IZR 10000 / 100) by lra.
    rewrite format_2f_hundredths. vm_compute. reflexivity.
Qed.

(** ** Numerical bounds *)

Lemma Rabs_le_elim (a b : R) : Rabs a <= b -> - b <= a <= b.
Proof. unfold Rabs. destruct (Rcase_abs a); lra. Qed.

Lemma erf_term_decreasing (y : R) : 0 <= y <= 1 -> Un_decreasing (erf_term y).
Proof.
  intros Hy n. unfold erf_term.
  assert (Hf : 0 < INR (fact n)) by (apply lt_0_INR, lt_O_fact).
  assert (Hf' : INR (fact n) <= INR (fact (S n)))
    by (apply le_INR, fact_le; lia).
  assert (H1 : 0 < INR (2 * n + 1)) by (apply lt_0_INR; lia).
  assert (H2 : INR (2 * n + 1) <= INR (2 * S n + 1)) by (apply le_INR; lia).
  assert (Hp : 0 <= y ^ n) by (apply pow_le; lra).
  assert (Hp' : y ^ S n <= y ^ n).
  { simpl. rewrite <- (Rmult_1_l (y ^ n)) at 2. apply Rmult_le_compat_r; lra. }
  apply Rle_trans with (y ^ n / (INR (fact (S n)) * INR (2 * S n + 1))).
  - apply Rmult_le_compat_r; [|exact Hp'].
    apply Rlt_le, Rinv_0_lt_compat. nra.
  - apply Rmult_le_compat_l; [exact Hp|].
    apply Rinv_le_contravar; nra.
Qed.

Lemma exp_term_decreasing (y : R) : 0 <= y <= 1 -> Un_decreasing (exp_term y).
Proof.
  intros Hy n. unfold exp_term.
  assert (Hf : 0 < INR (fact n)) by (apply lt_0_INR, lt_O_fact).
  assert (Hf' : INR (fact n) <= INR (fact (S n)))
    by (apply le_INR, fact_le; lia).
  assert (Hp : 0 <= y ^ n) by (apply pow_le; lra).
  assert (Hp' : y ^ S n <= y ^ n).
  { simpl. rewrite <- (Rmult_1_l (y ^ n)) at 2. apply Rmult_le_compat_r; lra. }
  apply Rle_trans with (y ^ n / INR (fact (S n))).
  - apply Rmult_le_compat_r; [|exact Hp'].
    apply Rlt_le, Rinv_0_lt_compat. lra.
  - apply Rmult_le_compat_l; [exact Hp|].
    apply Rinv_le_contravar; lra.
Qed.

Lemma erf_term_cv (y : R) : 0 <= y <= 1 -> Un_cv (erf_term y) 0.
Proof.
  intros Hy eps Heps.
  destruct (cv_speed_pow_fact y eps Heps) as [N HN].
  exists N. intros n Hn. specialize (HN n Hn).
  unfold Rdist in *. rewrite Rminus_0_r in *.
  assert (Hf : 0 < INR (fact n)) by (apply lt_0_INR, lt_O_fact).
  assert (H1 : 1 <= INR (2 * n + 1))
    by (change 1 with (INR 1); apply le_INR; lia).
  assert (Hp : 0 <= y ^ n) by (apply pow_le; lra).
  assert (Hq : 0 <= y ^ n / INR (fact n))
    by (apply Rmult_le_pos; [exact Hp | apply Rlt_le, Rinv_0_lt_compat; exact Hf]).
  rewrite Rabs_pos_eq in HN by exact Hq.
  unfold erf_term.
  assert (Hle : y ^ n / (INR (fact n) * INR (2 * n + 1)) <= y ^ n / INR (fact n)).
  { apply Rmult_le_compat_l; [exact Hp|]. apply Rinv_le_contravar; nra. }
  assert (H0 : 0 <= y ^ n / (INR (fact n) * INR (2 * n + 1))).
  { apply Rmult_le_pos; [exact Hp|]. apply Rlt_le, Rinv_0_lt_compat. nra. }
  rewrite Rabs_pos_eq by exact H0. lra.
Qed.

(** The partial sums of the series of [erf_series] alternate. *)
Lemma erf_series_sums (y : R) :
  Un_cv (fun N => sum_f_R0 (tg_alt (erf_term y)) N) (erf_series y).
Proof.
  pose proof (proj2_sig
    (Alembert_C3 erf_coeff y erf_coeff_neq_0 erf_coeff_ratio_cv)) as H.
  fold (erf_series y) in H.
  intros eps Heps. destruct (H eps Heps) as [N HN]. exists N. intros n Hn.
  specialize (HN n Hn).
  replace (sum_f_R0 (tg_alt (erf_term y)) n)
    with (sum_f_R0 (fun n0 => erf_coeff n0 * y ^ n0) n); [exact HN|].
  apply sum_eq. intros i _. unfold tg_alt, erf_term, erf_coeff, Rdiv. ring.
Qed.

Lemma exp_opp_sums (y : R) :
  Un_cv (fun N => sum_f_R0 (tg_alt (exp_term y)) N) (Rtrigo_def.exp (- y)).
Proof.
  pose proof (proj2_sig (exist_exp (- y))) as H.
  intros eps Heps. destruct (H eps Heps) as [N HN]. exists N. intros n Hn.
  specialize (HN n Hn).
  replace (sum_f_R0 (tg_alt (exp_term y)) n)
    with (sum_f_R0 (fun i => / INR (fact i) * (- y) ^ i) n); [exact HN|].
  apply sum_eq. intros i _. unfold tg_alt, exp_term.
  replace (- y) with (-1 * y) by ring.
  rewrite Rpow_mult_distr. unfold Rdiv. ring.
Qed.

Lemma erf_series_bounds (y : R) (N : nat) :
  0 <= y <= 1 ->
  sum_f_R0 (tg_alt (erf_term y)) (S (2 * N)) <= erf_series y
  <= sum_f_R0 (tg_alt (erf_term y)) (2 * N).
Proof.
  intros Hy. apply alternated_series_ineq.
  - apply erf_term_decreasing; exact Hy.
  - apply erf_term_cv; exact Hy.
  - apply erf_series_sums.
Qed.

Lemma exp_opp_bounds (y : R) (N : nat) :
  0 <= y <= 1 ->
  sum_f_R0 (tg_alt (exp_term y)) (S (2 * N)) <= Rtrigo_def.exp (- y)
  <= sum_f_R0 (tg_alt (exp_term y)) (2 * N).
Proof.
  intros Hy. apply alternated_series_ineq.
  - apply exp_term_decreasing; exact Hy.
  - exact (cv_speed_pow_fact y).
  - apply exp_opp_sums.
Qed.

Lemma exp_002_bounds : 0.980198 <= Rtrigo_def.exp (Ropp 0.02) <= 0.98020.
Proof.
  assert (Hy : 0 <= 0.02 <= 1) by lra.
  pose proof (exp_opp_bounds 0.02 1 Hy) as H.
  cbn [Nat.mul Nat.add sum_f_R0] in H.
  unfold tg_alt, exp_term in H. simpl in H. lra.
Qed.

Lemma erf_series_002_bounds : 0.993373 <= erf_series 0.02 <= 0.993374.
Proof.
  assert (Hy : 0 <= 0.02 <= 1) by lra.
  pose proof (erf_series_bounds 0.02 1 Hy) as H.
  cbn [Nat.mul Nat.add sum_f_R0] in H.
  unfold tg_alt, erf_term in H. simpl in H. lra.
Qed.

Lemma PI_bounds : 3.14159 <= PI <= 3.14160.
Proof.
  pose proof (PI_2_3_7_ineq 2) as H.
  cbn [Nat.mul Nat.add sum_f_R0] in H.
  unfold tg_alt, PI_2_3_7_tg, Ratan_seq in H. simpl in H. lra.
Qed.

(** sqrt(pi) * sqrt(2), the square root of 2 pi. *)
Lemma sqrt_2PI_bounds :
  2.506627 <= R_sqrt.sqrt PI * R_sqrt.sqrt 2 <= 2.506632.
Proof.
  pose proof PI_bounds as HPI.
  assert (Hp : 0 < R_sqrt.sqrt PI) by (apply sqrt_lt_R0; lra).
  pose proof sqrt_2_pos as H2.
  assert (Hsq : (R_sqrt.sqrt PI * R_sqrt.sqrt 2) * (R_sqrt.sqrt PI * R_sqrt.sqrt 2)
                = 2 * PI).
  { replace (R_sqrt.sqrt PI * R_sqrt.sqrt 2 * (R_sqrt.sqrt PI * R_sqrt.sqrt 2))
      with ((R_sqrt.sqrt PI * R_sqrt.sqrt PI) * (R_sqrt.sqrt 2 * R_sqrt.sqrt 2))
      by ring.
    rewrite !sqrt_sqrt by lra. ring. }
  set (w := R_sqrt.sqrt PI * R_sqrt.sqrt 2) in *.
  assert (Hw : 0 < w) by (unfold w; apply Rmult_lt_0_compat; assumption).
  split; nra.
Qed.

(** The distribution function at 0 and at 0.2. *)
Lemma spec_Phi_0 : spec_Phi 0 = 0.5.
Proof.
  unfold spec_Phi, Rerf. replace (0 / R_sqrt.sqrt 2) with 0 by (unfold Rdiv; ring).
  lra.
Qed.

Lemma spec_Phi_02_bounds : 0.57925958 <= spec_Phi 0.2 <= 0.57925983.
Proof.
  pose proof sqrt_2PI_bounds as Hw.
  pose proof erf_series_002_bounds as Hg.
  pose proof sqrt_2_pos as H2.
  assert (Hp : 0 < R_sqrt.sqrt PI) by (apply sqrt_lt_R0; pose proof PI_bounds; lra).
  unfold spec_Phi, Rerf.
  replace (0.2 / R_sqrt.sqrt 2 * (0.2 / R_sqrt.sqrt 2)) with 0.02.
  2: { norm_lit.
       replace (1 / 5 / R_sqrt.sqrt 2 * (1 / 5 / R_sqrt.sqrt 2))
         with (1 / 25 / (R_sqrt.sqrt 2 * R_sqrt.sqrt 2)) by (field; lra).
       rewrite sqrt_sqrt by lra. lra. }
  set (g := erf_series 0.02) in *.
  set (w := R_sqrt.sqrt PI * R_sqrt.sqrt 2) in *.
  set (t := g / (5 * w)).
  replace (0.5 * (1 + 2 / R_sqrt.sqrt PI * (0.2 / R_sqrt.sqrt 2 * g)))
    with (0.5 + t) by (unfold t, w; norm_lit; field; lra).
  assert (Hw0 : 0 < w) by lra.
  assert (Ht : 5 * (t * w) = g) by (unfold t; field; lra).
  split; nra.
Qed.

(** The scenario S = K = 100, T = 1, r = 0.02, sigma = 0.20. *)
Lemma scenario_d1 : spec_d1 100 100 1 0.02 0.2 = 0.2.
Proof.
  unfold spec_d1.
  replace (100 / 100) with 1 by lra.
  rewrite ln_1, sqrt_1. lra.
Qed.

Lemma scenario_d2 : spec_d2 100 100 1 0.02 0.2 = 0.
Proof. unfold spec_d2. rewrite scenario_d1, sqrt_1. lra. Qed.

Lemma scenario_call_value :
  8.9159 <= spec_call_value 100 100 1 0.02 0.2 <= 8.9161.
Proof.
  unfold spec_call_value. rewrite scenario_d1, scenario_d2, spec_Phi_0.
  replace (- (0.02) * 1) with (- (0.02)) by lra.
  pose proof spec_Phi_02_bounds. pose proof exp_002_bounds. lra.
Qed.

(** What the pricer computes on the scenario. *)
Lemma scenario_facts :
  bs_d1 100 100 1 0.02 0.2 = Return 0.2
  /\ bs_d2 0.2 1 0.2 = Return 0
  /\ black_scholes_price 100 100 1 0.02 0.2 "call"
     = Return (spec_call_value 100 100 1 0.02 0.2)
  /\ 8.9159 <= spec_call_value 100 100 1 0.02 0.2 <= 8.9161.
Proof.
  split; [|split; [|split]].
  - rewrite bs_d1_R by lra. rewrite scenario_d1. reflexivity.
  - rewrite bs_d2_R by lra. rewrite sqrt_1. f_equal. lra.
  - apply (black_scholes_price_general 100 100 1 0.02 0.2 "call"); lra.
  - exact scenario_call_value.
Qed.

(** ** More on the pricer in the exact model *)

(** The Black-Scholes branch needs only a non-zero strike and a positive
    ratio [S / K]. *)
Lemma bs_d1_ratio (S K T r sigma : R) :
  K <> 0 -> 0 < S / K -> 0 < T -> 0 < sigma ->
  bs_d1 S K T r sigma = Return (spec_d1 S K T r sigma).
Proof.
  intros HK HSK HT Hs.
  assert (HsT : 0 < R_sqrt.sqrt T) by (apply sqrt_lt_R0; assumption).
  assert (Hden : 0 < sigma * R_sqrt.sqrt T) by (apply Rmult_lt_0_compat; assumption).
  unfold bs_d1, spec_d1. unfold_R. norm_lit. decide_R.
  f_equal. f_equal; lra.
Qed.

Lemma black_scholes_price_ratio (S K T r sigma : R) (option_type : string) :
  K <> 0 -> 0 < S / K -> 0 < T -> 0 < sigma ->
  black_scholes_price S K T r sigma option_type
  = Return (if String.eqb option_type "call" then spec_call_value S K T r sigma
            else spec_put_value S K T r sigma).
Proof.
  intros HK HSK HT Hs.
  unfold black_scholes_price.
  rewrite bs_d1_ratio by assumption.
  assert (Hb : ((T <=? lit 0) || (sigma <=? lit 0))%py = false).
  { unfold_R. norm_lit. decide_R. reflexivity. }
  rewrite Hb. cbn [bind].
  rewrite bs_d2_R by assumption. cbn [bind].
  rewrite !norm_cdf_R. cbn [bind].
  destruct (String.eqb option_type "call"); unfold_R; reflexivity.
Qed.

(** With time and volatility left, a zero strike stops the pricer at its
    first division. *)
Lemma black_scholes_price_zero_strike (S T r sigma : R) (option_type : string) :
  0 < T -> 0 < sigma ->
  black_scholes_price S 0 T r sigma option_type = Raise ZeroDivisionError.
Proof.
  intros HT Hs. unfold black_scholes_price.
  assert (Hb : ((T <=? lit 0) || (sigma <=? lit 0))%py = false).
  { unfold_R. norm_lit. decide_R. reflexivity. }
  rewrite Hb. unfold bs_d1. unfold_R. decide_R. reflexivity.
Qed.

(** A ratio [S / K] that is not positive stops it at the logarithm. *)
Lemma black_scholes_price_log_domain (S K T r sigma : R) (option_type : string) :
  K <> 0 -> S / K <= 0 -> 0 < T -> 0 < sigma ->
  black_scholes_price S K T r sigma option_type = Raise ValueError.
Proof.
  intros HK HSK HT Hs. unfold black_scholes_price.
  assert (Hb : ((T <=? lit 0) || (sigma <=? lit 0))%py = false).
  { unfold_R. norm_lit. decide_R. reflexivity. }
  rewrite Hb. unfold bs_d1. unfold_R. decide_R. reflexivity.
Qed.

(** Scaling price and strike by the same factor leaves d1 and d2 as they
    are. *)
Lemma spec_d1_scale (c S K T r sigma : R) :
  0 < c -> 0 < K ->
  spec_d1 (c * S) (c * K) T r sigma = spec_d1 S K T r sigma.
Proof.
  intros Hc HK. unfold spec_d1.
  replace (c * S / (c * K)) with (S / K) by (field; lra).
  reflexivity.
Qed.

Lemma Rmax_scale (c a b : R) : 0 <= c -> Rmax (c * a) (c * b) = c * Rmax a b.
Proof.
  intros Hc. unfold Rmax.
  destruct (Rle_dec (c * a) (c * b)), (Rle_dec a b); try reflexivity; nra.
Qed.

(** ** The list the price loop builds *)

Section Axis.

Context {F : Type} {A : Arith F} {B : Builtins F}.

Lemma visited_S (step : F) (n : nat) (current : F) :
  visited step (S n) current
  = round2 current :: visited step n (add current step).
Proof.
  unfold visited. cbn [seq map current_after]. f_equal.
  rewrite <- seq_shift, map_map. reflexivity.
Qed.

(** In every number model the loop returns exactly when some value of
    [current] fails the test within the fuel, and then it has appended the
    rounded values before the first failure. *)
Lemma price_loop_list (fuel : nat) (stock_max step current : F)
    (prices l : list F) :
  price_loop fuel stock_max step current prices = Return l
  <-> exists n : nat,
        (n <= fuel)%nat
        /\ l = (prices ++ visited step n current)%list
        /\ (forall k : nat, (k < n)%nat ->
              leb (current_after step k current) (add stock_max (lit 1e-9)) = true)
        /\ leb (current_after step n current) (add stock_max (lit 1e-9)) = false.
Proof.
  revert current prices.
  induction fuel as [|fuel IH]; intros current prices; cbn [price_loop];
    destruct (leb current (add stock_max (lit 1e-9))) eqn:E.
  - split; [discriminate|].
    intros (n & Hn & _ & _ & Hf). assert (n = 0)%nat by lia. subst n.
    cbn [current_after] in Hf. congruence.
  - split.
    + intros H. injection H as <-. exists 0%nat.
      split; [lia|]. split; [rewrite app_nil_r; reflexivity|].
      split; [intros k Hk; lia | exact E].
    + intros (n & _ & -> & Hall & _).
      destruct n as [|n]; [rewrite app_nil_r; reflexivity|].
      specialize (Hall 0%nat ltac:(lia)). cbn [current_after] in Hall. congruence.
  - rewrite IH. split.
    + intros (n & Hn & -> & Hall & Hf). exists (S n).
      split; [lia|]. split; [rewrite visited_S, <- app_assoc; reflexivity|].
      split; [|exact Hf].
      intros [|k] Hk; [exact E|]. cbn [current_after]. apply Hall. lia.
    + intros (n & Hn & -> & Hall & Hf).
      destruct n as [|n]; [cbn [current_after] in Hf; congruence|].
      exists n. split; [lia|].
      split; [rewrite visited_S, <- app_assoc; reflexivity|].
      split; [|exact Hf].
      intros k Hk. apply (Hall (S k)). lia.
  - split.
    + intros H. injection H as <-. exists 0%nat.
      split; [lia|]. split; [rewrite app_nil_r; reflexivity|].
      split; [intros k Hk; lia | exact E].
    + intros (n & _ & -> & Hall & _).
      destruct n as [|n]; [rewrite app_nil_r; reflexivity|].
      specialize (Hall 0%nat ltac:(lia)). cbn [current_after] in Hall. congruence.
Qed.

End Axis.

(** Over the reals [current] is [stock_min + k * step] after [k]
    iterations. *)
Lemma current_after_R (step : R) (n : nat) (current : R) :
  current_after step n current = current + INR n * step.
Proof.
  revert current. induction n as [|n IH]; intros current.
  - cbn [current_after INR]. ring.
  - cbn [current_after]. rewrite IH, S_INR. cbn [add Arith_R]. ring.
Qed.

Lemma visited_R (step : R) (n : nat) (current : R) :
  visited step n current = axis_points current step n.
Proof.
  unfold visited, axis_points. apply map_ext. intros k.
  rewrite current_after_R. reflexivity.
Qed.

(** [axis_count] counts the values that pass the test. *)
Lemma axis_count_spec (stock_min stock_max step : R) (k : nat) :
  0 < step ->
  (k < axis_count stock_min stock_max step)%nat
  <-> stock_min + INR k * step <= stock_max + 1 / 1000000000.
Proof.
  intros Hstep. unfold axis_count.
  set (x := (stock_max + 1 / 1000000000 - stock_min) / step).
  assert (Hx : x * step = stock_max + 1 / 1000000000 - stock_min)
    by (unfold x; field; lra).
  pose proof (Zfloor_bound x) as [Hlo Hhi].
  split.
  - intros Hk.
    assert (Hz : (Z.of_nat k <= Zfloor x)%Z) by lia.
    apply IZR_le in Hz. rewrite <- INR_IZR_INZ in Hz.
    assert (INR k * step <= x * step) by (apply Rmult_le_compat_r; lra).
    lra.
  - intros Hk.
    assert (Hkx : INR k <= x).
    { apply Rmult_le_reg_r with step; [exact Hstep | lra]. }
    rewrite INR_IZR_INZ in Hkx. apply Zfloor_lub in Hkx. lia.
Qed.

(** With a positive step the price axis is the list of the rounded values
    [stock_min + k * step] that pass the test, once the fuel covers them. *)
Lemma build_price_points_axis (fuel : nat) (stock_min stock_max step : R) :
  0 < step ->
  (axis_count stock_min stock_max step <= fuel)%nat ->
  build_price_points fuel stock_min stock_max step
  = Return (axis_points stock_min step (axis_count stock_min stock_max step)).
Proof.
  intros Hstep Hfuel. unfold build_price_points.
  apply price_loop_list. exists (axis_count stock_min stock_max step).
  split; [exact Hfuel|]. split; [rewrite visited_R; reflexivity|]. split.
  - intros k Hk. rewrite current_after_R. apply price_test_R.
    apply axis_count_spec; assumption.
  - rewrite current_after_R.
    destruct (leb _ _) eqn:E; [|reflexivity].
    apply price_test_R in E. apply axis_count_spec in E; [lia | exact Hstep].
Qed.

(** Without a positive step the loop leaves only if it never enters. *)
Lemma price_loop_no_progress (fuel : nat) (stock_max step current : R)
    (prices : list R) :
  step <= 0 -> current <= stock_max + 1 / 1000000000 ->
  price_loop fuel stock_max step current prices = OutOfFuel.
Proof.
  intros Hstep. revert current prices.
  induction fuel as [|fuel IH]; intros current prices Hc;
    rewrite price_loop_unfold;
    destruct (R_leb current (stock_max + Q2R 1e-9)) eqn:E.
  - reflexivity.
  - exfalso. assert (E' : R_leb current (stock_max + Q2R 1e-9) = true)
      by (apply R_leb_spec; norm_lit; lra). congruence.
  - apply IH. lra.
  - exfalso. assert (E' : R_leb current (stock_max + Q2R 1e-9) = true)
      by (apply R_leb_spec; norm_lit; lra). congruence.
Qed.

(** A range that is not empty starts the axis at the rounded minimum. *)
Lemma axis_points_head (stock_min stock_max step : R) :
  0 < step -> stock_min <= stock_max + 1 / 1000000000 ->
  exists rest : list R,
    axis_points stock_min step (axis_count stock_min stock_max step)
    = round2 stock_min :: rest.
Proof.
  intros Hstep Hle.
  assert (H0 : (0 < axis_count stock_min stock_max step)%nat).
  { apply axis_count_spec; [exact Hstep|]. cbn [INR]. lra. }
  destruct (axis_count stock_min stock_max step) as [|n]; [lia|].
  unfold axis_points. cbn [seq map]. eexists. f_equal.
  f_equal. cbn [INR]. ring.
Qed.

(** ** The pages of the view *)

Section Pages.

Context {F : Type} {A : Arith F} {B : Builtins F} {L : Libm F}.

(** The computation on the converted fields shows the form again only for
    an inverted price range. *)
Lemma index_post_page (fuel : nat) (today : date) (f : form F)
    (e : option string) :
  index_post fuel today f = Return (index_html e)
  <-> ltb (stock_max f) (stock_min f) = true
      /\ e = Some "Max stock price must be greater than or equal to min stock price."%string.
Proof.
  unfold index_post.
  destruct (ltb (stock_max f) (stock_min f)).
  { split.
    - intros H. injection H as <-. split; reflexivity.
    - intros [_ ->]. reflexivity. }
  split; [|intros [H _]; discriminate].
  intros H. exfalso.
  destruct (build_price_points fuel (stock_min f) (stock_max f) (lit 1.0))
    as [pts| |]; cbn [bind] in H; try discriminate.
  destruct (for_each pts [] _) as [rows0| |]; cbn [bind] in H; try discriminate.
  destruct (div (implied_volatility f) (lit 100.0)) as [sigma| |];
    cbn [bind] in H; try discriminate.
  destruct (for_each (range _) _ _) as [[dl g]| |]; cbn [bind] in H;
    discriminate.
Qed.

(** The handler of [index] leaves no [ValueError]. *)
Lemma index_no_ValueError (fuel : nat) (today : date) (req : request F) :
  index fuel today req <> Raise ValueError.
Proof.
  destruct req as [|f]; cbn [index]; [discriminate|].
  unfold try_except_ValueError.
  destruct (index_post fuel today f) as [r|[]|]; discriminate.
Qed.

(** The two ways to the form page after a POST. *)
Lemma index_page (fuel : nat) (today : date) (f : form F) (e : option string) :
  index fuel today (POST f) = Return (index_html e)
  <-> (ltb (stock_max f) (stock_min f) = true
       /\ e = Some "Max stock price must be greater than or equal to min stock price."%string)
      \/ (index_post fuel today f = Raise ValueError
          /\ e = Some "Invalid input. Please make sure all numeric fields contain valid numbers."%string).
Proof.
  cbn [index]. unfold try_except_ValueError.
  destruct (index_post fuel today f) as [r|[]|] eqn:E.
  - rewrite <- E, index_post_page. rewrite E. split.
    + intros H. left. exact H.
    + intros [H|[H _]]; [exact H | discriminate].
  - split; [discriminate|].
    intros [[H _]|[H _]]; [|discriminate].
    assert (E' : index_post fuel today f
                 = Return (index_html
                     (Some "Max stock price must be greater than or equal to min stock price."%string)))
      by (apply index_post_page; split; [exact H | reflexivity]).
    congruence.
  - split.
    + intros H. injection H as <-. right. split; reflexivity.
    + intros [[H _]|[_ ->]]; [|reflexivity].
      assert (E' : index_post fuel today f
                   = Return (index_html
                       (Some "Max stock price must be greater than or equal to min stock price."%string)))
        by (apply index_post_page; split; [exact H | reflexivity]).
      congruence.
  - split; [discriminate|].
    intros [[H _]|[H _]]; [|discriminate].
    assert (E' : index_post fuel today f
                 = Return (index_html
                     (Some "Max stock price must be greater than or equal to min stock price."%string)))
      by (apply index_post_page; split; [exact H | reflexivity]).
    congruence.
  - split; [discriminate|].
    intros [[H _]|[H _]]; [|discriminate].
    assert (E' : index_post fuel today f
                 = Return (index_html
                     (Some "Max stock price must be greater than or equal to min stock price."%string)))
      by (apply index_post_page; split; [exact H | reflexivity]).
    congruence.
Qed.

End Pages.

(** ** The view in the exact model, continued *)

Lemma ltb_R (x y : R) : ltb x y = true <-> x < y.
Proof. cbn [ltb Arith_R]. apply R_ltb_spec. Qed.

Lemma step_one_pos : 0 < lit (F := R) 1.0.
Proof. rewrite lit_one. lra. Qed.

(** The dictionary of a valid day. *)
Lemma daily_map_of_valid (f : form R) (today : date) (pts : list R)
    (cost r sigma : R) (k : Z) :
  valid_date (today + k)%Z ->
  daily_map_of f today pts cost r sigma k
  = for_each pts []
      (grid_cell f cost (spec_years_to_expiry (expiry_date f) (today + k)%Z) r sigma).
Proof.
  unfold daily_map_of, date_add_days, valid_date, spec_years_to_expiry,
    date_diff_days.
  intros [H1 H2].
  destruct (Z.leb_spec 1 (today + k)%Z); [|lia].
  destruct (Z.leb_spec (today + k)%Z MAXORDINAL); [|lia].
  cbn [andb bind]. unfold_R. norm_lit. decide_R. reflexivity.
Qed.

(** The expiry table is computed row by row, and its loop returns. *)
Lemma expiry_rows_R (f : form R) (pts : list R) :
  for_each pts []
    (fun rows p =>
       bind (expiry_row f (premium f * lit 100)%py p)
         (fun r => Return (rows ++ [r])))
  = Return (map (spec_row f) pts).
Proof.
  apply for_each_collect. exists (map (spec_row f) pts).
  split; [reflexivity|].
  induction pts as [|p pts IH]; cbn [map]; constructor;
    [apply expiry_row_R | exact IH].
Qed.

Lemma index_rows (fuel : nat) (today : date) (f : form R) (res : results R) :
  index fuel today (POST f) = Return (results_html res) ->
  rows res = map (spec_row f) (price_points res).
Proof.
  intros H. apply index_results in H. destruct H as (_ & _ & H & _).
  rewrite expiry_rows_R in H. injection H as H. symmetry. exact H.
Qed.

Lemma range_S (n : Z) : (0 <= n)%Z -> exists rest, range (n + 1) = 0%Z :: rest.
Proof.
  intros Hn. unfold range.
  replace (Z.to_nat (n + 1)) with (S (Z.to_nat n)) by lia.
  cbn [seq map]. eauto.
Qed.

(** When the first cell of the first day raises, so does the computation:
    the price axis and the expiry table are built before, and neither
    raises. *)
Lemma index_post_first_cell (today : date) (f : form R) (e : exn) :
  valid_date today -> stock_min f <= stock_max f ->
  black_scholes_price (round2 (stock_min f)) (strike_price f)
    (spec_years_to_expiry (expiry_date f) today) (lit 0.02)
    (implied_volatility f / 100) (option_type f) = Raise e ->
  exists fuel : nat,
    forall fuel' : nat, (fuel <= fuel')%nat ->
      index_post fuel' today f = Raise e.
Proof.
  intros Ht Hle Hcell.
  exists (axis_count (stock_min f) (stock_max f) (lit 1.0)).
  intros fuel' Hfuel. unfold index_post.
  assert (Hlt : ltb (stock_max f) (stock_min f) = false).
  { destruct (ltb (stock_max f) (stock_min f)) eqn:E; [|reflexivity].
    apply ltb_R in E. lra. }
  rewrite Hlt.
  rewrite (build_price_points_axis fuel' _ _ _ step_one_pos Hfuel).
  destruct (axis_points_head (stock_min f) (stock_max f) (lit 1.0) step_one_pos)
    as [rest Hpts]; [lra|].
  rewrite Hpts. cbn [bind].
  rewrite expiry_rows_R. cbn [bind].
  assert (Hs : (implied_volatility f / lit 100.0)%py
               = Return (implied_volatility f / 100)).
  { unfold_R. norm_lit. decide_R. reflexivity. }
  rewrite Hs. cbn [bind]. unfold date_diff_days.
  destruct (range_S (Z.max 0 (expiry_date f - today))) as [days Hdays]; [lia|].
  rewrite Hdays. cbn [for_each].
  rewrite grid_day_store. unfold store_listing.
  rewrite daily_map_of_valid by (rewrite Z.add_0_r; exact Ht).
  rewrite Z.add_0_r. cbn [for_each].
  unfold grid_cell at 1. rewrite cell_total_pl_R, Hcell. reflexivity.
Qed.

(** The view renders the results when every cell of the grid can be
    priced. *)
Lemma index_returns_cells (today : date) (f : form R) :
  valid_date today -> valid_date (expiry_date f) ->
  stock_min f <= stock_max f ->
  (forall (k : Z) (p : R),
     (0 <= k <= Z.max 0 (expiry_date f - today))%Z ->
     In p (axis_points (stock_min f) (lit 1.0)
             (axis_count (stock_min f) (stock_max f) (lit 1.0))) ->
     exists v,
       black_scholes_price p (strike_price f)
         (spec_years_to_expiry (expiry_date f) (today + k)%Z) (lit 0.02)
         (implied_volatility f / 100) (option_type f) = Return v) ->
  exists res : results R,
    forall fuel' : nat,
      (axis_count (stock_min f) (stock_max f) (lit 1.0) <= fuel')%nat ->
      index fuel' today (POST f) = Return (results_html res).
Proof.
  intros Ht He Hle Hcells.
  set (pts := axis_points (stock_min f) (lit 1.0)
                (axis_count (stock_min f) (stock_max f) (lit 1.0))) in *.
  set (total_days := Z.max 0 (expiry_date f - today)%Z) in *.
  set (cost := (premium f * lit 100)%py).
  destruct (store_returns (fun k => isoformat (today + k)%Z)
              (daily_map_of f today pts cost (lit 0.02) (implied_volatility f / 100))
              (range (total_days + 1)%Z) []) as [g Hg].
  { intros k Hk. apply in_range in Hk.
    destruct (store_returns format_2f
                (cell_total_pl f cost
                   (spec_years_to_expiry (expiry_date f) (today + k)%Z)
                   (lit 0.02) (implied_volatility f / 100)) pts [])
      as [m Hm].
    - intros p Hp. unfold cost. rewrite cell_total_pl_R.
      destruct (Hcells k p) as [v Hv]; [lia | exact Hp |].
      rewrite Hv. cbn [bind]. eauto.
    - exists m. apply daily_map_of_R. split; [|exact Hm].
      unfold valid_date in *. unfold total_days in Hk. lia. }
  exists {| rows := map (spec_row f) pts;
            price_points := pts;
            date_labels :=
              map (fun k => isoformat (today + k)%Z) (range (total_days + 1)%Z);
            grid := g |}.
  intros fuel' Hfuel. apply index_results.
  cbn [rows price_points date_labels grid].
  split; [lra|].
  split; [apply build_price_points_axis; [exact step_one_pos | exact Hfuel]|].
  split; [apply expiry_rows_R|].
  fold total_days.
  rewrite (for_each_ext _ _ _ _
             (fun acc k _ => grid_day_store f today pts _ _ _ acc k)).
  apply store_listing_split. split; [reflexivity | exact Hg].
Qed.

(** ** The shape of the dictionaries *)

Lemma dict_set_fresh {V : Type} (k : string) (v : V) (d : dict V) :
  ~ In k (dict_keys d) -> dict_set k v d = d ++ [(k, v)].
Proof.
  unfold dict_keys.
  induction d as [|[k' v'] d IH]; intros Hk; cbn [dict_set app].
  - reflexivity.
  - cbn [map fst In] in Hk.
    destruct (String.eqb k k') eqn:E.
    + apply String.eqb_eq in E. subst k'. exfalso. apply Hk. left. reflexivity.
    + rewrite IH by (intros Hin; apply Hk; right; exact Hin). reflexivity.
Qed.

Section FreshKeys.

Context {X V : Type} (key : X -> string) (val : X -> outcome V).

(** A loop over elements with distinct keys, none of them in the
    dictionary yet, appends one entry for each element, in order. *)
Lemma store_fresh (xs : list X) (d0 d : dict V) :
  NoDup (map key xs) ->
  (forall x, In x xs -> ~ In (key x) (dict_keys d0)) ->
  for_each xs d0 (store key val) = Return d ->
  exists d' : dict V,
    d = d0 ++ d'
    /\ Forall2 (fun x kv => fst kv = key x /\ val x = Return (snd kv)) xs d'.
Proof.
  revert d0. induction xs as [|a xs IH]; intros d0 Hnd Hfresh H;
    cbn [for_each] in H.
  - injection H as <-. exists []. rewrite app_nil_r.
    split; [reflexivity | constructor].
  - unfold store at 1 in H.
    destruct (val a) as [va| |] eqn:Ea; cbn [bind] in H; try discriminate.
    cbn [map] in Hnd. inversion Hnd as [|? ? Hna Hnd']; subst.
    rewrite dict_set_fresh in H by (apply Hfresh; left; reflexivity).
    apply IH in H; [|exact Hnd'|].
    + destruct H as (d' & -> & Hd').
      exists ((key a, va) :: d'). rewrite <- app_assoc.
      split; [reflexivity|].
      constructor; [split; [reflexivity | exact Ea] | exact Hd'].
    + intros x Hx Hin. unfold dict_keys in Hin.
      rewrite map_app in Hin. apply in_app_or in Hin.
      destruct Hin as [Hin|Hin].
      * apply (Hfresh x); [right; exact Hx | exact Hin].
      * cbn [map fst In] in Hin. destruct Hin as [E|[]].
        apply Hna. rewrite E. apply in_map. exact Hx.
Qed.

Lemma store_fresh_keys (xs : list X) (d : dict V) :
  NoDup (map key xs) ->
  for_each xs [] (store key val) = Return d ->
  dict_keys d = map key xs
  /\ forall (k : string) (v : V), In (k, v) d ->
       exists x, In x xs /\ k = key x /\ val x = Return v.
Proof.
  intros Hnd H.
  destruct (store_fresh xs [] d Hnd (fun _ _ Hin => Hin) H) as (d' & -> & Hd').
  cbn [app]. clear H Hnd.
  induction Hd' as [|x [k0 v0] xs d' [Hk Hv] Hd' IH].
  - split; [reflexivity | intros k v []].
  - destruct IH as [IHk IHv]. cbn [fst snd] in Hk, Hv. subst k0.
    split.
    + unfold dict_keys in *. cbn [map fst]. rewrite IHk. reflexivity.
    + intros k v [E|Hin].
      * injection E as <- <-. exists x.
        split; [left; reflexivity|]. split; [reflexivity | exact Hv].
      * destruct (IHv k v Hin) as (y & Hy & Ek & Ev).
        exists y. split; [right; exact Hy|]. split; assumption.
Qed.

End FreshKeys.

Lemma range_NoDup (n : Z) : NoDup (range n).
Proof.
  unfold range. apply NoDup_map_NoDup_ForallPairs.
  - intros x y _ _. apply Nat2Z.inj.
  - apply seq_NoDup.
Qed.

Lemma increasing_NoDup (l : list R) : increasing l -> NoDup l.
Proof.
  unfold increasing. intros H.
  induction H as [|a l Hs IH Ha]; constructor; [|exact IH].
  intros Hin. rewrite Forall_forall in Ha. specialize (Ha a Hin). lra.
Qed.

(** Increasing hundredths have distinct two-decimal texts. *)
Lemma format_2f_NoDup (pts : list R) :
  increasing pts -> hundredths pts -> NoDup (map format_2f pts).
Proof.
  intros Hi Hh. apply NoDup_map_NoDup_ForallPairs.
  - intros x y Hx Hy E. unfold hundredths in Hh. rewrite Forall_forall in Hh.
    apply format_2f_inj; [apply Hh; exact Hx | apply Hh; exact Hy | exact E].
  - apply increasing_NoDup. exact Hi.
Qed.

(** The grid has one dictionary for each date label, in order, and each
    has one entry for each price point, in order. *)
Lemma index_grid_shape (fuel : nat) (today : date) (f : form R)
    (res : results R) :
  index fuel today (POST f) = Return (results_html res) ->
  dict_keys (grid res) = date_labels res
  /\ NoDup (date_labels res)
  /\ NoDup (map format_2f (price_points res))
  /\ forall (date_str : string) (m : dict R),
       In (date_str, m) (grid res) ->
       dict_keys m = map format_2f (price_points res).
Proof.
  intros H.
  destruct (index_grid fuel today f res H) as [Hdl Hdays].
  apply index_results in H. destruct H as (_ & Hpts & _ & H).
  destruct (build_price_points_unit_step fuel _ _ _ Hpts) as (Hi & Hh & _).
  pose proof (format_2f_NoDup _ Hi Hh) as Hkeys.
  set (total_days := Z.max 0 (expiry_date f - today)%Z) in *.
  rewrite (for_each_ext _ _ _ _
             (fun acc k _ => grid_day_store f today (price_points res)
                               _ _ _ acc k)) in H.
  apply store_listing_split in H. destruct H as [_ Hg].
  assert (Hnd : NoDup (map (fun k => isoformat (today + k)%Z)
                         (range (total_days + 1)%Z))).
  { apply NoDup_map_NoDup_ForallPairs; [|apply range_NoDup].
    intros x y Hx Hy E. apply in_range in Hx, Hy.
    assert (today + x = today + y)%Z; [|lia].
    apply isoformat_inj; [apply Hdays; lia | apply Hdays; lia | exact E]. }
  destruct (store_fresh_keys _ _ _ _ Hnd Hg) as [Hk Hv].
  rewrite Hdl. split; [exact Hk|]. split; [exact Hnd|]. split; [exact Hkeys|].
  intros date_str m Hin.
  destruct (Hv date_str m Hin) as (k & Hkin & _ & Hm).
  apply daily_map_of_R in Hm. destruct Hm as [_ Hm].
  rewrite grid_cell_store in Hm.
  apply (store_fresh_keys _ _ _ _ Hkeys Hm).
Qed.

(** ** The payoff along the price axis *)




(** ** Conversions that raise *)

Section Conversions.

Context {F : Type} {A : Arith F} {B : Builtins F} {L : Libm F}.

(** The expiry table multiplies by the number of contracts first: when
    that number has no float, the error leaves [index] from its first
    row. *)
Lemma index_contracts_overflow (fuel : nat) (today : date) (f : form F)
    (p : F) (rest : list F) :
  ltb (stock_max f) (stock_min f) = false ->
  build_price_points fuel (stock_min f) (stock_max f) (lit 1.0)
  = Return (p :: rest) ->
  of_int (contracts f) = Raise OverflowError ->
  index fuel today (POST f) = Raise OverflowError.
Proof.
  intros Hlt Hpts Hc. cbn [index]. unfold index_post.
  rewrite Hlt, Hpts. cbn [bind for_each].
  unfold expiry_row at 1. rewrite Hc. reflexivity.
Qed.

End Conversions.

(** ** NaN in binary64 *)

Lemma float_leb_nan_l (y : float) : PrimFloat.leb nan y = false.
Proof.
  rewrite leb_spec.
  replace (Prim2SF nan) with S754_nan by (vm_compute; reflexivity).
  reflexivity.
Qed.

Lemma float_leb_nan_r (x : float) : PrimFloat.leb x nan = false.
Proof.
  rewrite leb_spec.
  replace (Prim2SF nan) with S754_nan by (vm_compute; reflexivity).
  destruct (Prim2SF x) as [s|s| |s m e]; try reflexivity;
    destruct s; reflexivity.
Qed.

Lemma float_ltb_nan_l (y : float) : PrimFloat.ltb nan y = false.
Proof.
  rewrite ltb_spec.
  replace (Prim2SF nan) with S754_nan by (vm_compute; reflexivity).
  reflexivity.
Qed.

Lemma float_ltb_nan_r (x : float) : PrimFloat.ltb x nan = false.
Proof.
  rewrite ltb_spec.
  replace (Prim2SF nan) with S754_nan by (vm_compute; reflexivity).
  destruct (Prim2SF x) as [s|s| |s m e]; try reflexivity;
    destruct s; reflexivity.
Qed.

(** A NaN bound fails the first test of the loop. *)
Lemma price_loop_nan (fuel : nat) (stock_min stock_max step : float)
    (prices : list float) :
  stock_min = nan \/ stock_max = nan ->
  price_loop fuel stock_max step stock_min prices = Return prices.
Proof.
  intros H.
  assert (E : leb stock_min (add stock_max (lit 1e-9)) = false).
  { cbn [leb add Arith_float]. destruct H as [->| ->].
    - apply float_leb_nan_l.
    - replace (PrimFloat.add nan (lit 1e-9)) with nan
        by (vm_compute; reflexivity).
      apply float_leb_nan_r. }
  destruct fuel; cbn [price_loop]; rewrite E; reflexivity.
Qed.

(** With a NaN bound and the expiry not after today, [index] renders an
    empty table and a grid of one empty day. *)
Lemma index_nan (L : Libm float) (fuel : nat) (today : date) (f : form float) :
  valid_date today -> (expiry_date f <= today)%Z ->
  stock_min f = nan \/ stock_max f = nan ->
  index fuel today (POST f) = Return (results_html (empty_results today)).
Proof.
  intros Ht He Hnan. cbn [index]. unfold index_post.
  assert (Hlt : ltb (stock_max f) (stock_min f) = false).
  { cbn [ltb Arith_float]. destruct Hnan as [->| ->].
    - apply float_ltb_nan_r.
    - apply float_ltb_nan_l. }
  rewrite Hlt. unfold build_price_points.
  rewrite price_loop_nan by exact Hnan. cbn [bind for_each].
  assert (Hs : div (implied_volatility f) (lit 100.0)
               = Return (PrimFloat.div (implied_volatility f) (lit 100.0))).
  { cbn [div Arith_float].
    replace (PrimFloat.eqb (lit 100.0) 0) with false by (vm_compute; reflexivity).
    reflexivity. }
  rewrite Hs. cbn [bind]. unfold date_diff_days.
  replace (Z.max 0 (expiry_date f - today)) with 0%Z by lia.
  change (range (0 + 1)) with [0%Z]. cbn [for_each].
  unfold grid_day, date_add_days, date_diff_days.
  rewrite Z.add_0_r.
  unfold valid_date in Ht.
  destruct (Z.leb_spec 1 today); [|lia].
  destruct (Z.leb_spec today MAXORDINAL); [|lia].
  cbn [andb bind].
  replace (Z.max 0 (expiry_date f - today)) with 0%Z by lia.
  replace (of_int (F := float) 0) with (@Return float 0%float)
    by (vm_compute; reflexivity).
  cbn [bind].
  replace (div (F := float) 0%float (lit 365.0))
    with (@Return float (PrimFloat.div 0 (lit 365.0)))
    by (vm_compute; reflexivity).
  cbn [bind for_each dict_set app try_except_ValueError].
  reflexivity.
Qed.

(** ** The pricer in every number model *)

Section PricerAny.

Context {F : Type} {A : Arith F} {L : Libm F}.

(** The operations behind [d1]. *)
Lemma bs_d1_chain (S K T r sigma d1 : F) :
  bs_d1 S K T r sigma = Return d1
  <-> exists q l sT : F,
        div S K = Return q /\ math_log q = Return l
        /\ math_sqrt T = Return sT
        /\ div (add l (mul (add r (mul (mul (lit 0.5) sigma) sigma)) T))
             (mul sigma sT) = Return d1.
Proof.
  unfold bs_d1. split.
  - intros H.
    destruct (div S K) as [q| |] eqn:Eq; cbn [bind] in H; try discriminate.
    destruct (math_log q) as [l| |] eqn:El; cbn [bind] in H; try discriminate.
    destruct (math_sqrt T) as [sT| |] eqn:Es; cbn [bind] in H; try discriminate.
    exists q, l, sT. repeat split; try reflexivity; assumption.
  - intros (q & l & sT & -> & Hl & Hs & H). cbn [bind].
    rewrite Hl. cbn [bind]. rewrite Hs. cbn [bind]. exact H.
Qed.

(** Past the boundary test, the pricer returns exactly when each of its
    operations does, and then the value is the expression of lines 35 and
    37 on the results. *)
Lemma black_scholes_price_chain (S K T r sigma : F) (option_type : string)
    (v : F) :
  (leb T (lit 0) || leb sigma (lit 0))%bool = false ->
  black_scholes_price S K T r sigma option_type = Return v
  <-> exists d1 d2 e : F,
        bs_d1 S K T r sigma = Return d1
        /\ bs_d2 d1 T sigma = Return d2
        /\ math_exp (mul (neg r) T) = Return e
        /\ if String.eqb option_type "call"
           then exists n1 n2 : F,
                  norm_cdf d1 = Return n1 /\ norm_cdf d2 = Return n2
                  /\ v = sub (mul S n1) (mul (mul K e) n2)
           else exists n2 n1 : F,
                  norm_cdf (neg d2) = Return n2 /\ norm_cdf (neg d1) = Return n1
                  /\ v = sub (mul (mul K e) n2) (mul S n1).
Proof.
  intros Hb. unfold black_scholes_price. rewrite Hb. split.
  - intros H.
    destruct (bs_d1 S K T r sigma) as [d1| |] eqn:E1; cbn [bind] in H;
      try discriminate.
    destruct (bs_d2 d1 T sigma) as [d2| |] eqn:E2; cbn [bind] in H;
      try discriminate.
    exists d1, d2.
    destruct (String.eqb option_type "call").
    + destruct (norm_cdf d1) as [n1| |] eqn:En1; cbn [bind] in H;
        try discriminate.
      destruct (math_exp (mul (neg r) T)) as [e| |] eqn:Ee; cbn [bind] in H;
        try discriminate.
      destruct (norm_cdf d2) as [n2| |] eqn:En2; cbn [bind] in H;
        try discriminate.
      injection H as <-. exists e.
      repeat (split; [first [reflexivity | assumption]|]).
      exists n1, n2.
      repeat (split; [first [reflexivity | assumption]|]). reflexivity.
    + destruct (math_exp (mul (neg r) T)) as [e| |] eqn:Ee; cbn [bind] in H;
        try discriminate.
      destruct (norm_cdf (neg d2)) as [n2| |] eqn:En2; cbn [bind] in H;
        try discriminate.
      destruct (norm_cdf (neg d1)) as [n1| |] eqn:En1; cbn [bind] in H;
        try discriminate.
      injection H as <-. exists e.
      repeat (split; [first [reflexivity | assumption]|]).
      exists n2, n1.
      repeat (split; [first [reflexivity | assumption]|]). reflexivity.
  - intros (d1 & d2 & e & -> & H2 & He & H). cbn [bind].
    rewrite H2. cbn [bind].
    destruct (String.eqb option_type "call").
    + destruct H as (n1 & n2 & -> & Hn2 & ->). cbn [bind].
      rewrite He. cbn [bind]. rewrite Hn2. reflexivity.
    + destruct H as (n2 & n1 & Hn2 & Hn1 & ->).
      rewrite He. cbn [bind]. rewrite Hn2. cbn [bind]. rewrite Hn1.
      reflexivity.
Qed.

(** The same, down to the operations of lines 31 and 32. *)
Lemma black_scholes_price_steps (S K T r sigma : F) (option_type : string)
    (v : F) :
  (leb T (lit 0) || leb sigma (lit 0))%bool = false ->
  black_scholes_price S K T r sigma option_type = Return v
  <-> exists q l sT d1 e : F,
        div S K = Return q /\ math_log q = Return l
        /\ math_sqrt T = Return sT
        /\ div (add l (mul (add r (mul (mul (lit 0.5) sigma) sigma)) T))
             (mul sigma sT) = Return d1
        /\ math_exp (mul (neg r) T) = Return e
        /\ if String.eqb option_type "call"
           then exists n1 n2 : F,
                  norm_cdf d1 = Return n1
                  /\ norm_cdf (sub d1 (mul sigma sT)) = Return n2
                  /\ v = sub (mul S n1) (mul (mul K e) n2)
           else exists n2 n1 : F,
                  norm_cdf (neg (sub d1 (mul sigma sT))) = Return n2
                  /\ norm_cdf (neg d1) = Return n1
                  /\ v = sub (mul (mul K e) n2) (mul S n1).
Proof.
  intros Hb. rewrite (black_scholes_price_chain _ _ _ _ _ _ _ Hb). split.
  - intros (d1 & d2 & e & H1 & H2 & He & H).
    apply bs_d1_chain in H1. destruct H1 as (q & l & sT & Hq & Hl & Hs & H1).
    unfold bs_d2 in H2. rewrite Hs in H2. cbn [bind] in H2.
    injection H2 as <-.
    exists q, l, sT, d1, e.
    repeat (split; [assumption|]). exact H.
  - intros (q & l & sT & d1 & e & Hq & Hl & Hs & H1 & He & H).
    exists d1, (sub d1 (mul sigma sT)), e.
    split; [apply bs_d1_chain; exists q, l, sT; repeat split; assumption|].
    split; [unfold bs_d2; rewrite Hs; reflexivity|].
    split; [exact He | exact H].
Qed.

(** The first operation of the pricer is the division of the price by the
    strike, the second the logarithm of the ratio: what they raise, the
    pricer raises. *)
Lemma black_scholes_price_div_raises (S K T r sigma : F)
    (option_type : string) (e : exn) :
  (leb T (lit 0) || leb sigma (lit 0))%bool = false ->
  div S K = Raise e ->
  black_scholes_price S K T r sigma option_type = Raise e.
Proof.
  intros Hb H. unfold black_scholes_price, bs_d1. rewrite Hb, H. reflexivity.
Qed.

Lemma black_scholes_price_log_raises (S K T r sigma q : F)
    (option_type : string) (e : exn) :
  (leb T (lit 0) || leb sigma (lit 0))%bool = false ->
  div S K = Return q -> math_log q = Raise e ->
  black_scholes_price S K T r sigma option_type = Raise e.
Proof.
  intros Hb Hq H. unfold black_scholes_price, bs_d1. rewrite Hb, Hq.
  cbn [bind]. rewrite H. reflexivity.
Qed.

(** A division by zero in [d1] stops the pricer when the operations before
    it return. *)
Lemma black_scholes_price_d1_raises (S K T r sigma q l sT : F)
    (option_type : string) (e : exn) :
  (leb T (lit 0) || leb sigma (lit 0))%bool = false ->
  div S K = Return q -> math_log q = Return l -> math_sqrt T = Return sT ->
  div (add l (mul (add r (mul (mul (lit 0.5) sigma) sigma)) T)) (mul sigma sT)
  = Raise e ->
  black_scholes_price S K T r sigma option_type = Raise e.
Proof.
  intros Hb Hq Hl Hs H. unfold black_scholes_price, bs_d1. rewrite Hb, Hq.
  cbn [bind]. rewrite Hl. cbn [bind]. rewrite Hs. cbn [bind]. rewrite H.
  reflexivity.
Qed.

End PricerAny.

(** ** The pricer in binary64 *)

Lemma Prim2SF_zero : Prim2SF 0%float = S754_zero false.
Proof. vm_compute. reflexivity. Qed.

Lemma float_is_nan_spec (x : float) :
  PrimFloat.is_nan x = true <-> Prim2SF x = S754_nan.
Proof.
  unfold PrimFloat.is_nan. rewrite eqb_spec.
  destruct (Prim2SF x) as [s|s| |s m e]; cbn.
  - split; [discriminate|discriminate].
  - destruct s; split; discriminate.
  - split; reflexivity.
  - unfold SFeqb, SFcompare. rewrite Z.compare_refl, Pos.compare_cont_refl.
    destruct s; split; discriminate.
Qed.

(** A float at or below zero is outside the domain of [math.log]. *)
Lemma float_math_log_domain (c : clib) (x : float) :
  PrimFloat.leb x 0 = true ->
  math_log (Libm := Libm_float c) x = Raise ValueError.
Proof.
  intros Hle.
  assert (Hnan : PrimFloat.is_nan x = false).
  { destruct (PrimFloat.is_nan x) eqn:E; [|reflexivity].
    apply float_is_nan_spec in E. rewrite leb_spec, E in Hle. discriminate. }
  assert (Hlt : PrimFloat.ltb 0 x = false).
  { rewrite ltb_spec, Prim2SF_zero. rewrite leb_spec, Prim2SF_zero in Hle.
    destruct (Prim2SF x) as [s|s| |s m e]; try reflexivity;
      destruct s; try reflexivity; discriminate. }
  cbn [math_log Libm_float]. unfold math_1, m_log.
  rewrite Hlt, Hnan.
  destruct (PrimFloat.is_finite x) eqn:Ef.
  - destruct (PrimFloat.eqb x 0).
    + replace (PrimFloat.is_nan neg_infinity) with false
        by (vm_compute; reflexivity).
      replace (PrimFloat.is_infinity neg_infinity) with true
        by (vm_compute; reflexivity).
      reflexivity.
    + replace (PrimFloat.is_nan nan) with true by (vm_compute; reflexivity).
      reflexivity.
  - replace (PrimFloat.is_nan nan) with true by (vm_compute; reflexivity).
    reflexivity.
Qed.

(** An infinity is not a NaN. *)
Lemma float_infinity_not_nan (x : float) :
  PrimFloat.is_infinity x = true -> PrimFloat.is_nan x = false.
Proof.
  intros H. destruct (PrimFloat.is_nan x) eqn:E; [|reflexivity].
  apply float_is_nan_spec in E.
  unfold PrimFloat.is_infinity in H. rewrite eqb_spec, abs_spec, E in H.
  discriminate.
Qed.

(** [math.exp] raises [OverflowError] when the exponential of a finite
    number is an infinity. *)
Lemma float_math_exp_overflow (c : clib) (x : float) :
  PrimFloat.is_finite x = true ->
  PrimFloat.is_infinity (c_exp c x) = true ->
  math_exp (Libm := Libm_float c) x = Raise OverflowError.
Proof.
  intros Hx Hr. cbn [math_exp Libm_float]. unfold math_1.
  rewrite (float_infinity_not_nan _ Hr), Hr, Hx. reflexivity.
Qed.

(** [norm_cdf] always returns in binary64. *)
Lemma norm_cdf_float (c : clib) (x : float) :
  exists n : float, norm_cdf (L := Libm_float c) x = Return n.
Proof.
  unfold norm_cdf.
  replace (math_sqrt (Libm := Libm_float c) (lit 2.0))
    with (@Return float (PrimFloat.sqrt 2))
    by (vm_compute; reflexivity).
  cbn [bind div Arith_float].
  replace (PrimFloat.eqb (PrimFloat.sqrt 2) PrimFloat.zero) with false
    by (vm_compute; reflexivity).
  cbn [bind]. eauto.
Qed.

(** When [sigma * sqrt(T)] rounds to zero the pricer returns no value: it
    raises [ZeroDivisionError] if the logarithm before it returned. *)
Lemma black_scholes_price_float_underflow (c : clib) (S K T r sigma sT : float)
    (option_type : string) :
  (leb T (lit 0) || leb sigma (lit 0))%bool = false ->
  math_sqrt (Libm := Libm_float c) T = Return sT ->
  PrimFloat.eqb (PrimFloat.mul sigma sT) 0 = true ->
  (forall v : float,
     black_scholes_price (L := Libm_float c) S K T r sigma option_type
     <> Return v)
  /\ (forall q l : float,
        div S K = Return q -> math_log (Libm := Libm_float c) q = Return l ->
        black_scholes_price (L := Libm_float c) S K T r sigma option_type
        = Raise ZeroDivisionError).
Proof.
  intros Hb Hs Hz.
  assert (Hdiv : forall x : float,
            div x (mul sigma sT) = Raise ZeroDivisionError).
  { intros x. cbn [div mul Arith_float].
    change PrimFloat.zero with 0%float. rewrite Hz. reflexivity. }
  split.
  - intros v H.
    apply (black_scholes_price_chain (L := Libm_float c)) in H; [|exact Hb].
    destruct H as (d1 & _ & _ & H1 & _).
    apply bs_d1_chain in H1. destruct H1 as (q & l & sT' & _ & _ & Hs' & H1).
    rewrite Hs in Hs'. injection Hs' as <-. rewrite Hdiv in H1. discriminate.
  - intros q l Hq Hl.
    apply (black_scholes_price_d1_raises (L := Libm_float c)
             S K T r sigma q l sT option_type ZeroDivisionError
             Hb Hq Hl Hs (Hdiv _)).
Qed.

(** When the exponential overflows the pricer returns no value: it raises
    [OverflowError] if [d1] was computed. *)
Lemma black_scholes_price_float_overflow (c : clib) (S K T r sigma : float)
    (option_type : string) :
  (leb T (lit 0) || leb sigma (lit 0))%bool = false ->
  PrimFloat.is_finite (PrimFloat.mul (PrimFloat.opp r) T) = true ->
  PrimFloat.is_infinity (c_exp c (PrimFloat.mul (PrimFloat.opp r) T)) = true ->
  (forall v : float,
     black_scholes_price (L := Libm_float c) S K T r sigma option_type
     <> Return v)
  /\ (forall d1 : float,
        bs_d1 (L := Libm_float c) S K T r sigma = Return d1 ->
        black_scholes_price (L := Libm_float c) S K T r sigma option_type
        = Raise OverflowError).
Proof.
  intros Hb Hx Hr.
  pose proof (float_math_exp_overflow c _ Hx Hr) as He.
  split.
  - intros v H.
    apply (black_scholes_price_chain (L := Libm_float c)) in H; [|exact Hb].
    destruct H as (_ & _ & e & _ & _ & He' & _).
    cbn [mul neg Arith_float] in He'. rewrite He in He'. discriminate.
  - intros d1 H1. unfold black_scholes_price.
    rewrite Hb, H1. cbn [bind].
    pose proof H1 as H1'. apply bs_d1_chain in H1'.
    destruct H1' as (_ & _ & sT & _ & _ & Hs & _).
    unfold bs_d2. rewrite Hs. cbn [bind].
    change (math_exp (mul (neg r) T))
      with (math_exp (Libm := Libm_float c) (PrimFloat.mul (PrimFloat.opp r) T)).
    rewrite He.
    destruct (String.eqb option_type "call"); [|reflexivity].
    destruct (norm_cdf_float c d1) as [n1 Hn1]. rewrite Hn1. reflexivity.
Qed.

(** ** The order of the floats and the loop of the price axis *)

Lemma digits2_pos_bound (m : positive) :
  (Zpos m < 2 ^ Zpos (digits2_pos m))%Z.
Proof.
  induction m as [m IH|m IH|]; cbn [digits2_pos].
  - rewrite Pos2Z.inj_succ, Z.pow_succ_r by lia. lia.
  - rewrite Pos2Z.inj_succ, Z.pow_succ_r by lia. lia.
  - reflexivity.
Qed.

(** The mantissa and the exponent of a finite binary64 number. *)
Lemma bounded_range (m : positive) (e : Z) :
  SpecFloat.bounded prec emax m e = true ->
  (-1074 <= e <= 971 /\ Zpos m < 2 ^ 53)%Z.
Proof.
  unfold bounded, canonical_mantissa, fexp, emin, prec, emax.
  intros H. apply andb_prop in H. destruct H as [Hc He].
  apply Z.eqb_eq in Hc. apply Z.leb_le in He.
  pose proof (digits2_pos_bound m) as Hm.
  assert (Hd : (Zpos (digits2_pos m) <= 53)%Z) by lia.
  split; [lia|].
  apply Z.lt_le_trans with (2 ^ Zpos (digits2_pos m))%Z; [exact Hm|].
  apply Z.pow_le_mono_r; lia.
Qed.

Lemma spec_float_rank_finite (s : bool) (m : positive) (e : Z) :
  SpecFloat.bounded prec emax m e = true ->
  (0 < (e + 1075) * 2 ^ 53 + Zpos m < 2 ^ 64)%Z.
Proof.
  intros H. apply bounded_range in H. destruct H as [He Hm].
  change (2 ^ 64)%Z with 18446744073709551616%Z.
  change (2 ^ 53)%Z with 9007199254740992%Z in *. lia.
Qed.

(** A comparison that holds orders the ranks. *)
Lemma spec_float_rank_compare (f1 f2 : spec_float) :
  SpecFloat.valid_binary prec emax f1 = true ->
  SpecFloat.valid_binary prec emax f2 = true ->
  match SFcompare f1 f2 with
  | Some Lt => (spec_float_rank f1 < spec_float_rank f2)%Z
  | Some Eq => spec_float_rank f1 = spec_float_rank f2
  | Some Gt => (spec_float_rank f2 < spec_float_rank f1)%Z
  | None => True
  end.
Proof.
  intros V1 V2.
  destruct f1 as [s1|s1| |s1 m1 e1], f2 as [s2|s2| |s2 m2 e2];
    cbn [SFcompare spec_float_rank SpecFloat.valid_binary] in *;
    try exact I; try reflexivity;
    try pose proof (spec_float_rank_finite s1 m1 e1 V1) as H1;
    try pose proof (spec_float_rank_finite s2 m2 e2 V2) as H2;
    try (destruct s1; lia); try (destruct s2; lia);
    try (destruct s1, s2; (reflexivity || lia)).
  apply bounded_range in V1, V2.
  destruct V1 as [He1 Hm1], V2 as [He2 Hm2].
  change (2 ^ 53)%Z with 9007199254740992%Z in *.
  rewrite Pos.compare_cont_spec.
  destruct s1, s2; try lia;
    destruct (Z.compare_spec e1 e2) as [E|E|E];
    destruct (Pos.compare_spec m1 m2) as [M|M|M];
    cbn [Pos.switch_Eq CompOpp]; subst; try reflexivity; lia.
Qed.

Lemma float_rank_ltb (x y : float) :
  PrimFloat.ltb x y = true -> (float_rank x < float_rank y)%Z.
Proof.
  rewrite ltb_spec. unfold SFltb, float_rank. intros H.
  pose proof (spec_float_rank_compare _ _ (Prim2SF_valid x) (Prim2SF_valid y))
    as Hc.
  destruct (SFcompare (Prim2SF x) (Prim2SF y)) as [[ | | ]|];
    try discriminate. exact Hc.
Qed.

Lemma float_rank_leb (x y : float) :
  PrimFloat.leb x y = true -> (float_rank x <= float_rank y)%Z.
Proof.
  rewrite leb_spec. unfold SFleb, float_rank. intros H.
  pose proof (spec_float_rank_compare _ _ (Prim2SF_valid x) (Prim2SF_valid y))
    as Hc.
  destruct (SFcompare (Prim2SF x) (Prim2SF y)) as [[ | | ]|];
    try discriminate; lia.
Qed.

(** While every value that passes the test is below the next one, the
    loop uses up the floats between [current] and the bound: it exits
    within their number. *)
Lemma price_loop_float_progress (n : nat) :
  forall (stock_max step current : float) (prices : list float),
    (forall k : nat,
       leb (current_after step k current) (add stock_max (lit 1e-9)) = true ->
       ltb (current_after step k current) (current_after step (S k) current)
       = true) ->
    (float_rank (add stock_max (lit 1e-9)) - float_rank current < Z.of_nat n)%Z ->
    exists l : list float,
      price_loop n stock_max step current prices = Return l.
Proof.
  induction n as [|n IH]; intros stock_max step current prices Hprog Hrank;
    cbn [price_loop];
    destruct (leb current (add stock_max (lit 1e-9))) eqn:E; eauto.
  - apply float_rank_leb in E. lia.
  - pose proof (Hprog 0%nat E) as Hlt. cbn [current_after] in Hlt.
    apply float_rank_ltb in Hlt. apply float_rank_leb in E.
    apply IH.
    + intros k. apply (Hprog (S k)).
    + change (add current step) with (PrimFloat.add current step) in *. lia.
Qed.

(** In every number model, a value that passes the test and is left
    unchanged by the addition of the step keeps the loop running. *)
Section Absorption.

Context {F : Type} {A : Arith F} {B : Builtins F}.

Lemma price_loop_absorbed (fuel : nat) (stock_max step current : F)
    (prices : list F) :
  leb current (add stock_max (lit 1e-9)) = true ->
  add current step = current ->
  price_loop fuel stock_max step current prices = OutOfFuel.
Proof.
  intros Ht Ha. revert prices.
  induction fuel as [|fuel IH]; intros prices; cbn [price_loop]; rewrite Ht.
  - reflexivity.
  - rewrite Ha. apply IH.
Qed.

Lemma price_loop_absorbed_later (n : nat) :
  forall (fuel : nat) (stock_max step current : F) (prices l : list F),
    (forall k : nat, (k <= n)%nat ->
       leb (current_after step k current) (add stock_max (lit 1e-9)) = true) ->
    add (current_after step n current) step = current_after step n current ->
    price_loop fuel stock_max step current prices <> Return l.
Proof.
  induction n as [|n IH]; intros fuel stock_max step current prices l Ht Ha.
  - cbn [current_after] in Ha.
    rewrite price_loop_absorbed; [discriminate| |exact Ha].
    apply (Ht 0%nat). lia.
  - destruct fuel as [|fuel]; cbn [price_loop];
      rewrite (Ht 0%nat ltac:(lia) : leb current _ = true); [discriminate|].
    apply IH.
    + intros k Hk. apply (Ht (S k)). lia.
    + exact Ha.
Qed.

End Absorption.

(** ** The view in every number model *)

Section ViewAnyFacts.

Context {F : Type} {A : Arith F} {B : Builtins F} {L : Libm F}.

(** A row is computed from the price once the number of contracts is
    converted. *)
Lemma expiry_row_any (f : form F) (p : F) :
  expiry_row f (mul (premium f) (lit 100)) p
  = bind (of_int (contracts f)) (fun c => Return (row_of f c p)).
Proof.
  unfold expiry_row, row_of.
  destruct (String.eqb (option_type f) "call"); reflexivity.
Qed.

(** The loop of the expiry table returns when the number of contracts
    converts. *)
Lemma expiry_rows_any (f : form F) (c : F) (pts : list F) :
  of_int (contracts f) = Return c ->
  for_each pts []
    (fun rows p =>
       bind (expiry_row f (mul (premium f) (lit 100)) p)
         (fun r => Return (rows ++ [r])))
  = Return (map (row_of f c) pts).
Proof.
  intros Hc. apply for_each_collect. exists (map (row_of f c) pts).
  split; [reflexivity|].
  induction pts as [|p pts IH]; cbn [map]; constructor; [|exact IH].
  rewrite expiry_row_any, Hc. reflexivity.
Qed.

(** The rows of a rendered page, one for each price point. *)
Lemma index_rows_any (fuel : nat) (today : date) (f : form F)
    (res : results F) :
  index fuel today (POST f) = Return (results_html res) ->
  Forall2
    (fun p r => exists c : F,
       of_int (contracts f) = Return c /\ r = row_of f c p)
    (price_points res) (rows res).
Proof.
  intros H. apply index_results_any in H. destruct H as (_ & _ & H & _).
  apply for_each_collect in H. destruct H as (ys & -> & H). cbn [app].
  induction H as [|p r pts rs Hr _ IH]; constructor; [|exact IH].
  rewrite expiry_row_any in Hr.
  destruct (of_int (contracts f)) as [c| |]; cbn [bind] in Hr;
    try discriminate.
  injection Hr as <-. exists c. split; reflexivity.
Qed.

(** What the first cell of the grid raises, the computation raises. *)
Lemma index_post_first_cell_any (fuel : nat) (today : date) (f : form F)
    (p sigma T : F) (e : exn) :
  reaches_first_cell fuel today f p sigma T ->
  black_scholes_price p (strike_price f) T (lit 0.02) sigma (option_type f)
  = Raise e ->
  index_post fuel today f = Raise e.
Proof.
  intros (Hlt & [rest Hpts] & [c Hc] & Hs & Ht & n & Hn & HT) Hcell.
  unfold index_post. rewrite Hlt, Hpts. cbn [bind].
  rewrite (expiry_rows_any f c (p :: rest) Hc). cbn [bind].
  rewrite Hs. cbn [bind]. unfold date_diff_days in *.
  unfold range.
  replace (Z.to_nat (Z.max 0 (expiry_date f - today) + 1))
    with (S (Z.to_nat (Z.max 0 (expiry_date f - today)))) by lia.
  cbn [seq map for_each].
  unfold grid_day at 1, date_add_days, date_diff_days.
  change (Z.of_nat 0) with 0%Z. rewrite Z.add_0_r.
  unfold valid_date in Ht.
  destruct (Z.leb_spec 1 today); [|lia].
  destruct (Z.leb_spec today MAXORDINAL); [|lia].
  cbn [andb bind]. rewrite Hn. cbn [bind]. rewrite HT. cbn [bind for_each].
  unfold grid_cell at 1, cell_total_pl. rewrite Hcell. reflexivity.
Qed.

End ViewAnyFacts.

(** Over the reals the view gets to its first cell whenever today is a
    date and the price range is not inverted. *)
Lemma reaches_first_cell_R (today : date) (f : form R) :
  valid_date today -> stock_min f <= stock_max f ->
  exists fuel : nat,
    forall fuel' : nat, (fuel <= fuel')%nat ->
      reaches_first_cell fuel' today f (round2 (stock_min f))
        (implied_volatility f / 100)
        (spec_years_to_expiry (expiry_date f) today).
Proof.
  intros Ht Hle.
  exists (axis_count (stock_min f) (stock_max f) (lit 1.0)).
  intros fuel' Hfuel. unfold reaches_first_cell.
  split.
  { destruct (ltb (stock_max f) (stock_min f)) eqn:E; [|reflexivity].
    apply ltb_R in E. lra. }
  split.
  { rewrite (build_price_points_axis fuel' _ _ _ step_one_pos Hfuel).
    destruct (axis_points_head (stock_min f) (stock_max f) (lit 1.0)
                step_one_pos) as [rest Hpts]; [lra|].
    exists rest. rewrite Hpts. reflexivity. }
  split; [exists (IZR (contracts f)); reflexivity|].
  split; [unfold_R; norm_lit; decide_R; reflexivity|].
  split; [exact Ht|].
  exists (IZR (Z.max 0 (date_diff_days (expiry_date f) today))).
  split; [reflexivity|].
  unfold spec_years_to_expiry, date_diff_days.
  unfold_R. norm_lit. decide_R. reflexivity.
Qed.

(** ** The claims of the specification *)

Local Open Scope string_scope.
Local Open Scope R_scope.

(** C1. For every underlying price [S], strike [K], rate [r] and option
    type, and every time to expiry [T] and volatility [sigma] with [T <= 0]
    or [sigma <= 0], [black_scholes_price] returns exactly the intrinsic
    value: [max(0, S - K)] when the option type is "call", and
    [max(0, K - S)] otherwise.  First over the reals; then in every number
    model, binary64 included, with its own subtraction and [max]. *)
Theorem C1_boundary_returns_intrinsic_value :
  (forall (S K T r sigma : R) (option_type : string),
     T <= 0 \/ sigma <= 0 ->
     black_scholes_price S K T r sigma option_type
     = Return (if String.eqb option_type "call" then Rmax 0 (S - K)
               else Rmax 0 (K - S)))
  /\ (forall (F : Type) (A : Arith F) (L : Libm F)
        (S K T r sigma : F) (option_type : string),
        (T <=? lit 0)%py = true \/ (sigma <=? lit 0)%py = true ->
        black_scholes_price S K T r sigma option_type
        = Return (if String.eqb option_type "call"
                  then py_max (lit 0.0) (S - K)%py
                  else py_max (lit 0.0) (K - S)%py)).
Proof.
  split.
  - intros S K T r sigma option_type Hb.
    apply black_scholes_price_boundary. exact Hb.
  - intros F A L S K T r sigma option_type Hb.
    apply black_scholes_price_boundary_any. exact Hb.
Qed.

Lemma C1_witness :
  black_scholes_price 110 100 0 0.02 0.2 "call" = Return (Rmax 0 (110 - 100))
  /\ black_scholes_price 90 100 1 0.02 0 "put" = Return (Rmax 0 (100 - 90)).
Proof.
  split.
  - apply (proj1 C1_boundary_returns_intrinsic_value 110 100 0 0.02 0.2 "call").
    left. lra.
  - apply (proj1 C1_boundary_returns_intrinsic_value 90 100 1 0.02 0 "put").
    right. lra.
Defined.

(** C2, as amended.  For every [S > 0], [K > 0], [T > 0], [sigma > 0] and
    rate [r], over exact real arithmetic [black_scholes_price] returns
    [S Phi(d1) - K e^(-rT) Phi(d2)] for a call and
    [K e^(-rT) Phi(-d2) - S Phi(-d1)] for a put, where
    [d1 = (ln(S/K) + (r + 0.5 sigma^2) T) / (sigma sqrt T)],
    [d2 = d1 - sigma sqrt T], and [Phi(x) = 0.5 (1 + erf(x / sqrt 2))] is what
    [norm_cdf] computes.  In every number model, binary64 included, the
    pricer evaluates these expressions with the operations of the model,
    in the order of the source, and returns a value exactly when each
    operation does.  In binary64, for every C library, it returns no value
    when [sigma * sqrt(T)] rounds to zero (it raises [ZeroDivisionError]
    once the logarithm has returned) and none when the exponential of the
    finite [-r * T] is an infinity (it raises [OverflowError] once [d1] is
    computed). *)
Theorem C2_black_scholes_formula :
  (forall (S K T r sigma : R),
     0 < S -> 0 < K -> 0 < T -> 0 < sigma ->
     (forall x : R, norm_cdf x = Return (spec_Phi x))
     /\ bs_d1 S K T r sigma = Return (spec_d1 S K T r sigma)
     /\ bs_d2 (spec_d1 S K T r sigma) T sigma = Return (spec_d2 S K T r sigma)
     /\ black_scholes_price S K T r sigma "call"
        = Return (spec_call_value S K T r sigma)
     /\ black_scholes_price S K T r sigma "put"
        = Return (spec_put_value S K T r sigma))
  /\ (forall (F : Type) (A : Arith F) (L : Libm F)
        (S K T r sigma v : F) (option_type : string),
        ((T <=? lit 0) || (sigma <=? lit 0))%py = false ->
        black_scholes_price S K T r sigma option_type = Return v
        <-> exists q l sT d1 e : F,
              (S / K)%py = Return q /\ math_log q = Return l
              /\ math_sqrt T = Return sT
              /\ ((l + (r + lit 0.5 * sigma * sigma) * T) / (sigma * sT))%py
                 = Return d1
              /\ math_exp (- r * T)%py = Return e
              /\ if String.eqb option_type "call"
                 then exists n1 n2 : F,
                        norm_cdf d1 = Return n1
                        /\ norm_cdf (d1 - sigma * sT)%py = Return n2
                        /\ v = (S * n1 - K * e * n2)%py
                 else exists n2 n1 : F,
                        norm_cdf (- (d1 - sigma * sT))%py = Return n2
                        /\ norm_cdf (- d1)%py = Return n1
                        /\ v = (K * e * n2 - S * n1)%py)
  /\ (forall (c : clib) (S K T r sigma sT : float) (option_type : string),
        ((T <=? lit 0) || (sigma <=? lit 0))%py = false ->
        math_sqrt (Libm := Libm_float c) T = Return sT ->
        PrimFloat.eqb (PrimFloat.mul sigma sT) 0 = true ->
        (forall v : float,
           black_scholes_price (L := Libm_float c) S K T r sigma option_type
           <> Return v)
        /\ (forall q l : float,
              (S / K)%py = Return q ->
              math_log (Libm := Libm_float c) q = Return l ->
              black_scholes_price (L := Libm_float c) S K T r sigma option_type
              = Raise ZeroDivisionError))
  /\ (forall (c : clib) (S K T r sigma : float) (option_type : string),
        ((T <=? lit 0) || (sigma <=? lit 0))%py = false ->
        PrimFloat.is_finite (PrimFloat.mul (PrimFloat.opp r) T) = true ->
        PrimFloat.is_infinity (c_exp c (PrimFloat.mul (PrimFloat.opp r) T))
        = true ->
        (forall v : float,
           black_scholes_price (L := Libm_float c) S K T r sigma option_type
           <> Return v)
        /\ (forall d1 : float,
              bs_d1 (L := Libm_float c) S K T r sigma = Return d1 ->
              black_scholes_price (L := Libm_float c) S K T r sigma option_type
              = Raise OverflowError)).
Proof.
  split; [|split; [|split]].
  - intros S K T r sigma HS HK HT Hs.
    split; [exact norm_cdf_R|].
    split; [apply bs_d1_R; assumption|].
    split; [apply bs_d2_R; assumption|].
    split.
    + apply (black_scholes_price_general S K T r sigma "call" HS HK HT Hs).
    + apply (black_scholes_price_general S K T r sigma "put" HS HK HT Hs).
  - intros F A L S K T r sigma v option_type Hb.
    apply black_scholes_price_steps. exact Hb.
  - intros c S K T r sigma sT option_type Hb Hs Hz.
    apply (black_scholes_price_float_underflow c S K T r sigma sT option_type
             Hb Hs Hz).
  - intros c S K T r sigma option_type Hb Hx Hr.
    apply (black_scholes_price_float_overflow c S K T r sigma option_type
             Hb Hx Hr).
Qed.

Lemma C2_witness :
  black_scholes_price 100 90 1 0.02 0.2 "call"
  = Return (spec_call_value 100 90 1 0.02 0.2)
  /\ black_scholes_price 100 90 1 0.02 0.2 "put"
     = Return (spec_put_value 100 90 1 0.02 0.2).
Proof.
  apply (proj1 C2_black_scholes_formula 100 90 1 0.02 0.2);
    lra.
Defined.

#[local] Set Warnings "-inexact-float".

(** C2 as stated fails in binary64: 100, 1e-300 and 1e-200 are positive
    and finite, but [1e-200 * sqrt(1e-300)] rounds to zero, so for every C
    library [black_scholes_price(100, 100, 1e-300, 0.02, 1e-200, ...)]
    returns no value, and raises [ZeroDivisionError] as soon as
    [math.log(1.0)] returns a number. *)
Lemma C2_counterexample :
  PrimFloat.ltb 0 100 = true
  /\ PrimFloat.ltb 0 1e-300 = true
  /\ PrimFloat.ltb 0 1e-200 = true
  /\ PrimFloat.mul 1e-200 (PrimFloat.sqrt 1e-300) = 0%float
  /\ (forall (c : clib) (option_type : string) (v : float),
        black_scholes_price (L := Libm_float c)
          100%float 100%float 1e-300%float (lit 0.02) 1e-200%float option_type
        <> Return v)
  /\ (forall (c : clib) (option_type : string) (l : float),
        math_log (Libm := Libm_float c) 1%float = Return l ->
        black_scholes_price (L := Libm_float c)
          100%float 100%float 1e-300%float (lit 0.02) 1e-200%float option_type
        = Raise ZeroDivisionError).
Proof.
  assert (Hb : ((1e-300%float <=? lit 0) || (1e-200%float <=? lit 0))%py = false)
    by (vm_compute; reflexivity).
  assert (Hs : forall c : clib,
            math_sqrt (Libm := Libm_float c) 1e-300%float
            = Return (PrimFloat.sqrt 1e-300))
    by (intros c; vm_compute; reflexivity).
  assert (Hz : PrimFloat.eqb (PrimFloat.mul 1e-200 (PrimFloat.sqrt 1e-300)) 0
               = true)
    by (vm_compute; reflexivity).
  repeat (split; [vm_compute; reflexivity|]).
  split.
  - intros c option_type v.
    apply (black_scholes_price_float_underflow c 100%float 100%float
             1e-300%float (lit 0.02) 1e-200%float _ option_type Hb (Hs c) Hz).
  - intros c option_type l Hl.
    apply (proj2 (black_scholes_price_float_underflow c 100%float 100%float
             1e-300%float (lit 0.02) 1e-200%float _ option_type Hb (Hs c) Hz)
             1%float l); [vm_compute; reflexivity | exact Hl].
Qed.

#[local] Set Warnings "+inexact-float".

(** C3. For every date [d] of the date axis and every price sample [p] of
    the price axis, the grid value at the keys ([d], [p] formatted with two
    decimals) equals
    [(black_scholes_price(S=p, K=strike, T=max(0, days from d to expiry)/365,
    r=0.02, sigma=implied_volatility/100, option_type) * 100 - premium * 100)
    * contracts].  This holds of every results page the view renders, and
    the view renders one on every priceable form with valid dates. *)
Theorem C3_grid_values :
  forall (today : date) (f : form R),
    (forall (fuel : nat) (res : results R),
       index fuel today (POST f) = Return (results_html res) ->
       forall (d : date) (p : R),
         (today <= d <= Z.max today (expiry_date f))%Z ->
         In p (price_points res) ->
         In (isoformat d) (date_labels res)
         /\ exists (daily_map : dict R) (value : R),
              dict_get (isoformat d) (grid res) = Some daily_map
              /\ black_scholes_price p (strike_price f)
                   (IZR (Z.max 0 (expiry_date f - d)) / 365) 0.02
                   (implied_volatility f / 100) (option_type f)
                 = Return value
              /\ dict_get (format_2f p) daily_map
                 = Some ((value * 100 - premium f * 100) * IZR (contracts f)))
    /\ (valid_date today -> valid_date (expiry_date f) -> priceable f ->
        exists (fuel : nat) (res : results R),
          forall fuel' : nat, (fuel <= fuel')%nat ->
            index fuel' today (POST f) = Return (results_html res)).
Proof.
  intros today f. split; [|apply index_returns].
  intros fuel res H d p Hd Hp.
  pose proof (index_grid fuel today f res H) as [Hdl Hgrid].
  pose proof H as Hres. apply index_results in Hres.
  destruct Hres as (_ & Hpts & _ & _).
  apply build_price_points_unit_step in Hpts. destruct Hpts as (_ & Hh & _).
  replace d with (today + (d - today))%Z by lia.
  split.
  - rewrite Hdl. apply in_map_iff. exists (d - today)%Z.
    split; [reflexivity|]. apply in_range. lia.
  - destruct (Hgrid (d - today)%Z) as (_ & m & Hget & Hm); [lia|].
    destruct (daily_map_lookup f (price_points res) _ _ _ m Hh Hm p Hp)
      as (value & Hv & Hcell).
    exists m, value. split; [exact Hget|]. split; [|exact Hcell].
    rewrite <- Hv. unfold spec_years_to_expiry.
    f_equal; cbn [lit Arith_R]; norm_lit; lra.
Qed.

Lemma C3_witness :
  exists (fuel : nat) (res : results R),
    index fuel sample_today (POST sample_form) = Return (results_html res)
    /\ In "2025-12-20" (date_labels res)
    /\ exists (daily_map : dict R) (value : R),
         dict_get "2025-12-20" (grid res) = Some daily_map
         /\ black_scholes_price 100 100 (1 / 365) 0.02 (20 / 100) "call"
            = Return value
         /\ dict_get "100.00" daily_map = Some ((value * 100 - 5 * 100) * 1).
Proof.
  destruct sample_index_returns as (fuel & res & Hret & Hpts).
  destruct sample_keys as (_ & Hd & _ & _ & Hp).
  exists fuel, res.
  pose proof (Hret fuel (Nat.le_refl fuel)) as H.
  split; [exact H|].
  destruct (proj1 (C3_grid_values sample_today sample_form) fuel res H
              (sample_today + 1)%Z 100) as (Hin & m & value & Hget & Hv & Hcell).
  - vm_compute. split; discriminate.
  - rewrite Hpts. right. left. reflexivity.
  - rewrite Hd in Hin, Hget. rewrite Hp in Hcell.
    split; [exact Hin|]. exists m, value.
    split; [exact Hget|]. split; [exact Hv | exact Hcell].
Defined.

(** C4. For every valid input (expiry today or in the future), the grid's
    inner mapping at the expiry-date key assigns to each price sample the
    same total profit or loss as the row of the expiry-only table for that
    price: both are [(intrinsic value * 100 - premium * 100) * contracts]. *)
Theorem C4_grid_at_expiry_matches_table :
  forall (today : date) (f : form R),
    (today <= expiry_date f)%Z ->
    (forall (fuel : nat) (res : results R),
       index fuel today (POST f) = Return (results_html res) ->
       map (@price R) (rows res) = price_points res
       /\ exists daily_map : dict R,
            dict_get (isoformat (expiry_date f)) (grid res) = Some daily_map
            /\ forall r : row R, In r (rows res) ->
                 pl_total r
                 = (spec_intrinsic_value (option_type f) (price r) (strike_price f) * 100
                    - premium f * 100) * IZR (contracts f)
                 /\ dict_get (format_2f (price r)) daily_map = Some (pl_total r))
    /\ (valid_date today -> valid_date (expiry_date f) -> priceable f ->
        exists (fuel : nat) (res : results R),
          forall fuel' : nat, (fuel <= fuel')%nat ->
            index fuel' today (POST f) = Return (results_html res)).
Proof.
  intros today f Hle. split; [|apply index_returns].
  intros fuel res H.
  pose proof (index_grid fuel today f res H) as [_ Hgrid].
  pose proof H as Hres. apply index_results in Hres.
  destruct Hres as (_ & Hpts & Hrows & _).
  apply build_price_points_unit_step in Hpts. destruct Hpts as (_ & Hh & _).
  apply for_each_collect in Hrows. destruct Hrows as (rs & Hrs & Hall).
  cbn [app] in Hrs. subst rs.
  assert (Hrow : forall r, In r (rows res) ->
            In (price r) (price_points res)
            /\ pl_total r
               = spec_total_pl f
                   (spec_intrinsic_value (option_type f) (price r) (strike_price f))).
  { clear -Hall. induction Hall as [|p r ps rs Hpr _ IH]; intros r0 Hr0.
    - destruct Hr0.
    - destruct Hr0 as [<-|Hr0].
      + rewrite expiry_row_R in Hpr. injection Hpr as <-.
        cbn [price pl_total]. split; [left; reflexivity | reflexivity].
      + destruct (IH r0 Hr0) as [Hin Hpl]. split; [right; exact Hin | exact Hpl]. }
  split.
  { clear -Hall. induction Hall as [|p r ps rs Hpr _ IH]; cbn [map].
    - reflexivity.
    - rewrite expiry_row_R in Hpr. injection Hpr as <-.
      cbn [price]. rewrite IH. reflexivity. }
  destruct (Hgrid (expiry_date f - today)%Z) as (_ & m & Hget & Hm); [lia|].
  replace (today + (expiry_date f - today))%Z with (expiry_date f) in * by lia.
  exists m. split; [exact Hget|].
  intros r Hr. destruct (Hrow r Hr) as [Hin Hpl].
  split; [exact Hpl|].
  destruct (daily_map_lookup f (price_points res) _ _ _ m Hh Hm (price r) Hin)
    as (value & Hv & Hcell).
  rewrite black_scholes_price_boundary in Hv.
  - injection Hv as <-. rewrite Hpl. exact Hcell.
  - left. unfold spec_years_to_expiry. rewrite Z.sub_diag, Z.max_id. lra.
Qed.

Lemma C4_witness :
  exists (fuel : nat) (res : results R),
    index fuel sample_today (POST sample_form) = Return (results_html res)
    /\ map (@price R) (rows res) = [99; 100; 101]
    /\ exists daily_map : dict R,
         dict_get "2025-12-21" (grid res) = Some daily_map
         /\ forall r : row R, In r (rows res) ->
              pl_total r
              = (spec_intrinsic_value "call" (price r) 100 * 100 - 5 * 100) * 1
              /\ dict_get (format_2f (price r)) daily_map = Some (pl_total r).
Proof.
  destruct sample_index_returns as (fuel & res & Hret & Hpts).
  destruct sample_keys as (_ & _ & He & _ & _).
  exists fuel, res.
  pose proof (Hret fuel (Nat.le_refl fuel)) as H.
  split; [exact H|].
  assert (Hle : (sample_today <= expiry_date sample_form)%Z)
    by (vm_compute; discriminate).
  destruct (proj1 (C4_grid_at_expiry_matches_table sample_today sample_form Hle)
              fuel res H) as (Hprices & m & Hget & Hrows).
  rewrite Hpts in Hprices. rewrite He in Hget.
  split; [exact Hprices|]. exists m. split; [exact Hget | exact Hrows].
Defined.

(** C5. [build_price_points(10, 20, step=1)] returns exactly the 11-element
    list [10.00, 11.00, ..., 20.00]; [build_price_points(10, 10)] returns
    exactly [10.00]; and for every [stock_min <= stock_max] with step 1.0 the
    returned sequence is strictly increasing with every element rounded to 2
    decimal places.  The two lists are computed in both number models, with
    any fuel that covers their iterations. *)
Theorem C5_price_axis :
  (forall fuel : nat, (11 <= fuel)%nat ->
     build_price_points fuel 10 20 1
     = Return [10; 11; 12; 13; 14; 15; 16; 17; 18; 19; 20]
     /\ build_price_points fuel 10%float 20%float 1%float
        = Return [10; 11; 12; 13; 14; 15; 16; 17; 18; 19; 20]%float)
  /\ (forall fuel : nat, (1 <= fuel)%nat ->
        build_price_points fuel 10 10 (lit 1.0) = Return [10]
        /\ build_price_points fuel 10%float 10%float (lit 1.0)
           = Return [10%float])
  /\ (forall stock_min stock_max : R,
        stock_min <= stock_max ->
        exists (fuel : nat) (prices : list R),
          (forall fuel' : nat, (fuel <= fuel')%nat ->
             build_price_points fuel' stock_min stock_max (lit 1.0)
             = Return prices)
          /\ increasing prices
          /\ hundredths prices
          /\ hd_error prices = Some (round2 stock_min)
          /\ Forall (fun p => stock_min - 0.005 <= p <= stock_max + 0.006)
               prices).
Proof.
  split; [|split].
  - intros fuel Hfuel. split.
    + apply (price_loop_integers 11 10 20 1 fuel []);
        [reflexivity | reflexivity | exact Hfuel].
    + apply (price_loop_fuel_mono 11 fuel); [exact Hfuel|].
      vm_compute. reflexivity.
  - intros fuel Hfuel. split.
    + apply (price_loop_integers 1 10 10 (lit 1.0) fuel []);
        [apply lit_one | reflexivity | exact Hfuel].
    + apply (price_loop_fuel_mono 1 fuel); [exact Hfuel|].
      vm_compute. reflexivity.
  - intros stock_min stock_max Hle.
    destruct (build_price_points_returns stock_min stock_max (lit 1.0))
      as (fuel & prices & Hret); [rewrite lit_one; lra|].
    exists fuel, prices.
    pose proof (Hret fuel (Nat.le_refl fuel)) as H.
    destruct (build_price_points_unit_step fuel _ _ _ H) as (Hi & Hh & Hbd).
    split; [exact Hret|]. split; [exact Hi|]. split; [exact Hh|].
    split; [|exact Hbd].
    unfold build_price_points in H. destruct fuel as [|fuel].
    + cbn [price_loop] in H.
      assert (E : (stock_min <=? stock_max + lit 1e-9)%py = true)
        by (apply price_test_R; lra).
      rewrite E in H. discriminate.
    + cbn [price_loop] in H.
      assert (E : (stock_min <=? stock_max + lit 1e-9)%py = true)
        by (apply price_test_R; lra).
      rewrite E in H. cbn [app] in H.
      apply price_loop_invariant in H.
      * destruct H as (_ & _ & rest & -> & _). reflexivity.
      * rewrite lit_one. lra.
      * constructor; constructor.
      * constructor; [|constructor]. eexists. apply round2_R_spec.
      * constructor; [|constructor].
        destruct (round2_R_spec stock_min) as [_ Hb].
        cbn [add Arith_R]. rewrite lit_one. lra.
Qed.

Lemma C5_witness :
  exists (fuel : nat) (prices : list R),
    (forall fuel' : nat, (fuel <= fuel')%nat ->
       build_price_points fuel' 3.5 7.25 (lit 1.0) = Return prices)
    /\ increasing prices
    /\ hundredths prices
    /\ hd_error prices = Some (round2 3.5)
    /\ Forall (fun p => 3.5 - 0.005 <= p <= 7.25 + 0.006) prices.
Proof.
  apply (proj2 (proj2 C5_price_axis) 3.5 7.25). lra.
Defined.

(** C6. For every today and expiry date, the date axis produced by the
    sweep has exactly [max(0, days from today to expiry) + 1] entries, its
    first entry is today and its last entry is the expiry date when expiry
    is not in the past; if expiry is strictly before today, the axis
    collapses to the single entry today.  This holds of every results page,
    in every number model; and the view renders one on every priceable form
    with valid dates. *)
Theorem C6_date_axis :
  forall (today : date),
    (forall (F : Type) (A : Arith F) (B : Builtins F) (L : Libm F)
       (f : form F) (fuel : nat) (res : results F),
       index fuel today (POST f) = Return (results_html res) ->
       List.length (date_labels res)
       = (Z.to_nat (Z.max 0 (expiry_date f - today)) + 1)%nat
       /\ hd_error (date_labels res) = Some (isoformat today)
       /\ ((today <= expiry_date f)%Z ->
           last (date_labels res) EmptyString = isoformat (expiry_date f))
       /\ ((expiry_date f < today)%Z -> date_labels res = [isoformat today]))
    /\ (forall f : form R,
          valid_date today -> valid_date (expiry_date f) -> priceable f ->
          exists (fuel : nat) (res : results R),
            forall fuel' : nat, (fuel <= fuel')%nat ->
              index fuel' today (POST f) = Return (results_html res)).
Proof.
  intros today. split; [|intros f; apply index_returns].
  intros F A B L f fuel res H.
  pose proof (index_date_labels fuel today f res H) as Hdl.
  set (total_days := Z.max 0 (expiry_date f - today)%Z) in *.
  assert (Hn : (Z.to_nat (total_days + 1) = S (Z.to_nat total_days))%nat)
    by (unfold total_days; lia).
  rewrite Hdl. unfold range. rewrite Hn.
  split; [|split; [|split]].
  - rewrite !List.length_map, List.length_seq. lia.
  - cbn [seq map hd_error]. rewrite Z.add_0_r. reflexivity.
  - intros Hle. rewrite seq_S, !map_app. cbn [map]. rewrite last_last.
    f_equal. unfold total_days. lia.
  - intros Hlt.
    replace (Z.to_nat total_days) with 0%nat by (unfold total_days; lia).
    cbn [seq map]. rewrite Z.add_0_r. reflexivity.
Qed.

Lemma C6_witness :
  exists (fuel : nat) (res : results R),
    index fuel sample_today (POST sample_form) = Return (results_html res)
    /\ List.length (date_labels res) = 3%nat
    /\ hd_error (date_labels res) = Some "2025-12-19"
    /\ last (date_labels res) EmptyString = "2025-12-21".
Proof.
  destruct sample_index_returns as (fuel & res & Hret & _).
  destruct sample_keys as (Ht & _ & He & _ & _).
  exists fuel, res.
  pose proof (Hret fuel (Nat.le_refl fuel)) as H.
  split; [exact H|].
  destruct (proj1 (C6_date_axis sample_today) R _ _ _ sample_form fuel res H)
    as (Hlen & Hhd & Hlast & _).
  rewrite Ht in Hhd. rewrite He in Hlast.
  split; [exact Hlen|]. split; [exact Hhd|].
  apply Hlast. vm_compute. discriminate.
Defined.

(** C7. For every [S = K] with [S > 0], every [T > 0], [sigma > 0] and rate
    [r], the put and call values returned by [black_scholes_price] satisfy
    [put - call = K e^(-rT) - S] (put-call parity), exactly over real
    arithmetic. *)
Theorem C7_put_call_parity :
  forall (S K T r sigma : R),
    S = K -> 0 < S -> 0 < T -> 0 < sigma ->
    exists call put : R,
      black_scholes_price S K T r sigma "call" = Return call
      /\ black_scholes_price S K T r sigma "put" = Return put
      /\ put - call = K * Rtrigo_def.exp (- r * T) - S.
Proof.
  intros S K T r sigma HSK HS HT Hs.
  assert (HK : 0 < K) by (rewrite <- HSK; exact HS).
  exists (spec_call_value S K T r sigma), (spec_put_value S K T r sigma).
  split; [apply (black_scholes_price_general S K T r sigma "call" HS HK HT Hs)|].
  split; [apply (black_scholes_price_general S K T r sigma "put" HS HK HT Hs)|].
  unfold spec_call_value, spec_put_value.
  rewrite !spec_Phi_opp. ring.
Qed.

Lemma C7_witness :
  exists call put : R,
    black_scholes_price 100 100 1 0.02 0.2 "call" = Return call
    /\ black_scholes_price 100 100 1 0.02 0.2 "put" = Return put
    /\ put - call = 100 * Rtrigo_def.exp (Ropp 0.02 * 1) - 100.
Proof.
  apply (C7_put_call_parity 100 100 1 0.02 0.2);
    [reflexivity | lra | lra | lra].
Defined.

(** C8, as amended.  With S = 100, K = 100, premium = 5, contracts = 1,
    option type "call", T = 1 year, r = 0.02 and sigma = 0.20,
    [black_scholes_price] has d1 = 0.2 and d2 = 0 and yields a call value of
    8.916 to three decimals; the resulting total profit or loss,
    [(value * 100 - 5 * 100) * 1], is 391.6 to one decimal. *)
Theorem C8_concrete_scenario :
  bs_d1 100 100 1 0.02 0.2 = Return 0.2
  /\ bs_d2 0.2 1 0.2 = Return 0
  /\ exists value : R,
       black_scholes_price 100 100 1 0.02 0.2 "call" = Return value
       /\ Rabs (value - 8.916) <= 0.0005
       /\ cell_total_pl sample_form (5 * 100) 1 0.02 0.2 100
          = Return ((value * 100 - 5 * 100) * 1)
       /\ Rabs ((value * 100 - 5 * 100) * 1 - 391.6) <= 0.05.
Proof.
  destruct scenario_facts as (H1 & H2 & Hv & Hb).
  split; [exact H1|]. split; [exact H2|].
  exists (spec_call_value 100 100 1 0.02 0.2).
  split; [exact Hv|]. split; [apply Rabs_le; lra|]. split.
  - assert (Hc : 5 * 100 = (premium sample_form * lit 100)%py)
      by (cbn [premium sample_form mul lit Arith_R]; norm_lit; reflexivity).
    rewrite Hc at 1. rewrite cell_total_pl_R.
    cbn [strike_price option_type sample_form].
    rewrite Hv. reflexivity.
  - apply Rabs_le. lra.
Qed.

(** C8 as stated fails: d1 is 0.2 and not about 0.2100, d2 is 0 and not
    about 0.0100, the call value is below 8.92 and not about 9.227, and the
    total is below 392 and not 422.7. *)
Lemma C8_counterexample :
  exists d1 d2 value : R,
    bs_d1 100 100 1 0.02 0.2 = Return d1
    /\ bs_d2 d1 1 0.2 = Return d2
    /\ black_scholes_price 100 100 1 0.02 0.2 "call" = Return value
    /\ ~ Rabs (d1 - 0.2100) <= 0.00005
    /\ ~ Rabs (d2 - 0.0100) <= 0.00005
    /\ ~ Rabs (value - 9.227) <= 0.0005
    /\ ~ Rabs ((value * 100 - 5 * 100) * 1 - 422.7) <= 0.05.
Proof.
  destruct scenario_facts as (H1 & H2 & Hv & Hb).
  exists 0.2, 0, (spec_call_value 100 100 1 0.02 0.2).
  repeat split; try assumption.
  - intros H. apply Rabs_le_elim in H. lra.
  - intros H. apply Rabs_le_elim in H. lra.
  - intros H. apply Rabs_le_elim in H. lra.
  - intros H. apply Rabs_le_elim in H. lra.
Qed.

(** C9, as amended.  [build_price_points] terminates and returns a list
    exactly when some value taken by [current], starting at [stock_min] and
    advancing by [step], exceeds [stock_max + 1e-9]; this holds in every
    number model.  In exact arithmetic it happens for every [step > 0] and
    all [stock_min] and [stock_max], after finitely many iterations, and any
    larger fuel gives the same list.  In binary64 it happens whenever every
    value of [current] that passes the test is strictly below the next one
    ([current + step > current]), because only finitely many floats lie
    below the bound.  In every number model it never happens once a value
    that passes the test is left unchanged by the addition of the step. *)
Theorem C9_termination :
  (forall (F : Type) (A : Arith F) (B : Builtins F)
     (stock_min stock_max step : F),
     (exists (fuel : nat) (prices : list F),
        build_price_points fuel stock_min stock_max step = Return prices)
     <-> (exists n : nat,
            (current_after step n stock_min <=? stock_max + lit 1e-9)%py
            = false))
  /\ (forall stock_min stock_max step : R,
        0 < step ->
        exists (fuel : nat) (prices : list R),
          forall fuel' : nat, (fuel <= fuel')%nat ->
            build_price_points fuel' stock_min stock_max step = Return prices)
  /\ (forall stock_min stock_max step : float,
        (forall k : nat,
           (current_after step k stock_min <=? stock_max + lit 1e-9)%py = true ->
           (current_after step k stock_min
            <? current_after step (S k) stock_min)%py = true) ->
        exists (fuel : nat) (prices : list float),
          forall fuel' : nat, (fuel <= fuel')%nat ->
            build_price_points fuel' stock_min stock_max step = Return prices)
  /\ (forall (F : Type) (A : Arith F) (B : Builtins F)
        (stock_min stock_max step : F) (n : nat),
        (forall k : nat, (k <= n)%nat ->
           (current_after step k stock_min <=? stock_max + lit 1e-9)%py = true) ->
        (current_after step n stock_min + step)%py
        = current_after step n stock_min ->
        forall (fuel : nat) (prices : list F),
          build_price_points fuel stock_min stock_max step <> Return prices).
Proof.
  split; [|split; [|split]].
  - intros F A B stock_min stock_max step. unfold build_price_points. split.
    + intros (fuel & prices & H).
      destruct (price_loop_exited fuel _ _ _ _ _ H) as (n & _ & Hn).
      exists n. exact Hn.
    + intros (n & Hn).
      destruct (price_loop_exits n stock_max step stock_min [] Hn) as [l Hl].
      exists n, l. exact Hl.
  - intros stock_min stock_max step Hstep.
    apply build_price_points_returns. exact Hstep.
  - intros stock_min stock_max step Hprog.
    set (n := Z.to_nat
                (float_rank (add stock_max (lit 1e-9)) - float_rank stock_min + 1)).
    destruct (price_loop_float_progress n stock_max step stock_min [] Hprog)
      as [l Hl]; [unfold n; lia|].
    exists n, l. intros fuel' Hle. unfold build_price_points.
    apply (price_loop_fuel_mono n fuel' _ _ _ _ _ Hle Hl).
  - intros F A B stock_min stock_max step n Ht Ha fuel prices.
    unfold build_price_points.
    apply (price_loop_absorbed_later n fuel stock_max step stock_min [] prices
             Ht Ha).
Qed.

Lemma C9_witness :
  (exists (fuel : nat) (prices : list R),
     forall fuel' : nat, (fuel <= fuel')%nat ->
       build_price_points fuel' 10 20 0.5 = Return prices)
  /\ (exists (fuel : nat) (prices : list float),
        forall fuel' : nat, (fuel <= fuel')%nat ->
          build_price_points fuel'
            9007199254740989%float 9007199254740990%float 1%float
          = Return prices)
  /\ (forall (fuel : nat) (prices : list float),
        build_price_points fuel 1e17%float 2e17%float 1%float <> Return prices).
Proof.
  split; [|split].
  - apply (proj1 (proj2 C9_termination) 10 20 0.5). lra.
  - apply (proj1 (proj2 (proj2 C9_termination))
             9007199254740989%float 9007199254740990%float 1%float).
    assert (Hfix : forall j : nat,
              current_after 1%float j 9007199254740992%float
              = 9007199254740992%float).
    { induction j as [|j IH]; [reflexivity|].
      cbn [current_after].
      replace (add 9007199254740992%float 1%float)
        with 9007199254740992%float by (vm_compute; reflexivity).
      exact IH. }
    intros [|[|[|k]]] Hk.
    + vm_compute. reflexivity.
    + vm_compute. reflexivity.
    + vm_compute in Hk. discriminate.
    + exfalso. cbn [current_after] in Hk.
      replace (add (add (add 9007199254740989%float 1%float) 1%float) 1%float)
        with 9007199254740992%float in Hk by (vm_compute; reflexivity).
      rewrite Hfix in Hk. vm_compute in Hk. discriminate.
  - apply (proj2 (proj2 (proj2 C9_termination)) float _ _
             1e17%float 2e17%float 1%float 0%nat).
    + intros k Hk. replace k with 0%nat by lia. vm_compute. reflexivity.
    + vm_compute. reflexivity.
Defined.

(** C9 as stated fails in binary64: 1e17, 2e17 and the step 1.0 are finite,
    the step is positive, and [build_price_points(1e17, 2e17, 1.0)] never
    leaves its loop, since 1e17 + 1.0 rounds back to 1e17. *)
Lemma C9_counterexample :
  PrimFloat.ltb 0 1 = true
  /\ PrimFloat.is_finite 1e17 = true
  /\ PrimFloat.is_finite 2e17 = true
  /\ PrimFloat.add 1e17 1 = 1e17%float
  /\ forall fuel : nat,
       build_price_points fuel 1e17%float 2e17%float 1%float = OutOfFuel.
Proof.
  repeat split; try (vm_compute; reflexivity).
  intros fuel. apply price_loop_float_stuck.
Qed.

(** C10. For every option type string that is not exactly "call",
    [black_scholes_price] returns the put value (the intrinsic value
    [max(0, K - S)] at the boundary), so the sweep prices an unrecognized
    option type as a put and signals no error for it.  In every number
    model: the pricer does for such a type what it does for "put", at the
    boundary it returns [max(0.0, K - S)], past the boundary it returns a
    value exactly when each operation of the put expression does, and that
    value is the put expression; [index] does for such a type what it does
    for "put"; and on every page it renders each row of the expiry table
    is the put row [(max(0.0, strike - p) * 100 - premium * 100) *
    contracts].  Over the reals the put value is the put formula, every
    rendered page holds in each cell of the grid the total for the value
    of the put, and a page is rendered for every priceable form with valid
    dates, whatever the option type. *)
Theorem C10_other_option_types_priced_as_put :
  forall (other : string),
    other <> "call"%string ->
    (forall (F : Type) (A : Arith F) (L : Libm F) (S K T r sigma : F),
       black_scholes_price S K T r sigma other
       = black_scholes_price S K T r sigma "put")
    /\ (forall S K T r sigma : R,
          T <= 0 \/ sigma <= 0 ->
          black_scholes_price S K T r sigma other = Return (Rmax 0 (K - S)))
    /\ (forall S K T r sigma : R,
          0 < S -> 0 < K -> 0 < T -> 0 < sigma ->
          black_scholes_price S K T r sigma other
          = Return (spec_put_value S K T r sigma))
    /\ (forall (F : Type) (A : Arith F) (B : Builtins F) (L : Libm F)
          (fuel : nat) (today : date) (f : form F),
          option_type f = other ->
          index fuel today (POST f)
          = index fuel today (POST (set_option_type f "put")))
    /\ (forall (F : Type) (A : Arith F) (L : Libm F) (S K T r sigma : F),
          (T <=? lit 0)%py = true \/ (sigma <=? lit 0)%py = true ->
          black_scholes_price S K T r sigma other
          = Return (py_max (lit 0.0) (K - S)%py))
    /\ (forall (F : Type) (A : Arith F) (L : Libm F) (S K T r sigma v : F),
          ((T <=? lit 0) || (sigma <=? lit 0))%py = false ->
          black_scholes_price S K T r sigma other = Return v
          <-> exists q l sT d1 e n2 n1 : F,
                (S / K)%py = Return q /\ math_log q = Return l
                /\ math_sqrt T = Return sT
                /\ ((l + (r + lit 0.5 * sigma * sigma) * T) / (sigma * sT))%py
                   = Return d1
                /\ math_exp (- r * T)%py = Return e
                /\ norm_cdf (- (d1 - sigma * sT))%py = Return n2
                /\ norm_cdf (- d1)%py = Return n1
                /\ v = (K * e * n2 - S * n1)%py)
    /\ (forall (F : Type) (A : Arith F) (B : Builtins F) (L : Libm F)
          (fuel : nat) (today : date) (f : form F) (res : results F),
          option_type f = other ->
          index fuel today (POST f) = Return (results_html res) ->
          build_price_points fuel (stock_min f) (stock_max f) (lit 1.0)
          = Return (price_points res)
          /\ Forall2
               (fun (p : F) (r : row F) =>
                  exists c : F,
                    of_int (contracts f) = Return c
                    /\ price r = p
                    /\ pl_per_contract r
                       = (py_max (lit 0.0) (strike_price f - p) * lit 100
                          - premium f * lit 100)%py
                    /\ pl_total r = (pl_per_contract r * c)%py)
               (price_points res) (rows res))
    /\ (forall (fuel : nat) (today : date) (f : form R) (res : results R),
          option_type f = other ->
          index fuel today (POST f) = Return (results_html res) ->
          forall (d : date) (p : R),
            (today <= d <= Z.max today (expiry_date f))%Z ->
            In p (price_points res) ->
            In (isoformat d) (date_labels res)
            /\ exists (daily_map : dict R) (value : R),
                 dict_get (isoformat d) (grid res) = Some daily_map
                 /\ black_scholes_price p (strike_price f)
                      (IZR (Z.max 0 (expiry_date f - d)) / 365) 0.02
                      (implied_volatility f / 100) "put"
                    = Return value
                 /\ dict_get (format_2f p) daily_map
                    = Some ((value * 100 - premium f * 100)
                            * IZR (contracts f)))
    /\ (forall (today : date) (f : form R),
          option_type f = other ->
          valid_date today -> valid_date (expiry_date f) -> priceable f ->
          exists (fuel : nat) (res : results R),
            forall fuel' : nat, (fuel <= fuel')%nat ->
              index fuel' today (POST f) = Return (results_html res)).
Proof.
  intros other Hne. pose proof Hne as Hb. apply String.eqb_neq in Hb.
  split; [|split; [|split; [|split; [|split; [|split; [|split; [|split]]]]]]].
  - intros. apply black_scholes_price_not_call. exact Hne.
  - intros S K T r sigma H.
    rewrite black_scholes_price_boundary by exact H. rewrite Hb. reflexivity.
  - intros S K T r sigma HS HK HT Hs.
    rewrite black_scholes_price_general by assumption. rewrite Hb. reflexivity.
  - intros F A B L fuel today f Hf. apply index_not_call. rewrite Hf. exact Hne.
  - intros F A L S K T r sigma H.
    rewrite black_scholes_price_boundary_any by exact H. rewrite Hb.
    reflexivity.
  - intros F A L S K T r sigma v Ht.
    rewrite (black_scholes_price_steps S K T r sigma other v Ht). rewrite Hb.
    split.
    + intros (q & l & sT & d1 & e & Hq & Hl & Hs & H1 & He & n2 & n1 & H2 & H3 & Hv).
      exists q, l, sT, d1, e, n2, n1.
      repeat (split; [assumption|]). exact Hv.
    + intros (q & l & sT & d1 & e & n2 & n1 & Hq & Hl & Hs & H1 & He & H2 & H3 & Hv).
      exists q, l, sT, d1, e.
      repeat (split; [assumption|]). exists n2, n1.
      repeat (split; [assumption|]). exact Hv.
  - intros F A B L fuel today f res Hf H.
    pose proof (index_rows_any fuel today f res H) as Hrows.
    apply index_results_any in H. destruct H as (_ & Hpts & _).
    split; [exact Hpts|].
    revert Hrows. apply Forall2_impl.
    intros p r (c & Hc & ->). exists c.
    unfold row_of. rewrite Hf, Hb. cbn [price pl_per_contract pl_total].
    repeat split. exact Hc.
  - intros fuel today f res Hf H d p Hd Hp.
    pose proof (index_grid fuel today f res H) as [Hdl Hgrid].
    pose proof H as Hres. apply index_results in Hres.
    destruct Hres as (_ & Hpts & _ & _).
    apply build_price_points_unit_step in Hpts. destruct Hpts as (_ & Hh & _).
    replace d with (today + (d - today))%Z by lia.
    split.
    + rewrite Hdl. apply in_map_iff. exists (d - today)%Z.
      split; [reflexivity|]. apply in_range. lia.
    + destruct (Hgrid (d - today)%Z) as (_ & m & Hget & Hm); [lia|].
      destruct (daily_map_lookup f (price_points res) _ _ _ m Hh Hm p Hp)
        as (value & Hv & Hcell).
      exists m, value. split; [exact Hget|]. split; [|exact Hcell].
      rewrite Hf, (black_scholes_price_not_call _ _ _ _ _ _ Hne) in Hv.
      rewrite <- Hv. unfold spec_years_to_expiry.
      f_equal; cbn [lit Arith_R]; norm_lit; lra.
  - intros today f _. apply index_returns.
Qed.

#[local] Set Warnings "-inexact-float".

Lemma C10_witness :
  black_scholes_price 90 100 0 0.02 0.2 "straddle" = Return (Rmax 0 (100 - 90))
  /\ black_scholes_price 90 100 1 0.02 0.2 "straddle"
     = Return (spec_put_value 90 100 1 0.02 0.2)
  /\ (exists (fuel : nat) (res : results R),
        index fuel sample_today (POST (set_option_type sample_form "straddle"))
        = Return (results_html res)
        /\ Forall2
             (fun (p : R) (r : row R) =>
                price r = p
                /\ pl_per_contract r = Rmax 0 (100 - p) * 100 - 5 * 100
                /\ pl_total r = pl_per_contract r * 1)
             (price_points res) (rows res))
  /\ (forall L : Libm float,
        exists res : results float,
          index 3 739604%Z (POST straddle_float_form) = Return (results_html res)
          /\ price_points res = [99; 100; 101]%float
          /\ map (@pl_per_contract float) (rows res)
             = [-400; -500; -500]%float
          /\ Forall2
               (fun (p : float) (r : row float) =>
                  exists c : float,
                    of_int (contracts straddle_float_form) = Return c
                    /\ price r = p
                    /\ pl_per_contract r
                       = (py_max (lit 0.0) (100%float - p) * lit 100
                          - 5%float * lit 100)%py
                    /\ pl_total r = (pl_per_contract r * c)%py)
               (price_points res) (rows res)).
Proof.
  assert (Hne : "straddle" <> "call") by discriminate.
  destruct (C10_other_option_types_priced_as_put "straddle" Hne)
    as (_ & Hb & Hg & _ & _ & _ & Hrows & _ & Hret).
  split; [apply Hb; left; lra|].
  split; [apply Hg; lra|].
  split.
  - destruct sample_valid as (Ht & He & Hp).
    destruct (Hret sample_today (set_option_type sample_form "straddle")
                eq_refl Ht He Hp) as (fuel & res & Hres).
    exists fuel, res.
    pose proof (Hres fuel (Nat.le_refl fuel)) as H.
    split; [exact H|].
    destruct (Hrows R _ _ _ fuel sample_today
                (set_option_type sample_form "straddle") res eq_refl H)
      as [_ HF].
    revert HF. apply Forall2_impl.
    intros p r (c & Hc & Hp1 & Hp2 & Hp3).
    injection Hc as <-.
    cbn [set_option_type strike_price premium contracts sample_form] in *.
    rewrite py_max_R in Hp2. cbn [lit sub mul Arith_R] in Hp2, Hp3.
    split; [exact Hp1|]. split; [|exact Hp3].
    rewrite Hp2. norm_lit. reflexivity.
  - intros L.
    let v := eval vm_compute in
               (index (L := L) 3 739604%Z (POST straddle_float_form)) in
    match v with
    | Return (results_html ?r) => exists r
    end.
    assert (H : index 3 739604%Z (POST straddle_float_form)
                = Return (results_html
                    {| rows :=
                         [ {| price := 99; pl_total := -400;
                              pl_per_contract := -400 |};
                           {| price := 100; pl_total := -500;
                              pl_per_contract := -500 |};
                           {| price := 101; pl_total := -500;
                              pl_per_contract := -500 |} ]%float;
                       price_points := [99; 100; 101]%float;
                       date_labels := ["2025-12-19"];
                       grid :=
                         [("2025-12-19",
                           [("99.00", -400); ("100.00", -500);
                            ("101.00", -500)]%float)] |}))
      by (vm_compute; reflexivity).
    split; [exact H|]. split; [reflexivity|]. split; [reflexivity|].
    apply (Hrows float _ _ L 3%nat 739604%Z straddle_float_form _ eq_refl H).
Defined.

#[local] Set Warnings "+inexact-float".

Local Close Scope R_scope.

(** ** Further properties of the code *)

Local Open Scope string_scope.
Local Open Scope R_scope.

(** X1. Over the reals [norm_cdf] returns for every [x], its values at [x]
    and [-x] add up to 1, and its value at 0 is one half. *)
Theorem X1_norm_cdf_symmetry :
  forall x : R,
    exists a b : R,
      norm_cdf x = Return a /\ norm_cdf (- x) = Return b /\ a + b = 1
      /\ norm_cdf 0 = Return 0.5.
Proof.
  intros x. exists (spec_Phi x), (spec_Phi (- x)).
  rewrite !norm_cdf_R. repeat split.
  - rewrite spec_Phi_opp. lra.
  - rewrite spec_Phi_0. reflexivity.
Qed.

(** X2. Past the boundary test ([T > 0], [sigma > 0]) the pricer first
    divides the price by the strike and takes the logarithm of the ratio.
    In every number model what these two operations raise, the pricer
    raises.  In binary64, for every C library, a strike of zero raises
    [ZeroDivisionError] and a ratio [S / K <= 0] raises [ValueError].
    Over the reals the same holds, and there, in exact arithmetic, every
    other input returns the Black-Scholes value, also when price and
    strike are both negative. *)
Theorem X2_pricer_outcomes :
  (forall (F : Type) (A : Arith F) (L : Libm F) (S K T r sigma : F)
     (option_type : string),
     ((T <=? lit 0) || (sigma <=? lit 0))%py = false ->
     (forall e : exn,
        (S / K)%py = Raise e ->
        black_scholes_price S K T r sigma option_type = Raise e)
     /\ (forall (q : F) (e : exn),
           (S / K)%py = Return q -> math_log q = Raise e ->
           black_scholes_price S K T r sigma option_type = Raise e))
  /\ (forall (c : clib) (S K T r sigma : float) (option_type : string),
        ((T <=? lit 0) || (sigma <=? lit 0))%py = false ->
        (PrimFloat.eqb K 0 = true ->
         black_scholes_price (L := Libm_float c) S K T r sigma option_type
         = Raise ZeroDivisionError)
        /\ (PrimFloat.eqb K 0 = false ->
            PrimFloat.leb (PrimFloat.div S K) 0 = true ->
            black_scholes_price (L := Libm_float c) S K T r sigma option_type
            = Raise ValueError))
  /\ (forall (S K T r sigma : R) (option_type : string),
        0 < T -> 0 < sigma ->
        (K = 0 ->
         black_scholes_price S K T r sigma option_type = Raise ZeroDivisionError)
        /\ (K <> 0 -> S / K <= 0 ->
            black_scholes_price S K T r sigma option_type = Raise ValueError)
        /\ (K <> 0 -> 0 < S / K ->
            black_scholes_price S K T r sigma option_type
            = Return (if String.eqb option_type "call"
                      then spec_call_value S K T r sigma
                      else spec_put_value S K T r sigma))).
Proof.
  split; [|split].
  - intros F A L S K T r sigma option_type Hb. split.
    + intros e H. apply black_scholes_price_div_raises; assumption.
    + intros q e Hq H.
      apply (black_scholes_price_log_raises S K T r sigma q option_type e
               Hb Hq H).
  - intros c S K T r sigma option_type Hb. split.
    + intros HK. apply (black_scholes_price_div_raises (L := Libm_float c)).
      * exact Hb.
      * cbn [div Arith_float]. change PrimFloat.zero with 0%float.
        rewrite HK. reflexivity.
    + intros HK Hle.
      apply (black_scholes_price_log_raises (L := Libm_float c)
               S K T r sigma (PrimFloat.div S K) option_type ValueError Hb).
      * cbn [div Arith_float]. change PrimFloat.zero with 0%float.
        rewrite HK. reflexivity.
      * apply float_math_log_domain. exact Hle.
  - intros S K T r sigma option_type HT Hs. split; [|split].
    + intros ->. apply black_scholes_price_zero_strike; assumption.
    + intros HK HSK. apply black_scholes_price_log_domain; assumption.
    + intros HK HSK. apply black_scholes_price_ratio; assumption.
Qed.

Lemma X2_witness :
  black_scholes_price 100 0 1 0.02 0.2 "call" = Raise ZeroDivisionError
  /\ black_scholes_price 0 100 1 0.02 0.2 "call" = Raise ValueError
  /\ black_scholes_price (-50) 100 1 0.02 0.2 "put" = Raise ValueError
  /\ black_scholes_price (-50) (-100) 1 0.02 0.2 "put"
     = Return (spec_put_value (-50) (-100) 1 0.02 0.2)
  /\ (forall c : clib,
        black_scholes_price (L := Libm_float c)
          100%float 0%float 1%float (lit 0.02) (lit 0.2) "call"
        = Raise ZeroDivisionError)
  /\ (forall c : clib,
        black_scholes_price (L := Libm_float c)
          0%float 100%float 1%float (lit 0.02) (lit 0.2) "call"
        = Raise ValueError).
Proof.
  assert (HT : 0 < 1) by lra. assert (Hs : 0 < 0.2) by lra.
  destruct X2_pricer_outcomes as (_ & Hf & HR).
  split; [|split; [|split; [|split; [|split]]]].
  - apply (proj1 (HR 100 0 1 0.02 0.2 "call" HT Hs)).
    reflexivity.
  - apply (proj1 (proj2 (HR 0 100 1 0.02 0.2 "call" HT Hs))); lra.
  - apply (proj1 (proj2 (HR (-50) 100 1 0.02 0.2 "put" HT Hs)));
      lra.
  - apply (proj2 (proj2 (HR (-50) (-100) 1 0.02 0.2 "put" HT Hs)));
      lra.
  - intros c.
    assert (Hb : ((1%float <=? lit 0) || (lit (F := float) 0.2 <=? lit 0))%py
                 = false) by (vm_compute; reflexivity).
    apply (proj1 (Hf c 100%float 0%float 1%float (lit 0.02) (lit 0.2) "call"
                    Hb)).
    vm_compute. reflexivity.
  - intros c.
    assert (Hb : ((1%float <=? lit 0) || (lit (F := float) 0.2 <=? lit 0))%py
                 = false) by (vm_compute; reflexivity).
    apply (proj2 (Hf c 0%float 100%float 1%float (lit 0.02) (lit 0.2) "call"
                    Hb));
      vm_compute; reflexivity.
Defined.

(** X3. Over the reals, in exact arithmetic, put-call parity holds for
    every positive price and strike, not only at the money: with [T > 0]
    and [sigma > 0] the put and call values returned by
    [black_scholes_price] differ by [K e^(-rT) - S].  (In binary64 the
    difference is that number up to rounding, when both values are
    returned.) *)
Theorem X3_put_call_parity_everywhere :
  forall (S K T r sigma : R),
    0 < S -> 0 < K -> 0 < T -> 0 < sigma ->
    exists call put : R,
      black_scholes_price S K T r sigma "call" = Return call
      /\ black_scholes_price S K T r sigma "put" = Return put
      /\ put - call = K * Rtrigo_def.exp (- r * T) - S.
Proof.
  intros S K T r sigma HS HK HT Hs.
  exists (spec_call_value S K T r sigma), (spec_put_value S K T r sigma).
  split; [apply (black_scholes_price_general S K T r sigma "call" HS HK HT Hs)|].
  split; [apply (black_scholes_price_general S K T r sigma "put" HS HK HT Hs)|].
  unfold spec_call_value, spec_put_value.
  rewrite !spec_Phi_opp. ring.
Qed.

Lemma X3_witness :
  exists call put : R,
    black_scholes_price 120 100 0.5 0.02 0.3 "call" = Return call
    /\ black_scholes_price 120 100 0.5 0.02 0.3 "put" = Return put
    /\ put - call = 100 * Rtrigo_def.exp (Ropp 0.02 * 0.5) - 120.
Proof.
  apply (X3_put_call_parity_everywhere 120 100 0.5 0.02 0.3); lra.
Defined.

(** X4. At or after expiry, or without volatility, neither value is
    negative, at most one of the call and the put is worth something, and
    they differ by [K - S], whatever the signs of price and strike. *)
Theorem X4_boundary_values :
  forall (S K T r sigma : R),
    T <= 0 \/ sigma <= 0 ->
    exists call put : R,
      black_scholes_price S K T r sigma "call" = Return call
      /\ black_scholes_price S K T r sigma "put" = Return put
      /\ 0 <= call /\ 0 <= put /\ call * put = 0 /\ put - call = K - S.
Proof.
  intros S K T r sigma Hb.
  exists (Rmax 0 (S - K)), (Rmax 0 (K - S)).
  split; [apply (black_scholes_price_boundary S K T r sigma "call" Hb)|].
  split; [apply (black_scholes_price_boundary S K T r sigma "put" Hb)|].
  unfold Rmax.
  destruct (Rle_dec 0 (S - K)), (Rle_dec 0 (K - S)); repeat split; nra.
Qed.

Lemma X4_witness :
  exists call put : R,
    black_scholes_price 90 100 0 0.02 0.2 "call" = Return call
    /\ black_scholes_price 90 100 0 0.02 0.2 "put" = Return put
    /\ 0 <= call /\ 0 <= put /\ call * put = 0 /\ put - call = 100 - 90.
Proof.
  apply (X4_boundary_values 90 100 0 0.02 0.2). left. lra.
Defined.

(** X5. Over the reals, in exact arithmetic, the pricer is homogeneous of
    degree one in price and strike: multiplying both by a factor [c > 0]
    multiplies the returned value by [c], in the boundary case and in the
    Black-Scholes case alike.  (In binary64 the two sides agree up to
    rounding only.) *)
Theorem X5_pricer_homogeneous :
  forall (c S K T r sigma : R) (option_type : string),
    0 < c -> 0 < S -> 0 < K ->
    exists value : R,
      black_scholes_price S K T r sigma option_type = Return value
      /\ black_scholes_price (c * S) (c * K) T r sigma option_type
         = Return (c * value).
Proof.
  intros c S K T r sigma option_type Hc HS HK.
  assert (HcS : 0 < c * S) by (apply Rmult_lt_0_compat; assumption).
  assert (HcK : 0 < c * K) by (apply Rmult_lt_0_compat; assumption).
  destruct (Rle_dec T 0) as [HT|HT]; [|destruct (Rle_dec sigma 0) as [Hs|Hs]].
  - rewrite !black_scholes_price_boundary by (left; exact HT).
    eexists. split; [reflexivity|]. f_equal.
    destruct (String.eqb option_type "call");
      rewrite <- Rmult_minus_distr_l, <- Rmax_scale by lra;
      rewrite Rmult_0_r; reflexivity.
  - rewrite !black_scholes_price_boundary by (right; exact Hs).
    eexists. split; [reflexivity|]. f_equal.
    destruct (String.eqb option_type "call");
      rewrite <- Rmult_minus_distr_l, <- Rmax_scale by lra;
      rewrite Rmult_0_r; reflexivity.
  - rewrite !black_scholes_price_general by lra.
    eexists. split; [reflexivity|]. f_equal.
    unfold spec_call_value, spec_put_value, spec_d2.
    rewrite !spec_d1_scale by lra.
    destruct (String.eqb option_type "call"); ring.
Qed.

Lemma X5_witness :
  exists value : R,
    black_scholes_price 50 40 1 0.02 0.2 "call" = Return value
    /\ black_scholes_price (100 * 50) (100 * 40) 1 0.02 0.2 "call"
       = Return (100 * value).
Proof.
  apply (X5_pricer_homogeneous 100 50 40 1 0.02 0.2 "call"); lra.
Defined.

(** X6. In every number model [build_price_points] returns a list exactly
    when, within the iterations allowed, some value of [current] fails the
    test of the loop; the list then holds the rounded values of [current]
    before the first failure, in order, and nothing else. *)
Theorem X6_price_points_in_every_model :
  forall (F : Type) (A : Arith F) (B : Builtins F) (fuel : nat)
    (stock_min stock_max step : F) (prices : list F),
    build_price_points fuel stock_min stock_max step = Return prices
    <-> exists n : nat,
          (n <= fuel)%nat
          /\ prices = visited step n stock_min
          /\ (forall k : nat, (k < n)%nat ->
                (current_after step k stock_min <=? stock_max + lit 1e-9)%py
                = true)
          /\ (current_after step n stock_min <=? stock_max + lit 1e-9)%py
             = false.
Proof.
  intros F A B fuel stock_min stock_max step prices.
  unfold build_price_points. rewrite price_loop_list. cbn [app]. reflexivity.
Qed.

(** X7. Over the reals and with a positive step, [build_price_points]
    returns the rounded values [stock_min + k * step] for
    [k = 0, ..., n - 1], where [n] counts the [k] with
    [stock_min + k * step <= stock_max + 1e-9]:
    [n = floor((stock_max + 1e-9 - stock_min) / step) + 1], or 0 when that
    is negative. *)
Theorem X7_price_points_closed_form :
  forall stock_min stock_max step : R,
    0 < step ->
    (forall fuel : nat,
       (axis_count stock_min stock_max step <= fuel)%nat ->
       build_price_points fuel stock_min stock_max step
       = Return (axis_points stock_min step
                   (axis_count stock_min stock_max step)))
    /\ List.length
         (axis_points stock_min step (axis_count stock_min stock_max step))
       = axis_count stock_min stock_max step
    /\ forall k : nat,
         (k < axis_count stock_min stock_max step)%nat
         <-> stock_min + INR k * step <= stock_max + 1 / 1000000000.
Proof.
  intros stock_min stock_max step Hstep. split; [|split].
  - intros fuel Hfuel. apply build_price_points_axis; assumption.
  - unfold axis_points. rewrite List.length_map, List.length_seq. reflexivity.
  - intros k. apply axis_count_spec. exact Hstep.
Qed.

Lemma X7_witness :
  (forall fuel : nat,
     (axis_count 10 12.5 0.5 <= fuel)%nat ->
     build_price_points fuel 10 12.5 0.5
     = Return (axis_points 10 0.5 (axis_count 10 12.5 0.5)))
  /\ List.length (axis_points 10 0.5 (axis_count 10 12.5 0.5))
     = axis_count 10 12.5 0.5
  /\ forall k : nat,
       (k < axis_count 10 12.5 0.5)%nat
       <-> 10 + INR k * 0.5 <= 12.5 + 1 / 1000000000.
Proof.
  apply (X7_price_points_closed_form 10 12.5 0.5). lra.
Defined.

(** X8. A step that is not positive makes the loop of
    [build_price_points] run for ever unless the range is empty from the
    start: the function then returns for no number of iterations, and it
    returns the empty list when [stock_min > stock_max + 1e-9]. *)
Theorem X8_step_not_positive :
  forall (stock_min stock_max step : R),
    step <= 0 ->
    (stock_min <= stock_max + 1 / 1000000000 ->
     forall fuel : nat,
       build_price_points fuel stock_min stock_max step = OutOfFuel)
    /\ (stock_max + 1 / 1000000000 < stock_min ->
        forall fuel : nat,
          build_price_points fuel stock_min stock_max step = Return []).
Proof.
  intros stock_min stock_max step Hstep. split.
  - intros Hle fuel. apply price_loop_no_progress; assumption.
  - intros Hlt fuel. unfold build_price_points. rewrite price_loop_unfold.
    destruct (R_leb stock_min (stock_max + Q2R 1e-9)) eqn:E; [|reflexivity].
    apply R_leb_spec in E. norm_lit. lra.
Qed.

Lemma X8_witness :
  (forall fuel : nat, build_price_points fuel 10 20 0 = OutOfFuel)
  /\ (forall fuel : nat, build_price_points fuel 20 10 (-1) = Return []).
Proof.
  split.
  - apply (proj1 (X8_step_not_positive 10 20 0 ltac:(lra))). lra.
  - apply (proj2 (X8_step_not_positive 20 10 (-1) ltac:(lra))). lra.
Defined.

(** X9. After a POST, [index] never lets a [ValueError] out and never shows
    the form without a message; it shows the message about the price range
    exactly when [stock_max < stock_min].  This holds in every number
    model; the last part reads the comparison over the reals. *)
Theorem X9_form_page_after_post :
  (forall (F : Type) (A : Arith F) (B : Builtins F) (L : Libm F)
     (fuel : nat) (today : date) (f : form F),
     index fuel today (POST f) <> Raise ValueError
     /\ index fuel today (POST f) <> Return (index_html None)
     /\ (index fuel today (POST f)
         = Return (index_html
             (Some "Max stock price must be greater than or equal to min stock price."))
         <-> (stock_max f <? stock_min f)%py = true))
  /\ (forall (fuel : nat) (today : date) (f : form R),
        index fuel today (POST f)
        = Return (index_html
            (Some "Max stock price must be greater than or equal to min stock price."))
        <-> stock_max f < stock_min f).
Proof.
  assert (Hgen : forall (F : Type) (A : Arith F) (B : Builtins F) (L : Libm F)
            (fuel : nat) (today : date) (f : form F),
            index fuel today (POST f)
            = Return (index_html
                (Some "Max stock price must be greater than or equal to min stock price."))
            <-> ltb (stock_max f) (stock_min f) = true).
  { intros F A B L fuel today f. rewrite index_page. split.
    - intros [[H _]|[_ H]]; [exact H | discriminate].
    - intros H. left. split; [exact H | reflexivity]. }
  split.
  - intros F A B L fuel today f. split; [apply index_no_ValueError|].
    split; [|apply Hgen].
    intros H. apply index_page in H.
    destruct H as [[_ H]|[_ H]]; discriminate.
  - intros fuel today f. rewrite Hgen. apply ltb_R.
Qed.

(** X10. A strike of zero is not handled.  In every number model, when
    the view gets to the first cell of its grid (the range check passes,
    the price axis is built, the number of contracts converts, and the
    volatility and the time to expiry are computed) with time and
    volatility left, and the division of the first price by the strike
    raises [ZeroDivisionError], that error passes the [except] clause of
    [index], which catches [ValueError] and [TypeError] only. *)
Theorem X10_zero_strike_not_handled :
  forall (F : Type) (A : Arith F) (B : Builtins F) (L : Libm F)
    (fuel : nat) (today : date) (f : form F) (p sigma T : F),
    reaches_first_cell fuel today f p sigma T ->
    ((T <=? lit 0) || (sigma <=? lit 0))%py = false ->
    (p / strike_price f)%py = Raise ZeroDivisionError ->
    index fuel today (POST f) = Raise ZeroDivisionError.
Proof.
  intros F A B L fuel today f p sigma T Hreach Hb Hdiv.
  cbn [index].
  rewrite (index_post_first_cell_any fuel today f p sigma T ZeroDivisionError
             Hreach).
  - reflexivity.
  - apply black_scholes_price_div_raises; assumption.
Qed.

Lemma X10_witness :
  (forall L : Libm float,
     index 3 sample_today (POST zero_strike_float_form)
     = Raise ZeroDivisionError)
  /\ exists fuel : nat,
       forall fuel' : nat, (fuel <= fuel')%nat ->
         index fuel' sample_today (POST zero_strike_form)
         = Raise ZeroDivisionError.
Proof.
  split.
  - intros L.
    apply (X10_zero_strike_not_handled float _ _ L 3 sample_today
             zero_strike_float_form 99%float
             (PrimFloat.div 20 100) (PrimFloat.div 2 365)).
    + unfold reaches_first_cell.
      split; [vm_compute; reflexivity|].
      split; [exists [100; 101]%float; vm_compute; reflexivity|].
      split; [exists 1%float; vm_compute; reflexivity|].
      split; [vm_compute; reflexivity|].
      split; [unfold valid_date, sample_today, MAXORDINAL; lia|].
      exists 2%float. split; vm_compute; reflexivity.
    + vm_compute. reflexivity.
    + vm_compute. reflexivity.
  - destruct (reaches_first_cell_R sample_today zero_strike_form)
      as [fuel Hreach].
    + unfold valid_date, sample_today, MAXORDINAL. lia.
    + cbn [stock_min stock_max zero_strike_form]. lra.
    + exists fuel. intros fuel' Hle.
      apply (X10_zero_strike_not_handled R _ _ _ fuel' sample_today
               zero_strike_form _ _ _ (Hreach fuel' Hle)).
      * unfold spec_years_to_expiry, sample_today.
        cbn [expiry_date implied_volatility zero_strike_form].
        replace (Z.max 0 (739606 - 739604)) with 2%Z by reflexivity.
        unfold_R. norm_lit. decide_R. reflexivity.
      * cbn [strike_price zero_strike_form]. unfold_R. decide_R. reflexivity.
Defined.

(** X11. A logarithm outside its domain is reported as invalid input.  In
    every number model, when the view gets to the first cell of its grid
    with time and volatility left, the division of the first price by the
    strike returns, and [math.log] raises [ValueError] on the ratio (in
    binary64 and over the reals: a ratio that is zero or negative), [index]
    shows the form with the message about invalid input, although every
    field held a valid number. *)
Theorem X11_log_domain_reported_as_invalid_input :
  forall (F : Type) (A : Arith F) (B : Builtins F) (L : Libm F)
    (fuel : nat) (today : date) (f : form F) (p sigma T q : F),
    reaches_first_cell fuel today f p sigma T ->
    ((T <=? lit 0) || (sigma <=? lit 0))%py = false ->
    (p / strike_price f)%py = Return q ->
    math_log q = Raise ValueError ->
    index fuel today (POST f)
    = Return (index_html
        (Some "Invalid input. Please make sure all numeric fields contain valid numbers.")).
Proof.
  intros F A B L fuel today f p sigma T q Hreach Hb Hdiv Hlog.
  cbn [index].
  rewrite (index_post_first_cell_any fuel today f p sigma T ValueError Hreach).
  - reflexivity.
  - apply (black_scholes_price_log_raises p (strike_price f) T (lit 0.02)
             sigma q (option_type f) ValueError Hb Hdiv Hlog).
Qed.

Lemma X11_witness :
  (forall c : clib,
     index (L := Libm_float c) 3 sample_today (POST zero_price_float_form)
     = Return (index_html
         (Some "Invalid input. Please make sure all numeric fields contain valid numbers.")))
  /\ exists fuel : nat,
       forall fuel' : nat, (fuel <= fuel')%nat ->
         index fuel' sample_today (POST zero_price_form)
         = Return (index_html
             (Some "Invalid input. Please make sure all numeric fields contain valid numbers.")).
Proof.
  split.
  - intros c.
    apply (X11_log_domain_reported_as_invalid_input float _ _ (Libm_float c)
             3 sample_today zero_price_float_form 0%float
             (PrimFloat.div 20 100) (PrimFloat.div 2 365) 0%float).
    + unfold reaches_first_cell.
      split; [vm_compute; reflexivity|].
      split; [exists [1; 2]%float; vm_compute; reflexivity|].
      split; [exists 1%float; vm_compute; reflexivity|].
      split; [vm_compute; reflexivity|].
      split; [unfold valid_date, sample_today, MAXORDINAL; lia|].
      exists 2%float. split; vm_compute; reflexivity.
    + vm_compute. reflexivity.
    + vm_compute. reflexivity.
    + apply float_math_log_domain. vm_compute. reflexivity.
  - destruct (reaches_first_cell_R sample_today zero_price_form)
      as [fuel Hreach].
    + unfold valid_date, sample_today, MAXORDINAL. lia.
    + cbn [stock_min stock_max zero_price_form]. lra.
    + exists fuel. intros fuel' Hle.
      apply (X11_log_domain_reported_as_invalid_input R _ _ _ fuel'
               sample_today zero_price_form _ _ _ 0 (Hreach fuel' Hle)).
      * unfold spec_years_to_expiry, sample_today.
        cbn [expiry_date implied_volatility zero_price_form].
        replace (Z.max 0 (739606 - 739604)) with 2%Z by reflexivity.
        unfold_R. norm_lit. decide_R. reflexivity.
      * cbn [stock_min strike_price zero_price_form].
        rewrite (round2_R_IZR 0). unfold_R. decide_R. f_equal. lra.
      * unfold_R. decide_R. reflexivity.
Defined.

(** X12. On every results page rendered when the expiry is not after
    today, or the volatility is zero or negative, the pricer was only asked
    for intrinsic values: on every day of the grid each price holds the
    total of the expiry table,
    [(intrinsic value * 100 - premium * 100) * contracts], and this needs
    nothing of the strike and the prices, which may be zero or negative. *)
Theorem X12_grid_without_time_value :
  forall (fuel : nat) (today : date) (f : form R) (res : results R),
    index fuel today (POST f) = Return (results_html res) ->
    (expiry_date f <= today)%Z \/ implied_volatility f <= 0 ->
    forall (k : Z) (p : R),
      (0 <= k <= Z.max 0 (expiry_date f - today))%Z ->
      In p (price_points res) ->
      exists daily_map : dict R,
        dict_get (isoformat (today + k)%Z) (grid res) = Some daily_map
        /\ dict_get (format_2f p) daily_map
           = Some (spec_total_pl f
                     (spec_intrinsic_value (option_type f) p (strike_price f)))
        /\ In (spec_row f p) (rows res).
Proof.
  intros fuel today f res H Hflat k p Hk Hp.
  assert (Hb : spec_years_to_expiry (expiry_date f) (today + k)%Z <= 0
               \/ implied_volatility f / 100 <= 0).
  { destruct Hflat as [Hexp|Hiv]; [left | right; lra].
    unfold spec_years_to_expiry.
    replace (Z.max 0 (expiry_date f - (today + k))) with 0%Z by lia. lra. }
  pose proof (index_rows fuel today f res H) as Hrows.
  destruct (index_grid fuel today f res H) as [_ Hgrid].
  apply index_results in H. destruct H as (_ & Hpts & _ & _).
  apply build_price_points_unit_step in Hpts. destruct Hpts as (_ & Hh & _).
  destruct (Hgrid k Hk) as (_ & m & Hget & Hm).
  exists m. split; [exact Hget|].
  destruct (daily_map_lookup f (price_points res) _ _ _ m Hh Hm p Hp)
    as (value & Hv & Hcell).
  rewrite black_scholes_price_boundary in Hv by exact Hb.
  injection Hv as <-. split; [exact Hcell|].
  rewrite Hrows. apply in_map. exact Hp.
Qed.

Lemma X12_witness :
  exists (fuel : nat) (res : results R),
    index fuel sample_today (POST flat_form) = Return (results_html res)
    /\ forall (k : Z) (p : R),
         (0 <= k <= Z.max 0 (expiry_date flat_form - sample_today))%Z ->
         In p (price_points res) ->
         exists daily_map : dict R,
           dict_get (isoformat (sample_today + k)%Z) (grid res)
           = Some daily_map
           /\ dict_get (format_2f p) daily_map
              = Some (spec_total_pl flat_form
                        (spec_intrinsic_value (option_type flat_form) p
                           (strike_price flat_form)))
           /\ In (spec_row flat_form p) (rows res).
Proof.
  assert (Hflat : (expiry_date flat_form <= sample_today)%Z
                  \/ implied_volatility flat_form <= 0)
    by (right; cbn [implied_volatility flat_form]; lra).
  destruct (index_returns_cells sample_today flat_form) as [res Hres].
  - unfold valid_date, sample_today, MAXORDINAL. lia.
  - unfold valid_date, MAXORDINAL. cbn [expiry_date flat_form]. lia.
  - cbn [stock_min stock_max flat_form]. lra.
  - intros k p Hk _.
    rewrite black_scholes_price_boundary; [eauto|].
    right. cbn [implied_volatility flat_form]. lra.
  - eexists. exists res.
    pose proof (Hres _ (Nat.le_refl _)) as H.
    split; [exact H|].
    apply (X12_grid_without_time_value _ sample_today flat_form res H Hflat).
Defined.



(** X14. The grid of every results page, which [json.dumps] writes out in
    the order of insertion, has exactly one dictionary for each date
    label, in the order of the labels, and each of them has exactly one
    entry for each price point, in the order of the price axis: no two
    dates and no two prices share a key. *)
Theorem X14_grid_shape :
  forall (fuel : nat) (today : date) (f : form R) (res : results R),
    index fuel today (POST f) = Return (results_html res) ->
    dict_keys (grid res) = date_labels res
    /\ NoDup (date_labels res)
    /\ NoDup (map format_2f (price_points res))
    /\ forall (date_str : string) (daily_map : dict R),
         In (date_str, daily_map) (grid res) ->
         dict_keys daily_map = map format_2f (price_points res).
Proof.
  intros fuel today f res H. apply (index_grid_shape fuel today f res H).
Qed.

Lemma X14_witness :
  exists (fuel : nat) (res : results R),
    index fuel sample_today (POST sample_form) = Return (results_html res)
    /\ dict_keys (grid res) = date_labels res
    /\ NoDup (date_labels res)
    /\ NoDup (map format_2f (price_points res))
    /\ forall (date_str : string) (daily_map : dict R),
         In (date_str, daily_map) (grid res) ->
         dict_keys daily_map = map format_2f (price_points res).
Proof.
  destruct sample_index_returns as (fuel & res & Hret & _).
  exists fuel, res.
  pose proof (Hret fuel (Nat.le_refl fuel)) as H.
  split; [exact H|].
  apply (X14_grid_shape fuel sample_today sample_form res H).
Defined.

(** X15. In every number model, a number of contracts that has no float
    is not handled: the first row of the expiry table multiplies by it,
    the conversion raises [OverflowError], and the error passes the
    [except] clause of [index].  In binary64 this happens for 10^400
    contracts. *)
Theorem X15_contracts_overflow_not_handled :
  forall (F : Type) (A : Arith F) (B : Builtins F) (L : Libm F)
    (fuel : nat) (today : date) (f : form F) (p : F) (rest : list F),
    (stock_max f <? stock_min f)%py = false ->
    build_price_points fuel (stock_min f) (stock_max f) (lit 1.0)
    = Return (p :: rest) ->
    of_int (contracts f) = Raise OverflowError ->
    index fuel today (POST f) = Raise OverflowError.
Proof.
  intros F A B L fuel today f p rest Hlt Hpts Hc.
  apply (index_contracts_overflow fuel today f p rest Hlt Hpts Hc).
Qed.

Lemma X15_witness :
  of_int (F := float) (contracts huge_contracts_form) = Raise OverflowError
  /\ forall (L : Libm float) (today : date),
       index 3 today (POST huge_contracts_form) = Raise OverflowError.
Proof.
  split; [vm_compute; reflexivity|].
  intros L today.
  apply (X15_contracts_overflow_not_handled float _ _ L 3 today
           huge_contracts_form 99%float [100%float; 101%float]).
  - vm_compute. reflexivity.
  - vm_compute. reflexivity.
  - vm_compute. reflexivity.
Defined.

(** X16. In binary64 a NaN as [stock_min] or [stock_max] passes the check
    of the price range, since every comparison with NaN is false, and
    fails the first test of the loop of [build_price_points]: the price
    axis is empty, and with the expiry not after today [index] renders an
    empty expiry table and a grid whose only day has no prices. *)
Theorem X16_nan_bound_gives_empty_axis :
  forall (fuel : nat) (today : date) (f : form float),
    stock_min f = nan \/ stock_max f = nan ->
    (stock_max f <? stock_min f)%py = false
    /\ build_price_points fuel (stock_min f) (stock_max f) (lit 1.0)
       = Return []
    /\ forall L : Libm float,
         valid_date today -> (expiry_date f <= today)%Z ->
         index fuel today (POST f)
         = Return (results_html (empty_results today)).
Proof.
  intros fuel today f Hnan. split; [|split].
  - cbn [ltb Arith_float]. destruct Hnan as [->| ->].
    + apply float_ltb_nan_r.
    + apply float_ltb_nan_l.
  - apply price_loop_nan. exact Hnan.
  - intros L Ht He. apply index_nan; assumption.
Qed.

Lemma X16_witness :
  (stock_max nan_form <? stock_min nan_form)%py = false
  /\ build_price_points 0 (stock_min nan_form) (stock_max nan_form) (lit 1.0)
     = Return []
  /\ forall L : Libm float,
       index 0 739606%Z (POST nan_form)
       = Return (results_html (empty_results 739606%Z)).
Proof.
  destruct (X16_nan_bound_gives_empty_axis 0 739606%Z nan_form
              (or_introl eq_refl)) as (H1 & H2 & H3).
  split; [exact H1|]. split; [exact H2|].
  intros L. apply H3.
  - unfold valid_date, MAXORDINAL. lia.
  - cbn [expiry_date nan_form]. lia.
Defined.

Local Close Scope R_scope.
